(** * backend-devhub: asset lifecycle and scan orchestration

    A shallow embedding of the TypeScript services and controllers that
    move project assets between Cloudinary folders and have uploads wait
    for a VirusTotal scan:

    - [src/services/antivirus.service.ts]  (module [Antivirus])
    - [src/services/upload.service.ts]     (module [Upload])
    - [src/models/Project.ts]              (module [Model])
    - [src/utils/ids.ts]                   (module [Ids])
    - [src/controllers/admin.controller.ts] publishProject, approveDraft,
      rejectDraft                          (module [Admin])
    - [src/controllers/projects.controller.ts] updateProject,
      createProjectWithFiles               (module [Projects])

    and, beside the handlers above, the batch scan and the statistics of
    the antivirus service ([AntivirusBatch]), the scan methods of the
    model ([ProjectMethods]), the other moderation handlers
    ([Moderation]), resubmitProject and the member lists of createProject
    ([Authoring]), likeProject ([Likes]), the file uploads of
    [src/controllers/upload.controller.ts] ([UploadController]) and
    markFileAsSafe of [src/controllers/admin.antivirus.controller.ts]
    ([AntivirusAdmin]).

    Asynchronous functions are state-passing computations that may throw
    (the rejected promise); [await] is sequencing.  Remote services answer
    from reply streams held in the state, so every theorem quantifies over
    every behaviour of VirusTotal and Cloudinary. *)

From stdpp Require Import gmap strings list pretty.
From Stdlib Require Import ZArith String Ascii.
From Stdlib Require QArith.

Open Scope string_scope.
Open Scope list_scope.
Open Scope Z_scope.

(** ** JavaScript strings *)

Module Js.

(** [s.includes(sub)] *)
Fixpoint includes (s sub : string) : bool :=
  if String.prefix sub s then true
  else match s with
       | EmptyString => false
       | String _ rest => includes rest sub
       end.

(** A string in a condition is true unless it is empty. *)
Definition truthy (s : string) : bool :=
  match s with EmptyString => false | String _ _ => true end.


(** White space removed by [trim], on the one-byte characters: tab, line
    feed, vertical tab, form feed, carriage return and space. *)
Definition is_space (c : ascii) : bool :=
  let n := nat_of_ascii c in
  ((9 <=? n)%nat && (n <=? 13)%nat) || (n =? 32)%nat.

Fixpoint trim_start (s : string) : string :=
  match s with
  | String c rest => if is_space c then trim_start rest else s
  | EmptyString => EmptyString
  end.

(** Drops trailing white space: a character is kept when something after
    it survives, or when it is not white space itself. *)
Fixpoint trim_end (s : string) : string :=
  match s with
  | EmptyString => EmptyString
  | String c rest =>
      match trim_end rest with
      | EmptyString => if is_space c then EmptyString else String c EmptyString
      | kept => String c kept
      end
  end.

Definition trim (s : string) : string := trim_end (trim_start s).


(** [s.split(sep)] for a one-character separator: never an empty list. *)
Fixpoint split (sep : ascii) (s : string) : list string :=
  match s with
  | EmptyString => [EmptyString]
  | String c rest =>
      if Ascii.eqb c sep then EmptyString :: split sep rest
      else match split sep rest with
           | piece :: pieces => String c piece :: pieces
           | [] => [String c EmptyString]
           end
  end.

(** [s.split('/').pop()] *)
Definition last_segment (s : string) : string := List.last (split "/" s) EmptyString.

(** [s.split('.')[0]] *)
Definition before_dot (s : string) : string := List.hd EmptyString (split "." s).

End Js.

(** ** Promises: state, result or rejection *)

Inductive Res (A : Type) : Type :=
| Ok (a : A)
| Throw (message : string).
Arguments Ok {A} a.
Arguments Throw {A} message.

(** An async function over a world [W]: the effects made before a throw
    stay made. *)
Definition Eff (W A : Type) : Type := W -> Res A * W.

Definition ret {W A} (a : A) : Eff W A := fun w => (Ok a, w).

Definition throw {W A} (message : string) : Eff W A := fun w => (Throw message, w).

Definition bind {W A B} (m : Eff W A) (k : A -> Eff W B) : Eff W B :=
  fun w => match m w with
           | (Ok a, w') => k a w'
           | (Throw e, w') => (Throw e, w')
           end.

(** [try { m } catch (error) { h error.message }] *)
Definition try_catch {W A} (m : Eff W A) (h : string -> Eff W A) : Eff W A :=
  fun w => match m w with
           | (Ok a, w') => (Ok a, w')
           | (Throw e, w') => h e w'
           end.

Definition gets {W A} (f : W -> A) : Eff W A := fun w => (Ok (f w), w).

Definition modify {W} (f : W -> W) : Eff W unit := fun w => (Ok tt, f w).

(** Runs a computation of a component inside the world that holds it. *)
Definition lift {W V A} (proj : W -> V) (inj : V -> W -> W) (m : Eff V A) : Eff W A :=
  fun w => let '(r, v') := m (proj w) in (r, inj v' w).

Notation "'let*' x ':=' m 'in' k" := (bind m (fun x => k))
  (at level 10, x pattern, m at level 100, k at level 200).
Notation "m ';;' k" := (bind m (fun _ => k))
  (at level 100, k at level 200, right associativity).

(** What a remote HTTP call comes back with. *)
Inductive HttpReply (A : Type) : Type :=
| NetError (message : string)               (* fetch rejects, or the body is not JSON *)
| HttpError (status : Z) (statusText : string)  (* response.ok is false *)
| Json (body : A).
Arguments NetError {A} message.
Arguments HttpError {A} status statusText.
Arguments Json {A} body.

(** Functions of the platform that the repository calls and does not
    define. *)
Class Platform := {
  sha256 : list Byte.byte -> string;      (* crypto.createHash('sha256')...digest('hex') *)
  objectIdIsValid : string -> bool;       (* mongoose.Types.ObjectId.isValid *)
  extname : string -> string;             (* path.extname *)
}.

(** ** src/services/antivirus.service.ts *)

Module Antivirus.

Record EngineScan := {
  detected : bool;
  result : option string;
}.

Record VirusTotalUploadResponse := {
  up_scan_id : string;
  up_response_code : Z;
  up_verbose_msg : string;
}.

(** [scans] is held as [Object.entries] lists it. *)
Record VirusTotalReportResponse := {
  response_code : Z;
  verbose_msg : string;
  resource : string;
  scan_id : string;
  scan_date : string;
  positives : Z;
  total : Z;
  scans : list (string * EngineScan);
}.

Record EngineDetail := {
  name : string;
  eng_detected : bool;
  eng_result : option string;
}.

Record ScanDetails := {
  det_positives : Z;
  det_total : Z;
  scanDate : string;
  engines : list EngineDetail;
}.

Record VirusTotalScanResult := {
  isSafe : bool;
  scanId : string;
  threats : list string;
  details : option ScanDetails;
  error : option string;
}.

(** The private fields of the singleton [AntivirusService]. *)
Record Service := {
  API_KEY : string;
  lastRequestTime : Z;
  requestCount : Z;
  dailyRequestCount : Z;
  lastResetDate : Z;
}.

(** Requests that reach VirusTotal, and the waits between them. *)
Inductive Call :=
| GetReport (resource : string)                 (* GET /file/report *)
| PostScan (filename : string) (size : nat)     (* POST /file/scan *)
| Sleep (ms : Z).

(** The service instance, the clock and the remote end point by end
    point: each request takes the next reply of its end point, and an
    exhausted stream is a host that cannot be reached. *)
Record World := {
  svc : Service;
  now : Z;
  reportReplies : list (HttpReply VirusTotalReportResponse);
  scanReplies : list (HttpReply VirusTotalUploadResponse);
  calls : list Call;
}.

Definition MAX_FILE_SIZE : Z := 32 * 1024 * 1024.
Definition RATE_LIMIT_DELAY : Z := 15000.
Definition DAILY_LIMIT : Z := 500.

Definition with_svc (f : Service -> Service) (w : World) : World :=
  {| svc := f (svc w); now := now w; reportReplies := reportReplies w;
     scanReplies := scanReplies w; calls := calls w |}.

Definition log (c : Call) (w : World) : World :=
  {| svc := svc w; now := now w; reportReplies := reportReplies w;
     scanReplies := scanReplies w; calls := calls w ++ [c] |}.

(** [await new Promise(resolve => setTimeout(resolve, ms))] *)
Definition sleep (ms : Z) : Eff World unit :=
  modify (fun w =>
    log (Sleep ms)
      {| svc := svc w; now := now w + ms; reportReplies := reportReplies w;
         scanReplies := scanReplies w; calls := calls w |}).

(** [new Date().toDateString()], as the number of the calendar day. *)
Definition toDateString (t : Z) : Z := t / 86400000.

Definition reset_day (today : Z) (s : Service) : Service :=
  {| API_KEY := API_KEY s; lastRequestTime := lastRequestTime s;
     requestCount := requestCount s; dailyRequestCount := 0; lastResetDate := today |}.

Definition count_request (t : Z) (s : Service) : Service :=
  {| API_KEY := API_KEY s; lastRequestTime := t;
     requestCount := requestCount s + 1;
     dailyRequestCount := dailyRequestCount s + 1; lastResetDate := lastResetDate s |}.

Definition rateLimitCheck : Eff World unit :=
  let* currentDate := gets (fun w => toDateString (now w)) in
  let* lastReset := gets (fun w => lastResetDate (svc w)) in
  (if bool_decide (lastReset = currentDate) then ret tt
   else modify (with_svc (reset_day currentDate))) ;;
  let* daily := gets (fun w => dailyRequestCount (svc w)) in
  if DAILY_LIMIT <=? daily
  then throw "Límite diario de escaneo alcanzado. Intenta mañana."
  else
    let* timeSinceLastRequest := gets (fun w => now w - lastRequestTime (svc w)) in
    (if timeSinceLastRequest <? RATE_LIMIT_DELAY
     then sleep (RATE_LIMIT_DELAY - timeSinceLastRequest)
     else ret tt) ;;
    modify (fun w => with_svc (count_request (now w)) w).

Definition calculateFileHash `{Platform} (buffer : list Byte.byte) : string := sha256 buffer.

(** [fetch(BASE_URL/file/report?apikey=..&resource=..)] *)
Definition fetch_report (resource : string) : Eff World (HttpReply VirusTotalReportResponse) :=
  fun w =>
    let w1 := log (GetReport resource) w in
    match reportReplies w1 with
    | [] => (Ok (NetError "connect ECONNREFUSED"), w1)
    | reply :: rest =>
        (Ok reply, {| svc := svc w1; now := now w1; reportReplies := rest;
                      scanReplies := scanReplies w1; calls := calls w1 |})
    end.

(** [fetch(BASE_URL/file/scan, { method: 'POST', body: formData })] *)
Definition fetch_scan (buffer : list Byte.byte) (filename : string)
  : Eff World (HttpReply VirusTotalUploadResponse) :=
  fun w =>
    let w1 := log (PostScan filename (List.length buffer)) w in
    match scanReplies w1 with
    | [] => (Ok (NetError "connect ECONNREFUSED"), w1)
    | reply :: rest =>
        (Ok reply, {| svc := svc w1; now := now w1; reportReplies := reportReplies w1;
                      scanReplies := rest; calls := calls w1 |})
    end.

Definition uploadFileForScan (buffer : list Byte.byte) (filename : string) : Eff World string :=
  try_catch
    (rateLimitCheck ;;
     if MAX_FILE_SIZE <? Z.of_nat (List.length buffer)
     then throw ("Archivo demasiado grande para escaneo. Máximo: "
                 +:+ pretty (MAX_FILE_SIZE / (1024 * 1024)) +:+ "MB")
     else
       let* response := fetch_scan buffer filename in
       match response with
       | NetError e => throw e
       | HttpError status statusText =>
           throw ("VirusTotal upload failed: " +:+ pretty status +:+ " " +:+ statusText)
       | Json result =>
           if bool_decide (up_response_code result = 1)
           then ret (up_scan_id result)
           else throw ("VirusTotal upload error: " +:+ up_verbose_msg result)
       end)
    (fun message => throw ("Error al subir archivo para escaneo: " +:+ message)).

(** The [while (retries < maxRetries)] loop of [getScanReport], by
    recursion on [maxRetries - retries]: every path that goes round the
    loop again has incremented [retries] exactly once. *)
Fixpoint getScanReport_from (resource : string) (maxRetries remaining : nat)
  : Eff World VirusTotalReportResponse :=
  match remaining with
  | O => throw "Máximo número de intentos alcanzado"
  | S remaining' =>
      let retries := (maxRetries - remaining)%nat in
      (* the catch block, entered with the current value of [retries] *)
      let on_error (retries : nat) (message : string) : Eff World VirusTotalReportResponse :=
        if (maxRetries - 1 <=? retries)%nat
        then throw ("Error al obtener reporte de escaneo: " +:+ message)
        else sleep 5000 ;; getScanReport_from resource maxRetries remaining' in
      fun w =>
        match rateLimitCheck w with
        | (Throw e, w1) => on_error retries e w1
        | (Ok _, w1) =>
            match fetch_report resource w1 with
            | (Throw e, w2) => on_error retries e w2
            | (Ok (NetError e), w2) => on_error retries e w2
            | (Ok (HttpError status statusText), w2) =>
                on_error retries
                  ("VirusTotal report request failed: " +:+ pretty status +:+ " " +:+ statusText) w2
            | (Ok (Json result), w2) =>
                if bool_decide (response_code result = 1) then (Ok result, w2)
                else if bool_decide (response_code result = -2) then
                  let retries := S retries in
                  if (maxRetries <=? retries)%nat
                  then on_error retries "Timeout esperando resultados del escaneo" w2
                  else
                    (sleep (Z.min (10000 + Z.of_nat retries * 2000) 30000) ;;
                     getScanReport_from resource maxRetries remaining') w2
                else on_error retries ("VirusTotal report error: " +:+ verbose_msg result) w2
            end
        end
  end.

Definition getScanReport (resource : string) (maxRetries : nat)
  : Eff World VirusTotalReportResponse :=
  getScanReport_from resource maxRetries maxRetries.

Definition checkHashReport (hash : string) : Eff World (option VirusTotalReportResponse) :=
  try_catch
    (rateLimitCheck ;;
     let* response := fetch_report hash in
     match response with
     | NetError e => throw e
     | HttpError _ _ => ret None
     | Json result =>
         if bool_decide (response_code result = 1) then ret (Some result) else ret None
     end)
    (fun _ => ret None).

Definition processEngineResults (scans : list (string * EngineScan)) : list string :=
  flat_map (fun '(engineName, r) =>
              match result r with
              | Some text =>
                  if detected r && Js.truthy text then [engineName +:+ ": " +:+ text] else []
              | None => []
              end) scans.

Definition no_api_key : VirusTotalScanResult :=
  {| isSafe := true; scanId := "no-api-key"; threats := []; details := None;
     error := Some "API key not configured" |}.

Definition daily_limit_reached : VirusTotalScanResult :=
  {| isSafe := true; scanId := "daily-limit-reached"; threats := []; details := None;
     error := Some "Límite diario alcanzado (500/500). Tu proyecto será revisado pronto por un administrador." |}.

Definition scan_failed (message : string) : VirusTotalScanResult :=
  {| isSafe := true; scanId := "error"; threats := []; details := None;
     error := Some message |}.

(** The verdict [scanWithVirusTotal] builds from the report it holds
    (the statements after "Procesar resultados"). *)
Definition verdict_of_report (report : VirusTotalReportResponse) : VirusTotalScanResult :=
  let threats := processEngineResults (scans report) in
  let isSafe := bool_decide (positives report = 0) in
  {| isSafe := isSafe;
     scanId := scan_id report;
     threats := threats;
     details := Some {| det_positives := positives report;
                        det_total := total report;
                        scanDate := scan_date report;
                        engines := map (fun '(n, r) =>
                                          {| name := n; eng_detected := detected r;
                                             eng_result := result r |}) (scans report) |};
     error := None |}.

(** The report the scan ends up with: the one found by hash, or the one
    polled after an upload. *)
Definition obtain_report `{Platform} (buffer : list Byte.byte) (filename : string)
  : Eff World VirusTotalReportResponse :=
  let fileHash := calculateFileHash buffer in
  let* existingReport := checkHashReport fileHash in
  match existingReport with
  | Some report => ret report
  | None =>
      let* scanId := uploadFileForScan buffer filename in
      getScanReport scanId 10
  end.

Definition scanWithVirusTotal `{Platform} (buffer : list Byte.byte) (filename : string)
  : Eff World VirusTotalScanResult :=
  try_catch
    (let* key := gets (fun w => API_KEY (svc w)) in
     if negb (Js.truthy key) then ret no_api_key
     else
       let* daily := gets (fun w => dailyRequestCount (svc w)) in
       if DAILY_LIMIT <=? daily then ret daily_limit_reached
       else
         let* report := obtain_report buffer filename in
         ret (verdict_of_report report))
    (fun message => ret (scan_failed message)).

End Antivirus.

(** ** src/models/Project.ts, src/models/Company.ts *)

Module Model.

Inductive FileType := cloudinary | external.

Record VirusScan := {
  vs_isSafe : bool;
  vs_scanId : string;
  vs_scannedAt : option Z;
  vs_threats : option (list string);
}.

(** [interface ProjectFile] *)
Record ProjectFile := {
  ftype : FileType;
  url : string;
  publicId : option string;
  fileName : option string;
  virusScan : option VirusScan;
}.

Record Files := {
  app : option ProjectFile;
  code : option ProjectFile;
  docPdf : option ProjectFile;
}.

(** [interface DraftChanges] *)
Record DraftChanges := {
  d_title : option string;
  d_shortDesc : option string;
  d_longDesc : option string;
  d_iconPublicId : option string;
  d_iconUrl : option string;
  d_imagePublicIds : option (list string);
  d_imageUrls : option (list string);
  d_files : option Files;
}.

Inductive Status := pending | needs_author_review | published | rejected.

Inductive DraftStatus := draft_none | draft_pending | draft_rejected.

(** [interface IProject], with the fields the controllers below read or
    write. *)
Record Project := {
  _id : string;
  title : string;
  slug : string;
  shortDesc : string;
  longDesc : string;
  categories : list string;
  platforms : list string;
  iconPublicId : option string;
  iconUrl : option string;
  imagePublicIds : option (list string);
  imageUrls : option (list string);
  companyId : option string;
  participants : list string;
  inactiveMembers : list string;
  files : option Files;
  status : Status;
  updatedAt : Z;
  publishedAt : option Z;
  draftStatus : DraftStatus;
  draft : option DraftChanges;
  draftSubmittedAt : option Z;
  draftFeedback : option string;
  draftRejectedAt : option Z;
}.

Record Member := {
  userId : option string;
  roles : list string;
}.

Record Company := {
  ownerId : option string;
  members : list Member;
}.

#[global] Instance FileType_eq_dec : EqDecision FileType.
Proof. solve_decision. Defined.
#[global] Instance VirusScan_eq_dec : EqDecision VirusScan.
Proof. solve_decision. Defined.
#[global] Instance ProjectFile_eq_dec : EqDecision ProjectFile.
Proof. solve_decision. Defined.
#[global] Instance Status_eq_dec : EqDecision Status.
Proof. solve_decision. Defined.
#[global] Instance DraftStatus_eq_dec : EqDecision DraftStatus.
Proof. solve_decision. Defined.

(** Field updates ([project.f = v]). *)
Definition set_icon (id : option string) (u : option string) (p : Project) : Project :=
  {| _id := _id p; title := title p; slug := slug p; shortDesc := shortDesc p;
     longDesc := longDesc p; categories := categories p; platforms := platforms p;
     iconPublicId := id; iconUrl := u;
     imagePublicIds := imagePublicIds p; imageUrls := imageUrls p;
     companyId := companyId p; participants := participants p;
     inactiveMembers := inactiveMembers p; files := files p; status := status p;
     updatedAt := updatedAt p; publishedAt := publishedAt p;
     draftStatus := draftStatus p; draft := draft p;
     draftSubmittedAt := draftSubmittedAt p; draftFeedback := draftFeedback p;
     draftRejectedAt := draftRejectedAt p |}.

Definition set_images (ids urls : option (list string)) (p : Project) : Project :=
  {| _id := _id p; title := title p; slug := slug p; shortDesc := shortDesc p;
     longDesc := longDesc p; categories := categories p; platforms := platforms p;
     iconPublicId := iconPublicId p; iconUrl := iconUrl p;
     imagePublicIds := ids; imageUrls := urls;
     companyId := companyId p; participants := participants p;
     inactiveMembers := inactiveMembers p; files := files p; status := status p;
     updatedAt := updatedAt p; publishedAt := publishedAt p;
     draftStatus := draftStatus p; draft := draft p;
     draftSubmittedAt := draftSubmittedAt p; draftFeedback := draftFeedback p;
     draftRejectedAt := draftRejectedAt p |}.

Definition set_files (f : option Files) (p : Project) : Project :=
  {| _id := _id p; title := title p; slug := slug p; shortDesc := shortDesc p;
     longDesc := longDesc p; categories := categories p; platforms := platforms p;
     iconPublicId := iconPublicId p; iconUrl := iconUrl p;
     imagePublicIds := imagePublicIds p; imageUrls := imageUrls p;
     companyId := companyId p; participants := participants p;
     inactiveMembers := inactiveMembers p; files := f; status := status p;
     updatedAt := updatedAt p; publishedAt := publishedAt p;
     draftStatus := draftStatus p; draft := draft p;
     draftSubmittedAt := draftSubmittedAt p; draftFeedback := draftFeedback p;
     draftRejectedAt := draftRejectedAt p |}.

Definition set_texts (t s l : string) (p : Project) : Project :=
  {| _id := _id p; title := t; slug := slug p; shortDesc := s;
     longDesc := l; categories := categories p; platforms := platforms p;
     iconPublicId := iconPublicId p; iconUrl := iconUrl p;
     imagePublicIds := imagePublicIds p; imageUrls := imageUrls p;
     companyId := companyId p; participants := participants p;
     inactiveMembers := inactiveMembers p; files := files p; status := status p;
     updatedAt := updatedAt p; publishedAt := publishedAt p;
     draftStatus := draftStatus p; draft := draft p;
     draftSubmittedAt := draftSubmittedAt p; draftFeedback := draftFeedback p;
     draftRejectedAt := draftRejectedAt p |}.

Definition set_tags (cats plats : list string) (p : Project) : Project :=
  {| _id := _id p; title := title p; slug := slug p; shortDesc := shortDesc p;
     longDesc := longDesc p; categories := cats; platforms := plats;
     iconPublicId := iconPublicId p; iconUrl := iconUrl p;
     imagePublicIds := imagePublicIds p; imageUrls := imageUrls p;
     companyId := companyId p; participants := participants p;
     inactiveMembers := inactiveMembers p; files := files p; status := status p;
     updatedAt := updatedAt p; publishedAt := publishedAt p;
     draftStatus := draftStatus p; draft := draft p;
     draftSubmittedAt := draftSubmittedAt p; draftFeedback := draftFeedback p;
     draftRejectedAt := draftRejectedAt p |}.

Definition set_status (s : Status) (at_ : option Z) (p : Project) : Project :=
  {| _id := _id p; title := title p; slug := slug p; shortDesc := shortDesc p;
     longDesc := longDesc p; categories := categories p; platforms := platforms p;
     iconPublicId := iconPublicId p; iconUrl := iconUrl p;
     imagePublicIds := imagePublicIds p; imageUrls := imageUrls p;
     companyId := companyId p; participants := participants p;
     inactiveMembers := inactiveMembers p; files := files p; status := s;
     updatedAt := updatedAt p; publishedAt := at_;
     draftStatus := draftStatus p; draft := draft p;
     draftSubmittedAt := draftSubmittedAt p; draftFeedback := draftFeedback p;
     draftRejectedAt := draftRejectedAt p |}.

Definition set_updatedAt (t : Z) (p : Project) : Project :=
  {| _id := _id p; title := title p; slug := slug p; shortDesc := shortDesc p;
     longDesc := longDesc p; categories := categories p; platforms := platforms p;
     iconPublicId := iconPublicId p; iconUrl := iconUrl p;
     imagePublicIds := imagePublicIds p; imageUrls := imageUrls p;
     companyId := companyId p; participants := participants p;
     inactiveMembers := inactiveMembers p; files := files p; status := status p;
     updatedAt := t; publishedAt := publishedAt p;
     draftStatus := draftStatus p; draft := draft p;
     draftSubmittedAt := draftSubmittedAt p; draftFeedback := draftFeedback p;
     draftRejectedAt := draftRejectedAt p |}.

Definition set_draft (ds : DraftStatus) (d : option DraftChanges)
    (submitted : option Z) (feedback : option string) (rejectedAt : option Z)
    (p : Project) : Project :=
  {| _id := _id p; title := title p; slug := slug p; shortDesc := shortDesc p;
     longDesc := longDesc p; categories := categories p; platforms := platforms p;
     iconPublicId := iconPublicId p; iconUrl := iconUrl p;
     imagePublicIds := imagePublicIds p; imageUrls := imageUrls p;
     companyId := companyId p; participants := participants p;
     inactiveMembers := inactiveMembers p; files := files p; status := status p;
     updatedAt := updatedAt p; publishedAt := publishedAt p;
     draftStatus := ds; draft := d;
     draftSubmittedAt := submitted; draftFeedback := feedback;
     draftRejectedAt := rejectedAt |}.

Definition no_files : Files := {| app := None; code := None; docPdf := None |}.

Definition set_code (c : option ProjectFile) (f : Files) : Files :=
  {| app := app f; code := c; docPdf := docPdf f |}.

Definition set_docPdf (c : option ProjectFile) (f : Files) : Files :=
  {| app := app f; code := code f; docPdf := c |}.

Definition set_app (c : option ProjectFile) (f : Files) : Files :=
  {| app := c; code := code f; docPdf := docPdf f |}.

Definition set_publicId (id : string) (f : ProjectFile) : ProjectFile :=
  {| ftype := ftype f; url := url f; publicId := Some id; fileName := fileName f;
     virusScan := virusScan f |}.

Definition set_url (u : string) (f : ProjectFile) : ProjectFile :=
  {| ftype := ftype f; url := u; publicId := publicId f; fileName := fileName f;
     virusScan := virusScan f |}.

(** [project.files?.code?.publicId] and [project.files?.docPdf?.publicId] *)
Definition code_id (f : option Files) : option string :=
  match f with
  | Some f => match code f with Some c => publicId c | None => None end
  | None => None
  end.

Definition doc_id (f : option Files) : option string :=
  match f with
  | Some f => match docPdf f with Some c => publicId c | None => None end
  | None => None
  end.

(** [v !== undefined ? v : current] *)
Definition or_keep {A} (v : option A) (current : A) : A :=
  match v with Some x => x | None => current end.

(** A list that is present and not empty. *)
Definition nonempty_list {A} (v : option (list A)) : bool :=
  match v with Some (_ :: _) => true | _ => false end.

(** [ProjectSchema.methods.applyDraft] *)
Definition applyDraft (p : Project) : Project :=
  match draft p with
  | None => p
  | Some d =>
      let p := set_texts (or_keep (d_title d) (title p))
                         (or_keep (d_shortDesc d) (shortDesc p))
                         (or_keep (d_longDesc d) (longDesc p)) p in
      let p := set_icon (match d_iconPublicId d with Some i => Some i | None => iconPublicId p end)
                        (match d_iconUrl d with Some u => Some u | None => iconUrl p end) p in
      let p := set_images
                 (if nonempty_list (d_imagePublicIds d) then d_imagePublicIds d else imagePublicIds p)
                 (if nonempty_list (d_imageUrls d) then d_imageUrls d else imageUrls p) p in
      match d_files d with
      | None => p
      | Some df =>
          let f := match files p with Some f => f | None => no_files end in
          let f := match app df with Some a => set_app (Some a) f | None => f end in
          let f := match code df with Some c => set_code (Some c) f | None => f end in
          let f := match docPdf df with Some c => set_docPdf (Some c) f | None => f end in
          set_files (Some f) p
      end
  end.

(** [ProjectSchema.methods.clearDraft] *)
Definition clearDraft (p : Project) : Project :=
  set_draft draft_none None None None None p.

End Model.

(** ** The world of a request: database, Cloudinary, notifications *)

Module Backend.
Import Model.

Record Notification := {
  n_userId : string;
  n_type : string;
  n_title : string;
  n_projectId : string;
}.

(** What a call of the Cloudinary SDK comes back with.  An upload is
    stored under the [public_id] of the answer; for the other calls only
    the difference between a fault and an answer matters. *)
Inductive CloudReply :=
| Fault (message : string)
| Answer (public_id secure_url : string).

(** Calls of [upload.service.ts], logged when they finish. *)
Inductive StorageCall :=
| Uploaded (folder fileName : string) (outcome : option string)
| Moved (publicId newFolder : string) (outcome : option string)
| Deleted (publicId : string) (succeeded : bool)
| Inspected (publicId : string) (found : bool).

(** The document store is reliable: [findById], [save] and
    [findByIdAndDelete] answer from the collections; schema validation is
    not modelled.  Cloudinary holds the assets by public id and answers
    each SDK call with the next reply of its stream, an exhausted stream
    being a host that cannot be reached.  A notification is delivered
    unless the next entry of [notifyReplies] carries an error.
    [storageCalls] and [verdicts] record what the handlers asked of the
    storage service and what the scanner told them. *)
Record World := {
  vt : Antivirus.World;
  assets : gmap string string;
  cloudReplies : list CloudReply;
  storageCalls : list StorageCall;
  projects : gmap string Project;
  companies : gmap string Company;
  notifyReplies : list (option string);
  notifications : list Notification;
  nextObjectId : N;
  verdicts : list (string * Antivirus.VirusTotalScanResult);
}.

Definition set_vt (v : Antivirus.World) (w : World) : World :=
  {| vt := v; assets := assets w; cloudReplies := cloudReplies w;
     storageCalls := storageCalls w; projects := projects w; companies := companies w;
     notifyReplies := notifyReplies w; notifications := notifications w;
     nextObjectId := nextObjectId w; verdicts := verdicts w |}.

Definition set_assets (a : gmap string string) (w : World) : World :=
  {| vt := vt w; assets := a; cloudReplies := cloudReplies w;
     storageCalls := storageCalls w; projects := projects w; companies := companies w;
     notifyReplies := notifyReplies w; notifications := notifications w;
     nextObjectId := nextObjectId w; verdicts := verdicts w |}.

Definition set_cloudReplies (r : list CloudReply) (w : World) : World :=
  {| vt := vt w; assets := assets w; cloudReplies := r;
     storageCalls := storageCalls w; projects := projects w; companies := companies w;
     notifyReplies := notifyReplies w; notifications := notifications w;
     nextObjectId := nextObjectId w; verdicts := verdicts w |}.

Definition log_storage (c : StorageCall) (w : World) : World :=
  {| vt := vt w; assets := assets w; cloudReplies := cloudReplies w;
     storageCalls := storageCalls w ++ [c]; projects := projects w;
     companies := companies w;
     notifyReplies := notifyReplies w; notifications := notifications w;
     nextObjectId := nextObjectId w; verdicts := verdicts w |}.

Definition set_projects (ps : gmap string Project) (w : World) : World :=
  {| vt := vt w; assets := assets w; cloudReplies := cloudReplies w;
     storageCalls := storageCalls w; projects := ps; companies := companies w;
     notifyReplies := notifyReplies w; notifications := notifications w;
     nextObjectId := nextObjectId w; verdicts := verdicts w |}.

Definition set_notify (r : list (option string)) (sent : list Notification) (w : World) : World :=
  {| vt := vt w; assets := assets w; cloudReplies := cloudReplies w;
     storageCalls := storageCalls w; projects := projects w; companies := companies w;
     notifyReplies := r; notifications := sent;
     nextObjectId := nextObjectId w; verdicts := verdicts w |}.

Definition log_verdict (filename : string) (v : Antivirus.VirusTotalScanResult) (w : World)
  : World :=
  {| vt := vt w; assets := assets w; cloudReplies := cloudReplies w;
     storageCalls := storageCalls w; projects := projects w; companies := companies w;
     notifyReplies := notifyReplies w; notifications := notifications w;
     nextObjectId := nextObjectId w; verdicts := verdicts w ++ [(filename, v)] |}.


(** [new Date()] and [Date.now()] *)
Definition clock : Eff World Z := gets (fun w => Antivirus.now (vt w)).

(** [Project.findById(id)] *)
Definition findById (id : string) : Eff World (option Project) :=
  gets (fun w => projects w !! id).

(** [project.save()], with the [pre('save')] hook that stamps
    [updatedAt]. *)
Definition save (p : Project) : Eff World Project :=
  let* t := clock in
  let saved := set_updatedAt t p in
  modify (fun w => set_projects (<[_id p := saved]> (projects w)) w) ;;
  ret saved.


(** [.populate('companyId')] *)
Definition populate (p : Project) : Eff World (option Company) :=
  gets (fun w => match companyId p with
                 | Some c => companies w !! c
                 | None => None
                 end).

(** [project.companyId?.ownerId?.toString()] *)
Definition owner_of (c : option Company) : option string :=
  match c with Some c => ownerId c | None => None end.

(** [notificationService.createNotification], reached through the
    [notifyProject...] wrappers, which first look the project up again. *)
Definition createNotification (n : Notification) : Eff World unit :=
  fun w =>
    match notifyReplies w with
    | Some e :: rest => (Throw e, set_notify rest (notifications w) w)
    | None :: rest => (Ok tt, set_notify rest (notifications w ++ [n]) w)
    | [] => (Ok tt, set_notify [] (notifications w ++ [n]) w)
    end.

Definition notifyProject (projectId userId type_ title_ : string) : Eff World unit :=
  let* project := findById projectId in
  match project with
  | None => throw "Proyecto no encontrado"
  | Some _ =>
      createNotification {| n_userId := userId; n_type := type_; n_title := title_;
                            n_projectId := projectId |}
  end.

End Backend.

(** ** src/services/upload.service.ts *)

Module Upload.
Import Backend.

Inductive ResourceType := image | video | raw.

Record UploadResult := {
  fileId : string;
  secureUrl : string;
  u_publicId : string;
}.

Definition next_reply : Eff World CloudReply :=
  fun w =>
    match cloudReplies w with
    | [] => (Ok (Fault "connect ECONNREFUSED"), w)
    | r :: rest => (Ok r, set_cloudReplies rest w)
    end.

(** [cloudinary.api.resource(publicId, { resource_type })]: the asset's
    public id and secure URL.  The store is addressed by public id alone;
    the resource type travels with the request. *)
Definition api_resource (publicId : string) (rt : ResourceType) : Eff World (string * string) :=
  let* r := next_reply in
  match r with
  | Fault m => throw m
  | Answer _ _ =>
      let* found := gets (fun w => assets w !! publicId) in
      match found with
      | Some u => ret (publicId, u)
      | None => throw ("Resource not found - " +:+ publicId)
      end
  end.

(** [cloudinary.uploader.upload] and [upload_stream] with
    [overwrite: false]: an asset already stored under the answered id is
    kept as it is. *)
Definition uploader_upload (folder public_id : string) (rt : ResourceType)
  : Eff World (string * string) :=
  let* r := next_reply in
  match r with
  | Fault m => throw m
  | Answer pid u =>
      let* existing := gets (fun w => assets w !! pid) in
      match existing with
      | Some u0 => ret (pid, u0)
      | None => modify (fun w => set_assets (<[pid := u]> (assets w)) w) ;; ret (pid, u)
      end
  end.

(** [cloudinary.uploader.destroy(publicId, { resource_type })]: the
    [result] field of the answer. *)
Definition uploader_destroy (publicId : string) (rt : ResourceType) : Eff World string :=
  let* r := next_reply in
  match r with
  | Fault m => throw m
  | Answer _ _ =>
      let* found := gets (fun w => assets w !! publicId) in
      match found with
      | Some _ => modify (fun w => set_assets (delete publicId (assets w)) w) ;; ret "ok"
      | None => ret "not found"
      end
  end.

(** Runs a service call and logs how it ended. *)
Definition logged {A} (m : Eff World A) (entry : Res A -> StorageCall) : Eff World A :=
  fun w => let '(r, w') := m w in (r, log_storage (entry r) w').

Definition outcome_id (r : Res string) : option string :=
  match r with Ok i => Some i | Throw _ => None end.

Definition uploadToCloudinary (buffer : list Byte.byte) (fileName mimeType folder : string)
  : Eff World UploadResult :=
  logged
    (let resourceType := if String.prefix "image/" mimeType then image else raw in
     try_catch
       (let* (pid, u) := uploader_upload folder (Js.before_dot fileName) resourceType in
        ret {| fileId := pid; secureUrl := u; u_publicId := pid |})
       (fun m => throw ("Error al subir a Cloudinary: " +:+ m)))
    (fun r => Uploaded folder fileName
                (match r with Ok u => Some (fileId u) | Throw _ => None end)).

Definition deleteFromCloudinary (publicId : string) : Eff World unit :=
  logged
    (try_catch
       (let resourceType :=
          if Js.includes publicId "video_" || Js.includes publicId "app_" then raw
          else if Js.includes publicId "movie_" || Js.includes publicId "clip_" then video
          else image in
        let* result := uploader_destroy publicId resourceType in
        if negb (String.eqb result "ok") && negb (String.eqb result "not found")
        then throw ("Delete failed: " +:+ result)
        else ret tt)
       (fun m => throw ("Error al eliminar archivo de Cloudinary: " +:+ m)))
    (fun r => Deleted publicId (match r with Ok _ => true | Throw _ => false end)).

Definition moveCloudinaryFiles (publicId newFolder : string) : Eff World string :=
  logged
    (try_catch
       (let isImage := Js.includes publicId "/icons/" || Js.includes publicId "/images/" in
        let resourceType := if isImage then image else raw in
        let fileNameWithExt := Js.last_segment publicId in
        let* (_, originalUrl) := api_resource publicId resourceType in
        if negb (Js.truthy originalUrl)
        then throw ("Could not get secure URL for " +:+ publicId)
        else
          let* (newId, _) :=
            uploader_upload newFolder (Js.before_dot fileNameWithExt) resourceType in
          uploader_destroy publicId resourceType ;;
          ret newId)
       (fun m => throw ("Failed to move file: "
                        +:+ (if Js.truthy m then m else "Unknown error"))))
    (fun r => Moved publicId newFolder (outcome_id r)).

(** [getFileInfo]: the [secureUrl] of the asset, or [null]. *)
Definition getFileInfo (publicId : string) : Eff World (option string) :=
  logged
    (try_catch
       (let* (_, u) := api_resource publicId image in ret (Some u))
       (fun _ => ret None))
    (fun r => Inspected publicId
                (match r with Ok (Some _) => true | _ => false end)).

(** [await Promise.allSettled(ids.map(id => deleteFromCloudinary(id)))]:
    every deletion is started, in the order of the list, and none of
    their failures is propagated. *)
Fixpoint deleteAllSettled (ids : list string) : Eff World unit :=
  match ids with
  | [] => ret tt
  | id :: rest =>
      try_catch (deleteFromCloudinary id) (fun _ => ret tt) ;;
      deleteAllSettled rest
  end.

End Upload.

(** ** HTTP handlers *)

(** [res.status(code).json({ error })] or
    [res.json({ message, project, ... })]. *)
Inductive Response :=
| Failure (code : Z) (error : string)
| Sent (code : Z) (message : string) (project : Model.Project)
       (filesDeleted : option nat) (isDraft : option bool).

(** The [catch] that ends every handler. *)
Definition handler {W} (m : Eff W Response) : Eff W Response :=
  try_catch m (fun message => ret (Failure 400 message)).

(** ** src/controllers/admin.controller.ts *)

Module Admin.
Import Model Backend Upload.

Definition project_folder (projectId kind : string) : string :=
  "softstore/projects/" +:+ projectId +:+ "/" +:+ kind.

(** [arr.indexOf(x)] *)
Fixpoint indexOf (x : string) (l : list string) : option nat :=
  match l with
  | [] => None
  | y :: rest => if String.eqb x y then Some O else option_map S (indexOf x rest)
  end.

(** [urls?.[ids.indexOf(id)] || ''] *)
Definition url_at (urls : option (list string)) (ids : list string) (id : string) : string :=
  match urls, indexOf id ids with
  | Some us, Some i => nth i us ""
  | _, _ => ""
  end.

Definition or_empty (o : option string) : string :=
  match o with Some s => s | None => "" end.

Definition or_nil (o : option (list string)) : list string :=
  match o with Some l => l | None => [] end.

(** Publication, the icon: moved when it lies under [/temp/]; a failed
    move is logged and the reference is kept. *)
Definition publish_icon (projectId : string) (p : Project) (filesMoved : bool)
  : Eff World (Project * bool) :=
  match iconPublicId p with
  | Some icon =>
      if Js.includes icon "/temp/" then
        try_catch
          (let* newIconId := moveCloudinaryFiles icon (project_folder projectId "icons") in
           let* iconInfo := getFileInfo newIconId in
           ret (set_icon (Some newIconId)
                         (match iconInfo with Some u => Some u | None => iconUrl p end) p,
                true))
          (fun _ => ret (p, filesMoved))
      else ret (p, filesMoved)
  | None => ret (p, filesMoved)
  end.

(** The [for (const imageId of project.imagePublicIds)] loop, with
    [movedImages], [movedUrls] and [filesMoved] as accumulators. *)
Fixpoint publish_images_loop (projectId : string) (p : Project) (todo : list string)
    (movedImages movedUrls : list string) (filesMoved : bool)
  : Eff World (list string * list string * bool) :=
  match todo with
  | [] => ret (movedImages, movedUrls, filesMoved)
  | imageId :: rest =>
      let kept := url_at (imageUrls p) (or_nil (imagePublicIds p)) imageId in
      let* (images, urls, moved) :=
        (if Js.includes imageId "/temp/" then
           try_catch
             (let* newImageId :=
                moveCloudinaryFiles imageId (project_folder projectId "images") in
              let* imgInfo := getFileInfo newImageId in
              ret (movedImages ++ [newImageId], movedUrls ++ [or_empty imgInfo], true))
             (fun _ => ret (movedImages ++ [imageId], movedUrls ++ [kept], filesMoved))
         else ret (movedImages ++ [imageId], movedUrls ++ [kept], filesMoved)) in
      publish_images_loop projectId p rest images urls moved
  end.

Definition publish_images (projectId : string) (p : Project) (filesMoved : bool)
  : Eff World (Project * bool) :=
  match imagePublicIds p with
  | Some (first :: others) =>
      let* (images, urls, moved) :=
        publish_images_loop projectId p (first :: others) [] [] filesMoved in
      if moved then ret (set_images (Some images) (Some urls) p, moved)
      else ret (p, moved)
  | _ => ret (p, filesMoved)
  end.

(** Publication, a stored file ([code] or [docPdf]). *)
Definition publish_file (projectId kind : string) (entry : option ProjectFile)
    (filesMoved : bool) : Eff World (option ProjectFile * bool) :=
  match entry with
  | Some f =>
      match publicId f with
      | Some id =>
          if Js.includes id "/temp/" then
            try_catch
              (let* newId := moveCloudinaryFiles id (project_folder projectId kind) in
               let* info := getFileInfo newId in
               let f := set_publicId newId f in
               ret (Some (match info with Some u => set_url u f | None => f end), true))
              (fun _ => ret (entry, filesMoved))
          else ret (entry, filesMoved)
      | None => ret (entry, filesMoved)
      end
  | None => ret (entry, filesMoved)
  end.

Definition publish_files (projectId : string) (p : Project) (filesMoved : bool)
  : Eff World (Project * bool) :=
  match files p with
  | Some fs =>
      let* (c, moved) := publish_file projectId "code" (code fs) filesMoved in
      let* (d, moved) := publish_file projectId "docs" (docPdf fs) moved in
      ret (set_files (Some (set_docPdf d (set_code c fs))) p, moved)
  | None => ret (p, filesMoved)
  end.

(** [publishProject]: every step of the move block catches its own
    failure, so the [try] around the block never sees one. *)
Definition publishProject `{Platform} (id : string) : Eff World Response :=
  handler
    (if negb (objectIdIsValid id) then ret (Failure 400 "ID de proyecto inválido")
     else
       let* found := findById id in
       match found with
       | None => ret (Failure 404 "Proyecto no encontrado")
       | Some project =>
           let* company := populate project in
           let* t := clock in
           let project := set_status published (Some t) project in
           let projectId := _id project in
           let* (project, moved) := publish_icon projectId project false in
           let* (project, moved) := publish_images projectId project moved in
           let* (project, moved) := publish_files projectId project moved in
           let* project := save project in
           notifyProject id (match owner_of company with Some o => o | None => "unknown" end)
             "project_status" "¡Proyecto publicado exitosamente!" ;;
           ret (Sent 200 "Proyecto publicado exitosamente" project None None)
       end).









(** [draft && old && draft !== old] *)
Definition replaced (draftId oldId : option string) : list string :=
  match draftId, oldId with
  | Some d, Some o =>
      if Js.truthy d && Js.truthy o && negb (String.eqb d o) then [o] else []
  | _, _ => []
  end.


(** [project.draftStatus !== 'pending' || !project.draft], negated *)
Definition pending_draft (p : Project) : bool :=
  bool_decide (draftStatus p = draft_pending)
  && match draft p with Some _ => true | None => false end.




End Admin.

(** ** src/utils/ids.ts *)

Module Ids.

Definition lower (c : ascii) : ascii :=
  let n := nat_of_ascii c in
  if ((65 <=? n) && (n <=? 90))%nat then ascii_of_nat (n + 32) else c.

(** [s.toLowerCase()], on the one-byte letters *)
Fixpoint toLowerCase (s : string) : string :=
  match s with
  | EmptyString => EmptyString
  | String c rest => String (lower c) (toLowerCase rest)
  end.

Definition is_lower_alnum (c : ascii) : bool :=
  let n := nat_of_ascii c in
  (((97 <=? n) && (n <=? 122)) || ((48 <=? n) && (n <=? 57)))%nat.

(** [replace(/[^a-z0-9]+/g, '-')] *)
Fixpoint dash_runs (s : string) (in_run : bool) : string :=
  match s with
  | EmptyString => EmptyString
  | String c rest =>
      if is_lower_alnum c then String c (dash_runs rest false)
      else if in_run then dash_runs rest true
      else String "-" (dash_runs rest true)
  end.

Definition strip_leading (d : ascii) (s : string) : string :=
  match s with
  | String c rest => if Ascii.eqb c d then rest else s
  | EmptyString => EmptyString
  end.

Fixpoint strip_trailing (d : ascii) (s : string) : string :=
  match s with
  | EmptyString => EmptyString
  | String c EmptyString => if Ascii.eqb c d then EmptyString else s
  | String c rest => String c (strip_trailing d rest)
  end.

Definition generateSlug (title : string) : string :=
  strip_trailing "-" (strip_leading "-" (dash_runs (toLowerCase title) false)).

End Ids.

(** ** src/controllers/projects.controller.ts *)

Module Projects.
Import Model Backend Upload.

Definition is_name_char (c : ascii) : bool :=
  let n := nat_of_ascii c in
  (((97 <=? n) && (n <=? 122)) || ((65 <=? n) && (n <=? 90))
   || ((48 <=? n) && (n <=? 57)))%nat
  || Js.is_space c || Ascii.eqb c "-".

Fixpoint keep_name_chars (s : string) : string :=
  match s with
  | EmptyString => EmptyString
  | String c rest =>
      if is_name_char c then String c (keep_name_chars rest) else keep_name_chars rest
  end.

(** [replace(/\s+/g, '_')] *)
Fixpoint underscore_runs (s : string) (in_run : bool) : string :=
  match s with
  | EmptyString => EmptyString
  | String c rest =>
      if Js.is_space c
      then if in_run then underscore_runs rest true
           else String "_" (underscore_runs rest true)
      else String c (underscore_runs rest false)
  end.

Definition sanitizeFileName (filename : string) : string :=
  Ids.toLowerCase (underscore_runs (Js.trim (keep_name_chars filename)) false).

Record User := {
  u_id : string;
  role : string;
}.

(** [req.body] of [updateProject] *)
Record UpdateBody := {
  b_title : option string;
  b_shortDesc : option string;
  b_longDesc : option string;
  b_iconPublicId : option string;
  b_iconUrl : option string;
  b_imagePublicIds : option (list string);
  b_imageUrls : option (list string);
  b_categories : option (list string);
  b_platforms : option (list string);
  b_files : option Files;
}.

(** [req.user?.id], absent or empty when nobody is signed in *)
Definition user_id (u : option User) : option string :=
  match u with
  | Some u => if Js.truthy (u_id u) then Some (u_id u) else None
  | None => None
  end.

Definition is_admin (u : option User) : bool :=
  match u with Some u => String.eqb (role u) "admin" | None => false end.

Definition is_owner (c : option Company) (userId : string) : bool :=
  match owner_of c with Some o => String.eqb o userId | None => false end.

Definition has_role (r : string) (m : Member) : bool := existsb (String.eqb r) (roles m).

Definition is_member (userId : string) (m : Member) : bool :=
  match Model.userId m with Some u => String.eqb u userId | None => false end.

(** [company?.members?.find(m => m.userId?.toString() === userId)] *)
Definition find_member (c : option Company) (userId : string) : option Member :=
  match c with
  | Some c => List.find (is_member userId) (members c)
  | None => None
  end.

Definition is_publisher (c : option Company) (userId : string) : bool :=
  match find_member c userId with
  | Some m => has_role "Publisher" m
  | None => false
  end.

(** [v && v !== current] for a text field *)
Definition changed_text (v : option string) (current : string) : option string :=
  match v with
  | Some s => if Js.truthy s && negb (String.eqb s current) then Some s else None
  | None => None
  end.

Definition is_some {A} (o : option A) : bool :=
  match o with Some _ => true | None => false end.

(** The draft a non-admin edit of a published project proposes, and
    [hasChanges]. *)
Definition draftChanges (project : Project) (body : UpdateBody) : DraftChanges * bool :=
  let t := changed_text (b_title body) (title project) in
  let s := changed_text (b_shortDesc body) (shortDesc project) in
  let l := changed_text (b_longDesc body) (longDesc project) in
  let icon :=
    match b_iconPublicId body with
    | Some i => negb (bool_decide (Some i = iconPublicId project))
    | None => false
    end in
  (* JSON.stringify(req.body.imagePublicIds) !== JSON.stringify(project.imagePublicIds) *)
  let images :=
    match b_imagePublicIds body with
    | Some l => negb (bool_decide (Some l = imagePublicIds project))
    | None => false
    end in
  let fs :=
    match b_files body with
    | Some bf =>
        let base :=
          match files project with
          | Some f => {| app := app f; code := code f; docPdf := docPdf f |}
          | None => no_files
          end in
        Some {| app := match app bf with Some a => Some a | None => app base end;
                code := match code bf with Some c => Some c | None => code base end;
                docPdf := match docPdf bf with Some d => Some d | None => docPdf base end |}
    | None => None
    end in
  let files_changed :=
    match b_files body with
    | Some bf => is_some (app bf) || is_some (code bf) || is_some (docPdf bf)
    | None => false
    end in
  ({| d_title := t; d_shortDesc := s; d_longDesc := l;
      d_iconPublicId := if icon then b_iconPublicId body else None;
      d_iconUrl := if icon then b_iconUrl body else None;
      d_imagePublicIds := if images then b_imagePublicIds body else None;
      d_imageUrls := if images then b_imageUrls body else None;
      d_files := fs |},
   is_some t || is_some s || is_some l || icon || images || files_changed).

(** [await Promise.all(ids.map(async id => (await getFileInfo(id))?.secureUrl || ''))] *)
Fixpoint secure_urls (ids : list string) : Eff World (list string) :=
  match ids with
  | [] => ret []
  | id :: rest =>
      let* info := getFileInfo id in
      let* urls := secure_urls rest in
      ret (Admin.or_empty info :: urls)
  end.

(** The direct edit (an admin, or any editor of a project that is not
    published): the fields of the body are assigned, then the clean-up of
    the assets they replace runs on the project as just assigned. *)
Definition apply_directly (project : Project) (body : UpdateBody) : Eff World Project :=
  let p := set_icon (match b_iconPublicId body with Some i => Some i | None => iconPublicId project end)
                    (match b_iconUrl body with Some u => Some u | None => iconUrl project end)
                    project in
  let p := set_images
             (match b_imagePublicIds body with Some l => Some l | None => imagePublicIds p end)
             (match b_imageUrls body with Some l => Some l | None => imageUrls p end) p in
  let p := set_tags (or_keep (b_categories body) (categories p))
                    (or_keep (b_platforms body) (platforms p)) p in
  let p :=
    match b_files body with
    | Some bf =>
        let f := match files p with Some f => f | None => no_files end in
        let f := match app bf with Some a => set_app (Some a) f | None => f end in
        let f := match code bf with Some c => set_code (Some c) f | None => f end in
        let f := match docPdf bf with Some d => set_docPdf (Some d) f | None => f end in
        set_files (Some f) p
    | None => p
    end in
  let* p :=
    (match Admin.replaced (b_iconPublicId body) (iconPublicId p), b_iconPublicId body with
     | old :: _, Some new =>
         try_catch (deleteFromCloudinary old) (fun _ => ret tt) ;;
         let* iconInfo := getFileInfo new in
         ret (match iconInfo with Some u => set_icon (iconPublicId p) (Some u) p | None => p end)
     | _, _ => ret p
     end) in
  let* p :=
    (match b_imagePublicIds body, imagePublicIds p with
     | Some new, Some current =>
         let oldImages := List.filter (fun oldId => negb (existsb (String.eqb oldId) new)) current in
         deleteAllSettled oldImages ;;
         let* newUrls := secure_urls new in
         ret (set_images (imagePublicIds p) (Some (List.filter Js.truthy newUrls)) p)
     | _, _ => ret p
     end) in
  let* p :=
    (match Admin.replaced (code_id (b_files body)) (code_id (files p)),
           code_id (b_files body), files p with
     | old :: _, Some new, Some fs =>
         try_catch (deleteFromCloudinary old) (fun _ => ret tt) ;;
         let* codeInfo := getFileInfo new in
         ret (match codeInfo with
              | Some u => set_files (Some (set_code (option_map (set_url u) (code fs)) fs)) p
              | None => p
              end)
     | _, _, _ => ret p
     end) in
  match Admin.replaced (doc_id (b_files body)) (doc_id (files p)),
        doc_id (b_files body), files p with
  | old :: _, Some new, Some fs =>
      try_catch (deleteFromCloudinary old) (fun _ => ret tt) ;;
      let* docInfo := getFileInfo new in
      ret (match docInfo with
           | Some u => set_files (Some (set_docPdf (option_map (set_url u) (docPdf fs)) fs)) p
           | None => p
           end)
  | _, _, _ => ret p
  end.

Definition updateProject (user : option User) (id : string) (body : UpdateBody)
  : Eff World Response :=
  handler
    (match user_id user with
     | None => ret (Failure 401 "Usuario no autenticado")
     | Some userId =>
         let* found := findById id in
         match found with
         | None => ret (Failure 404 "Project not found")
         | Some project =>
             let* company := populate project in
             let isAdmin := is_admin user in
             let isOwner := is_owner company userId in
             let isPublisher := is_publisher company userId in
             if negb isAdmin && negb isOwner && negb isPublisher
             then ret (Failure 403 "No tienes permisos para editar este proyecto. Solo el Owner o miembros con rol Publisher pueden editarlo.")
             else if bool_decide (status project = published) && negb isAdmin
             then
               let '(changes, hasChanges) := draftChanges project body in
               if negb hasChanges
               then ret (Failure 400 "No se detectaron cambios para guardar")
               else
                 let* t := clock in
                 let project := set_draft draft_pending (Some changes) (Some t) None None project in
                 let* project := save project in
                 ret (Sent 200 "Los cambios se han guardado como borrador y serán revisados por un administrador. La versión actual permanece publicada."
                           project None (Some true))
             else
               let* project := apply_directly project body in
               let* project := save project in
               ret (Sent 200 "Proyecto actualizado exitosamente" project None (Some false))
         end
     end).

(** A file as multer hands it over. *)
Record MulterFile := {
  buffer : list Byte.byte;
  originalname : string;
  mimetype : string;
}.










(** [scanWithVirusTotal] of the antivirus service, on the service's own
    state. *)
Definition scan `{Platform} (file : MulterFile) : Eff World Antivirus.VirusTotalScanResult :=
  let* v := lift vt set_vt (Antivirus.scanWithVirusTotal (buffer file) (originalname file)) in
  modify (log_verdict (originalname file) v) ;;
  ret v.













End Projects.

(** ** A platform for the examples *)

Module Node.

Definition hex_digit (n : nat) : ascii :=
  nth n ["0"; "1"; "2"; "3"; "4"; "5"; "6"; "7"; "8"; "9"; "a"; "b"; "c"; "d"; "e"; "f"]%char
      "0"%char.

Definition hex_byte (b : Byte.byte) : string :=
  let n := Byte.to_nat b in
  String (hex_digit (n / 16)) (String (hex_digit (n mod 16)) EmptyString).

(** Stands for the SHA-256 digest: a text that identifies the content
    (here its hexadecimal dump, which no two contents share). *)
Definition digest (content : list Byte.byte) : string :=
  String.concat "" (map hex_byte content).

Definition is_hex (c : ascii) : bool :=
  let n := nat_of_ascii c in
  (((48 <=? n) && (n <=? 57)) || ((97 <=? n) && (n <=? 102))
   || ((65 <=? n) && (n <=? 70)))%nat.

(** The 24 hexadecimal characters of an ObjectId. *)
Definition hex24 (s : string) : bool :=
  (String.length s =? 24)%nat && forallb is_hex (list_ascii_of_string s).

(** The extension of the last path segment, from its last dot on. *)
Definition extension (path : string) : string :=
  match rev (Js.split "." (Js.last_segment path)) with
  | last_piece :: before :: more =>
      match before, more with
      | EmptyString, [] => EmptyString
      | _, _ => String "." last_piece
      end
  | _ => EmptyString
  end.

Definition platform : Platform :=
  {| sha256 := digest; objectIdIsValid := hex24; extname := extension |}.

End Node.

(** * Specification vocabulary *)

Module AntivirusSpec.
Import Antivirus.

Definition is_post (c : Call) : bool :=
  match c with PostScan _ _ => true | _ => false end.

Definition is_sleep (c : Call) : bool :=
  match c with Sleep _ => true | _ => false end.

(** [w'] comes after [w] by waiting only. *)
Definition waited (w w' : World) : Prop :=
  API_KEY (svc w') = API_KEY (svc w)
  /\ reportReplies w' = reportReplies w
  /\ scanReplies w' = scanReplies w
  /\ exists sleeps, calls w' = calls w ++ sleeps /\ forallb is_sleep sleeps = true.

(** [w'] comes after [w]: calls are only added, replies only taken from
    the front of their streams. *)
Definition later (w w' : World) : Prop :=
  API_KEY (svc w') = API_KEY (svc w)
  /\ (exists used, reportReplies w = used ++ reportReplies w')
  /\ (exists added, calls w' = calls w ++ added).

(** What [checkHashReport] makes of the reply to its lookup. *)
Definition found (reply : HttpReply VirusTotalReportResponse) : option VirusTotalReportResponse :=
  match reply with
  | Json result => if bool_decide (response_code result = 1) then Some result else None
  | _ => None
  end.

End AntivirusSpec.

Module StorageSpec.
Import Model Backend Upload.

(** Everything but Cloudinary and the log of storage calls is as before. *)
Definition same_db (w w' : World) : Prop :=
  projects w' = projects w /\ companies w' = companies w /\ vt w' = vt w
  /\ notifyReplies w' = notifyReplies w /\ notifications w' = notifications w
  /\ nextObjectId w' = nextObjectId w /\ verdicts w' = verdicts w.

(** A step inside the Cloudinary SDK: nothing is logged. *)
Definition sdk_step (w w' : World) : Prop :=
  same_db w w' /\ storageCalls w' = storageCalls w.

(** A computation that only talks to the storage service, logging calls
    that satisfy [allowed]; when it ends well they all satisfy [on_ok]. *)
Definition phase (allowed on_ok : StorageCall -> Prop) {A} (m : Eff World A) : Prop :=
  forall w r w', m w = (r, w') ->
    exists added, same_db w w' /\ storageCalls w' = storageCalls w ++ added
      /\ Forall allowed added /\ (forall a, r = Ok a -> Forall on_ok added).




Definition total {W A} (m : Eff W A) : Prop :=
  forall w, exists a w', m w = (Ok a, w').





(** A move out of [/temp/] into a permanent folder of the project. *)
Definition is_promotion (projectId : string) (c : StorageCall) : Prop :=
  match c with
  | Moved src folder _ =>
      Js.includes src "/temp/" = true
      /\ exists kind, folder = Admin.project_folder projectId kind
  | Inspected _ _ => True
  | _ => False
  end.

End StorageSpec.

Module AdminSpec.
Import Model Backend Upload Admin.

(** The live assets of a project, kind by kind. *)
Definition live_asset (p : Project) (x : string) : Prop :=
  iconPublicId p = Some x \/ In x (or_nil (imagePublicIds p))
  \/ code_id (files p) = Some x \/ doc_id (files p) = Some x.


(** The publicly visible fields. *)
Definition same_live_fields (p p' : Project) : Prop :=
  _id p' = _id p /\ title p' = title p /\ slug p' = slug p
  /\ shortDesc p' = shortDesc p /\ longDesc p' = longDesc p
  /\ categories p' = categories p /\ platforms p' = platforms p
  /\ iconPublicId p' = iconPublicId p /\ iconUrl p' = iconUrl p
  /\ imagePublicIds p' = imagePublicIds p /\ imageUrls p' = imageUrls p
  /\ files p' = files p /\ status p' = status p /\ publishedAt p' = publishedAt p.

End AdminSpec.

Module PublishSpec.
Import Model Backend Upload Admin StorageSpec AdminSpec.

(** Every asset [p'] refers to is one [p] referred to, or the result of
    a successful move among [added]. *)
Definition refs_from (p p' : Project) (added : list StorageCall) : Prop :=
  forall x, live_asset p' x ->
    live_asset p x \/ exists src folder, In (Moved src folder (Some x)) added.

Definition same_identity (p p' : Project) : Prop :=
  _id p' = _id p /\ status p' = status p /\ publishedAt p' = publishedAt p.

(** A step of the publication: it ends well whatever the storage service
    does, and only promotes. *)
Definition publish_step (pid : string) (p : Project) (m : Eff World (Project * bool)) : Prop :=
  forall w, exists p' moved w' added,
    m w = (Ok (p', moved), w')
    /\ same_db w w' /\ storageCalls w' = storageCalls w ++ added
    /\ Forall (is_promotion pid) added
    /\ same_identity p p' /\ refs_from p p' added.

Definition entry_id (e : option ProjectFile) : option string :=
  match e with Some f => publicId f | None => None end.

End PublishSpec.

Module EditSpec.
Import Model Backend Upload Projects.

(** A text field submitted, not empty and different from the live one. *)
Definition text_differs (submitted : option string) (current t : string) : Prop :=
  submitted = Some t /\ t <> "" /\ t <> current.

(** What [updateProject] takes for a change of a published project: a
    text, icon or image list that differs from the live value, or any
    file entry carried by the request, whatever its value. *)
Definition change_detected (p : Project) (body : UpdateBody) : Prop :=
  (exists t, text_differs (b_title body) (title p) t)
  \/ (exists t, text_differs (b_shortDesc body) (shortDesc p) t)
  \/ (exists t, text_differs (b_longDesc body) (longDesc p) t)
  \/ (exists i, b_iconPublicId body = Some i /\ iconPublicId p <> Some i)
  \/ (exists l, b_imagePublicIds body = Some l /\ imagePublicIds p <> Some l)
  \/ (exists bf, b_files body = Some bf
                 /\ (app bf <> None \/ code bf <> None \/ docPdf bf <> None)).

(** [over] where it is present, else [base]. *)
Definition overlay {A} (over base : option A) : option A :=
  match over with Some x => Some x | None => base end.

(** The files shadow of a draft: the live files with the submitted
    entries laid over them. *)
Definition files_shadow (p : Project) (bf : Files) : Files :=
  let live := match files p with Some f => f | None => no_files end in
  {| app := overlay (app bf) (app live);
     code := overlay (code bf) (code live);
     docPdf := overlay (docPdf bf) (docPdf live) |}.

(** No submitted field differs from the live value. *)
Definition nothing_differs (p : Project) (body : UpdateBody) : Prop :=
  (forall t, b_title body = Some t -> t = title p)
  /\ (forall t, b_shortDesc body = Some t -> t = shortDesc p)
  /\ (forall t, b_longDesc body = Some t -> t = longDesc p)
  /\ (forall i, b_iconPublicId body = Some i -> iconPublicId p = Some i)
  /\ (forall l, b_imagePublicIds body = Some l -> imagePublicIds p = Some l)
  /\ (forall bf f, b_files body = Some bf ->
        (app bf = Some f -> (files p ≫= app) = Some f)
        /\ (code bf = Some f -> (files p ≫= code) = Some f)
        /\ (docPdf bf = Some f -> (files p ≫= docPdf) = Some f)).

Definition no_body : UpdateBody :=
  {| b_title := None; b_shortDesc := None; b_longDesc := None;
     b_iconPublicId := None; b_iconUrl := None;
     b_imagePublicIds := None; b_imageUrls := None;
     b_categories := None; b_platforms := None; b_files := None |}.

End EditSpec.

Module CreateSpec.
Import Model Backend Upload Projects StorageSpec.










End CreateSpec.

(** * Worlds for the examples *)

Module Examples.
Import Antivirus.

Definition service (key : string) (daily : Z) : Service :=
  {| API_KEY := key; lastRequestTime := 0; requestCount := daily;
     dailyRequestCount := daily; lastResetDate := 0 |}.

Definition vt_world (key : string) (daily : Z)
    (reports : list (HttpReply VirusTotalReportResponse))
    (scans_ : list (HttpReply VirusTotalUploadResponse)) : World :=
  {| svc := service key daily; now := 60000; reportReplies := reports;
     scanReplies := scans_; calls := [] |}.

Definition abc : list Byte.byte := [Byte.x61; Byte.x62; Byte.x63].

Definition report_with (code positives_ : Z) (engines_ : list (string * EngineScan))
  : VirusTotalReportResponse :=
  {| response_code := code; verbose_msg := "Scan finished"; resource := "616263";
     scan_id := "616263-1700000000"; scan_date := "2025-01-01 00:00:00";
     positives := positives_; total := 2; scans := engines_ |}.

Definition quiet_engine : EngineScan := {| detected := false; result := None |}.
Definition loud_engine : EngineScan := {| detected := true; result := Some "Trojan.Generic" |}.
Definition mute_engine : EngineScan := {| detected := true; result := None |}.

Definition infected_report := report_with 1 1 [("Alpha", loud_engine); ("Beta", quiet_engine)].
Definition mute_report := report_with 1 1 [("Alpha", mute_engine); ("Beta", quiet_engine)].



End Examples.

Module Demo.
Import Model Backend Upload Projects.

Definition pid : string := "64b7f0c2a1d3e4f5a6b7c8d9".
Definition cid : string := "64b7f0c2a1d3e4f5a6b7c8aa".
Definition owner : string := "64b7f0c2a1d3e4f5a6b7c8bb".

Definition temp_icon : string := "softstore/temp/icons/icon_demo_1".
Definition temp_code : string := "softstore/temp/code/code_demo_1".
Definition live_icon : string := "softstore/projects/64b7f0c2a1d3e4f5a6b7c8d9/icons/icon_demo_1".
Definition live_code : string := "softstore/projects/64b7f0c2a1d3e4f5a6b7c8d9/code/code_demo_1".

Definition stored (id : string) : ProjectFile :=
  {| ftype := cloudinary; url := "https://res.cloudinary.com/demo/" +:+ id;
     publicId := Some id; fileName := Some "demo.zip"; virusScan := None |}.

Definition project (st : Status) (icon code_ : string) : Project :=
  {| _id := pid; title := "Demo"; slug := "demo";
     shortDesc := "A short description"; longDesc := "A long description of the demo";
     categories := ["tools"]; platforms := ["Web"];
     iconPublicId := Some icon;
     iconUrl := Some ("https://res.cloudinary.com/demo/" +:+ icon);
     imagePublicIds := Some []; imageUrls := Some [];
     companyId := Some cid; participants := [owner]; inactiveMembers := [];
     files := Some {| app := None; code := Some (stored code_); docPdf := None |};
     status := st; updatedAt := 0; publishedAt := None;
     draftStatus := draft_none; draft := None; draftSubmittedAt := None;
     draftFeedback := None; draftRejectedAt := None |}.

Definition company : Company :=
  {| ownerId := Some owner; members := [{| userId := Some owner; roles := ["Owner"] |}] |}.

Definition world (p : Project) (held : list string) (replies : list CloudReply) : World :=
  {| vt := Examples.vt_world "key" 0 [] [];
     assets := list_to_map (map (fun id => (id, "https://res.cloudinary.com/demo/" +:+ id)) held);
     cloudReplies := replies; storageCalls := [];
     projects := {[ pid := p ]}; companies := {[ cid := company ]};
     notifyReplies := []; notifications := []; nextObjectId := 0; verdicts := [] |}.

Definition fine : CloudReply := Answer "" "".

(** The icon is moved (resource, upload, destroy, then the look-up of
    the new URL); the move of the code archive fails at its first call. *)
Definition second_move_fails : World :=
  world (project pending temp_icon temp_code) [temp_icon; temp_code]
    [fine; Answer live_icon ("https://res.cloudinary.com/demo/" +:+ live_icon); fine; fine;
     Fault "Request Timeout"].

Definition rejected_project : World :=
  world (project rejected live_icon live_code) [live_icon; live_code] [].

Definition author : option User := Some {| u_id := owner; role := "user" |}.

Definition published_demo : World :=
  world (project published live_icon live_code) [live_icon; live_code] [].

(** The request carries the code file the project already has. *)
Definition same_code : UpdateBody :=
  {| b_title := None; b_shortDesc := None; b_longDesc := None;
     b_iconPublicId := None; b_iconUrl := None;
     b_imagePublicIds := None; b_imageUrls := None;
     b_categories := None; b_platforms := None;
     b_files := Some {| app := None; code := Some (stored live_code); docPdf := None |} |}.

Definition update_icon : string :=
  "softstore/updates/64b7f0c2a1d3e4f5a6b7c8d9/icons/icon_demo_2".

(** A draft that proposes a new icon. *)
Definition new_icon_draft : DraftChanges :=
  {| d_title := None; d_shortDesc := None; d_longDesc := None;
     d_iconPublicId := Some update_icon;
     d_iconUrl := Some ("https://res.cloudinary.com/demo/" +:+ update_icon);
     d_imagePublicIds := None; d_imageUrls := None; d_files := None |}.

Definition drafted : Project :=
  set_draft draft_pending (Some new_icon_draft) (Some 0) None None
    (project published live_icon live_code).

Definition pending_draft (replies : list CloudReply) : World :=
  world drafted [live_icon; live_code; update_icon] replies.



Definition archive : MulterFile :=
  {| buffer := Examples.abc; originalname := "virus.zip"; mimetype := "application/zip" |}.



End Demo.

(** * The rest of the services, the model and the controllers *)

(** Texts of the errors raised inside the libraries, which the handlers
    pass on as they are. *)
Class Libraries := {
  castError : string -> string;         (* mongoose: the CastError for a text that is no ObjectId *)
  zodError : forall A : Type, A -> string;  (* zod: the message of the ZodError for a refused body *)
}.

(** ** src/services/antivirus.service.ts, the public methods left *)

Module AntivirusBatch.
Import Antivirus.

Record ScanInput := {
  in_buffer : list Byte.byte;
  in_filename : string;
}.

(** The record the [catch] of [scanMultipleFiles] pushes. *)
Definition scan_error (message : string) : VirusTotalScanResult :=
  {| isSafe := false; scanId := "error"; threats := ["Scan error: " +:+ message];
     details := None; error := Some message |}.

(** The [for (const file of files)] loop, with [results] as
    accumulator; [stop] is the [break]. *)
Fixpoint scanMultipleFiles_loop `{Platform} (files : list ScanInput)
    (results : list VirusTotalScanResult) : Eff World (list VirusTotalScanResult) :=
  match files with
  | [] => ret results
  | file :: rest =>
      let* (results, stop) :=
        try_catch
          (let* result := scanWithVirusTotal (in_buffer file) (in_filename file) in
           ret (results ++ [result], negb (isSafe result)))
          (fun message => ret (results ++ [scan_error message], false)) in
      if stop then ret results else scanMultipleFiles_loop rest results
  end.

Definition scanMultipleFiles `{Platform} (files : list ScanInput)
  : Eff World (list VirusTotalScanResult) :=
  scanMultipleFiles_loop files [].

Record Stats := {
  st_requestCount : Z;
  st_dailyRequestCount : Z;
  remainingDailyRequests : Z;
  st_lastRequestTime : Z;
}.

Definition getStats (s : Service) : Stats :=
  {| st_requestCount := requestCount s;
     st_dailyRequestCount := dailyRequestCount s;
     remainingDailyRequests := Z.max 0 (500 - dailyRequestCount s);
     st_lastRequestTime := lastRequestTime s |}.

End AntivirusBatch.

(** ** src/models/Project.ts, the methods left *)

Module ProjectMethods.
Import Model.

(** [f && f.virusScan && !f.virusScan.isSafe] *)
Definition flagged (f : option ProjectFile) : bool :=
  match f with
  | Some f => match virusScan f with
              | Some v => negb (vs_isSafe v)
              | None => false
              end
  | None => false
  end.

Definition areFilesSafe (p : Project) : bool :=
  match files p with
  | None => true
  | Some fs =>
      if flagged (code fs) then false
      else if flagged (docPdf fs) then false
      else true
  end.

Record UnsafeFile := {
  uf_type : string;
  uf_threats : list string;
}.

(** [virusScan.threats || []] *)
Definition threats_of (f : option ProjectFile) : list string :=
  match f with
  | Some f => match virusScan f with
              | Some v => Admin.or_nil (vs_threats v)
              | None => []
              end
  | None => []
  end.

Definition getUnsafeFiles (p : Project) : list UnsafeFile :=
  match files p with
  | None => []
  | Some fs =>
      (if flagged (code fs)
       then [{| uf_type := "code"; uf_threats := threats_of (code fs) |}] else [])
      ++ (if flagged (docPdf fs)
          then [{| uf_type := "docPdf"; uf_threats := threats_of (docPdf fs) |}] else [])
  end.

Definition hasPendingDraft (p : Project) : bool :=
  bool_decide (draftStatus p = draft_pending)
  && match draft p with Some _ => true | None => false end.

End ProjectMethods.

(** ** src/controllers/admin.controller.ts, the moderation handlers left *)

Module Moderation.
Import Model Backend Upload Projects.

(** [req.body] of the feedback handlers, as [feedbackSchema] types it;
    a JSON number is a rational. *)
Record Feedback := {
  reasons : list string;
  customMessage : option string;
  expiresInDays : option QArith_base.Q;
}.

(** [feedbackSchema.parse(req.body)] succeeds: at least one reason, and
    the days, when given, between 1 and 30. *)
Definition feedbackSchema_ok (b : Feedback) : bool :=
  (1 <=? List.length (reasons b))%nat
  && match expiresInDays b with
     | Some d => QArith_base.Qle_bool (QArith_base.inject_Z 1) d
                 && QArith_base.Qle_bool d (QArith_base.inject_Z 30)
     | None => true
     end.

(** [project.companyId?.ownerId?.toString() || 'unknown'] *)
Definition owner_or_unknown (c : option Company) : string :=
  match owner_of c with Some o => o | None => "unknown" end.

(** [project.status = s] *)
Definition with_status (s : Status) (p : Project) : Project :=
  set_status s (publishedAt p) p.

(** [sendToAuthor] and [rejectProject] differ in the status they set and
    in the notification and message they send. *)
Definition feedback_transition `{Platform} `{Libraries} (s : Status)
    (title_ message : string) (id : string) (body : Feedback) : Eff World Response :=
  handler
    (if negb (objectIdIsValid id) then ret (Failure 400 "ID de proyecto inválido")
     else if negb (feedbackSchema_ok body) then throw (zodError Feedback body)
     else
       let* found := findById id in
       match found with
       | None => ret (Failure 404 "Proyecto no encontrado")
       | Some project =>
           let* company := populate project in
           let project := with_status s project in
           let* project := save project in
           notifyProject id (owner_or_unknown company) "project_feedback" title_ ;;
           ret (Sent 200 message project None None)
       end).

Definition sendToAuthor `{Platform} `{Libraries} (id : string) (body : Feedback)
  : Eff World Response :=
  feedback_transition needs_author_review "Proyecto requiere edición"
    "Proyecto enviado al autor para revisión" id body.

Definition rejectProject `{Platform} `{Libraries} (id : string) (body : Feedback)
  : Eff World Response :=
  feedback_transition rejected "Proyecto rechazado" "Proyecto rechazado" id body.

Definition warnProject `{Platform} `{Libraries} (id : string) (body : Feedback)
  : Eff World Response :=
  handler
    (if negb (objectIdIsValid id) then ret (Failure 400 "ID de proyecto inválido")
     else if negb (feedbackSchema_ok body) then throw (zodError Feedback body)
     else
       let* found := findById id in
       match found with
       | None => ret (Failure 404 "Proyecto no encontrado")
       | Some project =>
           let* company := populate project in
           match owner_of company with
           | None =>
               ret (Failure 400 "No se puede enviar advertencia a un proyecto huérfano")
           | Some authorId =>
               notifyProject id authorId "project_warning" "Advertencia sobre tu proyecto" ;;
               ret (Sent 200 "Advertencia enviada al autor del proyecto" project None None)
           end
       end).

(** [company?.members?.some(m => m.userId?.toString() === userId
    && m.roles?.includes('Publisher')) || false] *)
Definition some_publisher (c : option Company) (userId : string) : bool :=
  match c with
  | Some c => existsb (fun m => is_member userId m && has_role "Publisher" m) (members c)
  | None => false
  end.

Definition clearRejectedDraft `{Platform} (user : option User) (id : string)
  : Eff World Response :=
  handler
    (match user_id user with
     | None => ret (Failure 401 "Usuario no autenticado")
     | Some userId =>
         if negb (objectIdIsValid id) then ret (Failure 400 "ID de proyecto inválido")
         else
           let* found := findById id in
           match found with
           | None => ret (Failure 404 "Proyecto no encontrado")
           | Some project =>
               let* company := populate project in
               let isOwner := is_owner company userId in
               let isPublisher := some_publisher company userId in
               if negb isOwner && negb isPublisher
               then ret (Failure 403 "No tienes permisos para realizar esta acción")
               else if negb (bool_decide (draftStatus project = draft_rejected))
               then ret (Failure 400 "Solo se pueden limpiar borradores rechazados")
               else
                 let project := clearDraft project in
                 let* project := save project in
                 ret (Sent 200 "Borrador rechazado eliminado. Puedes crear uno nuevo."
                           project None None)
           end
     end).

End Moderation.

(** ** src/controllers/projects.controller.ts, handlers of the authors *)

Module Authoring.
Import Model Backend Upload Projects Moderation.

(** [Project.findById(id)] on an id the handler has not validated:
    mongoose rejects a text that is no ObjectId. *)
Definition findById_cast `{Platform} `{Libraries} (id : string) : Eff World (option Project) :=
  if objectIdIsValid id then findById id else throw (castError id).

(** [['rejected', 'needs_author_review'].includes(project.status)] *)
Definition resubmittable (s : Status) : bool :=
  match s with rejected | needs_author_review => true | _ => false end.

Definition resubmitProject `{Platform} `{Libraries} (user : option User) (id : string)
  : Eff World Response :=
  handler
    (match user_id user with
     | None => ret (Failure 401 "Usuario no autenticado")
     | Some userId =>
         let* found := findById_cast id in
         match found with
         | None => ret (Failure 404 "Proyecto no encontrado")
         | Some project =>
             let* company := populate project in
             let isOwner := is_owner company userId in
             let isPublisher := some_publisher company userId in
             if negb isOwner && negb isPublisher
             then ret (Failure 403 "Solo el dueño del proyecto o un miembro con rol Publisher pueden reenviarlo")
             else if negb (resubmittable (status project))
             then ret (Failure 400 "El proyecto debe estar rechazado o necesitar revisión para poder reenviarlo")
             else
               let project := with_status pending project in
               let* project := save project in
               try_catch
                 (notifyProject (_id project) userId "project_status"
                    "Proyecto enviado para revisión")
                 (fun _ => ret tt) ;;
               ret (Sent 200 "Proyecto reenviado para revisión exitosamente"
                         project None None)
         end
     end).

(** [createProject], the participants it stores: the requested ones
    that are members of the company. *)
Definition create_participants (company : option Company) (requested : list string)
  : list string :=
  List.filter (fun p => match company with
                        | Some c => existsb (is_member p) (members c)
                        | None => false
                        end) requested.

(** [createProject], the inactive members it stores: the members that
    are not among the participants. *)
Definition create_inactiveMembers (company : option Company) (participants : list string)
  : list string :=
  match company with
  | Some c =>
      flat_map (fun m => match Model.userId m with
                         | Some u => if existsb (String.eqb u) participants then [] else [u]
                         | None => []
                         end) (members c)
  | None => []
  end.

End Authoring.

(** ** likeProject *)

Module Likes.

(** [IProject], with the two fields [likeProject] reads and writes. *)
Record Liked := {
  likes : Z;
  likedBy : list string;
}.

Inductive LikeResponse :=
| LikeFailure (code : Z) (error : string)
| LikeSent (liked : bool) (count : Z) (message : string)
| LikesSent (count : Z) (userLiked : bool).

(** The collection of projects. *)
Definition Store := gmap string Liked.

(** [req.user.id] is the text of the user's ObjectId (the auth
    middleware sets it from [user._id.toString()]), so the ObjectId
    rebuilt from it prints as that text again. *)
Definition likeProject `{Platform} (userId : option string) (projectId : string)
  : Eff Store LikeResponse :=
  try_catch
    (match userId with
     | None => ret (LikeFailure 401 "Usuario no autenticado")
     | Some userId =>
         if negb (Js.truthy userId) then ret (LikeFailure 401 "Usuario no autenticado")
         else if negb (objectIdIsValid projectId)
         then ret (LikeFailure 400 "ID de proyecto inválido")
         else
           let* found := gets (fun st : Store => st !! projectId) in
           match found with
           | None => ret (LikeFailure 404 "Proyecto no encontrado")
           | Some project =>
               let alreadyLiked := existsb (fun id => String.eqb id userId) (likedBy project) in
               let project :=
                 if alreadyLiked
                 then {| likedBy := List.filter (fun id => negb (String.eqb id userId))
                                      (likedBy project);
                         likes := Z.max 0 (likes project - 1) |}
                 else {| likedBy := likedBy project ++ [userId];
                         likes := likes project + 1 |} in
               modify (fun st : Store => <[projectId := project]> st) ;;
               ret (LikeSent (negb alreadyLiked) (likes project)
                      (if alreadyLiked then "Like removido" else "Like agregado"))
           end
     end)
    (fun message => ret (LikeFailure 400 message)).

Definition getProjectLikes `{Platform} (userId : option string) (projectId : string)
  : Eff Store LikeResponse :=
  try_catch
    (if negb (objectIdIsValid projectId) then ret (LikeFailure 400 "ID de proyecto inválido")
     else
       let* found := gets (fun st : Store => st !! projectId) in
       match found with
       | None => ret (LikeFailure 404 "Proyecto no encontrado")
       | Some project =>
           let userLiked :=
             match userId with
             | Some u => Js.truthy u && existsb (fun id => String.eqb id u) (likedBy project)
             | None => false
             end in
           ret (LikesSent (likes project) userLiked)
       end)
    (fun message => ret (LikeFailure 500 message)).

End Likes.

(** ** src/controllers/upload.controller.ts *)

Module UploadController.
Import Model Backend Upload Projects.

Definition is_file_char (c : ascii) : bool :=
  Ids.is_lower_alnum c || Ascii.eqb c "." || Ascii.eqb c "-".

(** [replace(/[^a-z0-9.-]/g, '_')] *)
Fixpoint underscore_others (s : string) : string :=
  match s with
  | EmptyString => EmptyString
  | String c rest =>
      String (if is_file_char c then c else "_"%char) (underscore_others rest)
  end.

(** [replace(/_+/g, '_')] *)
Fixpoint collapse_underscores (s : string) (in_run : bool) : string :=
  match s with
  | EmptyString => EmptyString
  | String c rest =>
      if Ascii.eqb c "_"
      then if in_run then collapse_underscores rest true
           else String "_" (collapse_underscores rest true)
      else String c (collapse_underscores rest false)
  end.

(** The [sanitizeFileName] of this controller. *)
Definition sanitizeFileName (fileName : string) : string :=
  Ids.strip_trailing "_"
    (Ids.strip_leading "_"
       (collapse_underscores (underscore_others (Ids.toLowerCase fileName)) false)).

Definition getUploadFolder (baseFolder : string) (projectId : option string) (isUpdate : bool)
  : string :=
  match projectId with
  | Some id =>
      if negb (Js.truthy id) then "softstore/temp/" +:+ baseFolder
      else if isUpdate then "softstore/updates/" +:+ id +:+ "/" +:+ baseFolder
      else "softstore/projects/" +:+ id +:+ "/" +:+ baseFolder
  | None => "softstore/temp/" +:+ baseFolder
  end.

(** An entry of [fileTypeValidation]. *)
Record FileTypeConfig := {
  maxSize : Z;
  allowedTypes : list string;
  mimeTypes : list string;
}.

Definition app_config : FileTypeConfig :=
  {| maxSize := 100 * 1024 * 1024;
     allowedTypes := [".exe"; ".apk"; ".ipa"; ".dmg"; ".msi"; ".deb"; ".rpm"];
     mimeTypes := ["application/vnd.android.package-archive"; "application/octet-stream";
                   "application/x-msdownload"] |}.

Definition code_config : FileTypeConfig :=
  {| maxSize := 50 * 1024 * 1024;
     allowedTypes := [".zip"; ".rar"; ".7z"; ".tar.gz"; ".tar"];
     mimeTypes := ["application/zip"; "application/x-rar-compressed"; "application/x-rar";
                   "application/vnd.rar"; "application/x-7z-compressed"; "application/gzip";
                   "application/x-tar"; "application/x-gzip"] |}.

Definition doc_config : FileTypeConfig :=
  {| maxSize := 2 * 1024 * 1024;
     allowedTypes := [".pdf"];
     mimeTypes := ["application/pdf"] |}.

Definition validateFileType `{Platform} (file : MulterFile) (config : FileTypeConfig) : bool :=
  let fileExtension := Ids.toLowerCase (extname (originalname file)) in
  if existsb (String.eqb fileExtension) (allowedTypes config) then true
  else existsb (String.eqb (mimetype file)) (mimeTypes config).

(** [req.body] of the file uploads, as [projectFileUploadSchema] types
    it. *)
Record UploadBody := {
  projectId : option string;
  projectTitle : string;
}.

Definition projectFileUploadSchema_ok (b : UploadBody) : bool :=
  (1 <=? String.length (projectTitle b))%nat.

Inductive UploadResponse :=
| Refused (code : Z) (error : string)
| Threat (details : list string) (scanId : string)    (* status 400 *)
| Stored (fileId fileName url : string) (size : nat) (scanId : string) (scannedAt : Z)
         (message : string).

(** What tells the three file uploads apart. *)
Record Kind := {
  config : FileTypeConfig;
  wrong_type : string;
  name_prefix : string;
  baseFolder : string;
  keeps_extension : bool;
  (* the update of [project.files], absent for the app upload *)
  attach : option (ProjectFile -> Files -> Files);
  done_message : string;
}.

Definition app_kind : Kind :=
  {| config := app_config;
     wrong_type := "Tipo de archivo no válido para aplicación. Formatos permitidos: .exe, .apk, .ipa, .dmg, .msi, .deb, .rpm";
     name_prefix := "app_"; baseFolder := "apps"; keeps_extension := true;
     attach := None;
     done_message := "Aplicación subida y escaneada exitosamente" |}.

Definition code_kind : Kind :=
  {| config := code_config;
     wrong_type := "Tipo de archivo no válido para código fuente. Formatos permitidos: .zip, .rar, .7z, .tar.gz, .tar";
     name_prefix := "code_"; baseFolder := "code"; keeps_extension := true;
     attach := Some (fun f fs => set_code (Some f) fs);
     done_message := "Código fuente subido y escaneado exitosamente" |}.

Definition doc_kind : Kind :=
  {| config := doc_config;
     wrong_type := "Tipo de archivo no válido para documentación. Solo se permite PDF";
     name_prefix := "doc_"; baseFolder := "docs"; keeps_extension := false;
     attach := Some (fun f fs => set_docPdf (Some f) fs);
     done_message := "Documentación subida y escaneada exitosamente" |}.

(** [projectId ? await Project.findById(projectId) : null] *)
Definition find_project `{Platform} `{Libraries} (projectId : option string)
  : Eff World (option Project) :=
  match projectId with
  | Some id => if Js.truthy id then Authoring.findById_cast id else ret None
  | None => ret None
  end.

(** The entry written to [project.files]: [isSafe] is the literal
    [true], the verdict gives the scan id and the threats. *)
Definition scanned_entry (r : UploadResult) (file : MulterFile)
    (v : Antivirus.VirusTotalScanResult) (t : Z) : ProjectFile :=
  {| ftype := cloudinary; url := secureUrl r; publicId := Some (u_publicId r);
     fileName := Some (originalname file);
     virusScan := Some {| vs_isSafe := true; vs_scanId := Antivirus.scanId v;
                          vs_scannedAt := Some t;
                          vs_threats := Some (Antivirus.threats v) |} |}.

(** The handler that ends [uploadProjectAppController],
    [uploadProjectCodeController] and [uploadProjectDocController].
    [cleanupTempUploads] removes a directory of the local disk and
    swallows every error; the local disk is no part of the world. *)
Definition uploadProjectFile `{Platform} `{Libraries} (k : Kind)
    (user : option User) (file : option MulterFile) (body : UploadBody)
  : Eff World UploadResponse :=
  try_catch
    (match user_id user with
     | None => ret (Refused 401 "Usuario no autenticado")
     | Some _ =>
         match file with
         | None => ret (Refused 400 "No se proporcionó archivo")
         | Some file =>
             if negb (projectFileUploadSchema_ok body) then throw (zodError UploadBody body)
             else if negb (validateFileType file (config k))
             then ret (Refused 400 (wrong_type k))
             else if maxSize (config k) <? Z.of_nat (List.length (buffer file))
             then ret (Refused 400 ("Archivo demasiado grande. Máximo permitido: "
                                    +:+ pretty (maxSize (config k) / (1024 * 1024)) +:+ "MB"))
             else
               let* virusScanResult := scan file in
               if negb (Antivirus.isSafe virusScanResult)
               then ret (Threat (Antivirus.threats virusScanResult)
                                (Antivirus.scanId virusScanResult))
               else
                 let sanitizedTitle :=
                   sanitizeFileName (if Js.truthy (projectTitle body)
                                     then projectTitle body else "untitled") in
                 let fileExtension :=
                   if keeps_extension k then extname (originalname file) else ".pdf" in
                 let* t := clock in
                 let fileName := name_prefix k +:+ sanitizedTitle +:+ "_" +:+ pretty t
                                 +:+ fileExtension in
                 let* project := find_project (projectId body) in
                 let isUpdate :=
                   match project with
                   | Some p => bool_decide (status p = published)
                   | None => false
                   end in
                 let folder := getUploadFolder (baseFolder k) (projectId body) isUpdate in
                 let* result :=
                   uploadToCloudinary (buffer file) fileName (mimetype file) folder in
                 (match attach k with
                  | Some attach_ =>
                      let* project := find_project (projectId body) in
                      match project with
                      | Some project =>
                          if bool_decide (status project = published) then ret tt
                          else
                            let* now_ := clock in
                            let fs := match files project with
                                      | Some fs => fs
                                      | None => no_files
                                      end in
                            let entry := scanned_entry result file virusScanResult now_ in
                            save (set_files (Some (attach_ entry fs)) project) ;;
                            ret tt
                      | None => ret tt
                      end
                  | None => ret tt
                  end) ;;
                 let* sent := clock in
                 ret (Stored (u_publicId result) fileName (secureUrl result)
                             (List.length (buffer file))
                             (Antivirus.scanId virusScanResult) sent (done_message k))
         end
     end)
    (fun message => ret (Refused 500 message)).

Definition uploadProjectApp `{Platform} `{Libraries} := uploadProjectFile app_kind.
Definition uploadProjectCode `{Platform} `{Libraries} := uploadProjectFile code_kind.
Definition uploadProjectDoc `{Platform} `{Libraries} := uploadProjectFile doc_kind.



End UploadController.

(** ** src/controllers/admin.antivirus.controller.ts *)

Module AntivirusAdmin.
Import Model Backend Upload Projects.

Inductive ScannedFile := scanned_code | scanned_docPdf.

Record OverrideBody := {
  o_projectId : string;
  o_fileType : ScannedFile;
  o_reason : string;
}.

Definition overrideSchema_ok (b : OverrideBody) : bool :=
  (1 <=? String.length (o_projectId b))%nat && (5 <=? String.length (o_reason b))%nat.

Inductive OverrideResponse :=
| OverrideFailure (code : Z) (error : string)
| Overridden (projectId : string) (fileType : ScannedFile) (reason : string)
             (updatedScan : VirusScan).

(** [project.files?.[fileType]] *)
Definition file_of (t : ScannedFile) (p : Project) : option ProjectFile :=
  match files p with
  | Some fs => match t with scanned_code => code fs | scanned_docPdf => docPdf fs end
  | None => None
  end.

Definition put_file (t : ScannedFile) (f : ProjectFile) (fs : Files) : Files :=
  match t with
  | scanned_code => set_code (Some f) fs
  | scanned_docPdf => set_docPdf (Some f) fs
  end.

Definition markFileAsSafe `{Platform} `{Libraries} (user : option User) (body : OverrideBody)
  : Eff World OverrideResponse :=
  try_catch
    (if negb (is_admin user)
     then ret (OverrideFailure 403 "Solo administradores pueden marcar archivos como seguros")
     else if negb (overrideSchema_ok body) then throw (zodError OverrideBody body)
     else
       let* found := Authoring.findById_cast (o_projectId body) in
       match found with
       | None => ret (OverrideFailure 404 "Proyecto no encontrado")
       | Some project =>
           match file_of (o_fileType body) project, files project with
           | Some file, Some fs =>
               match virusScan file with
               | Some _ =>
                   let* t := clock in
                   let scan_ := {| vs_isSafe := true;
                                   vs_scanId := "admin-override-" +:+ pretty t;
                                   vs_scannedAt := Some t;
                                   vs_threats := Some ["ADMIN OVERRIDE: " +:+ o_reason body] |} in
                   let file := {| ftype := ftype file; url := url file;
                                  publicId := publicId file; fileName := fileName file;
                                  virusScan := Some scan_ |} in
                   save (set_files (Some (put_file (o_fileType body) file fs)) project) ;;
                   ret (Overridden (o_projectId body) (o_fileType body) (o_reason body) scan_)
               | None =>
                   ret (OverrideFailure 404 "Archivo o información de escaneo no encontrado")
               end
           | _, _ => ret (OverrideFailure 404 "Archivo o información de escaneo no encontrado")
           end
       end)
    (fun message => ret (OverrideFailure 400 message)).

End AntivirusAdmin.

Module QuotaSpec.
Import Antivirus AntivirusSpec.

Definition is_request (c : Call) : bool := negb (is_sleep c).

(** The requests among the calls logged, and the uploads among them. *)
Definition requests (l : list Call) : nat := List.length (List.filter is_request l).
Definition posts (l : list Call) : nat := List.length (List.filter is_post l).

(** The counter of the day lies between 0 and the ceiling. *)
Definition within_quota (w : World) : Prop :=
  0 <= dailyRequestCount (svc w) <= DAILY_LIMIT.

(** From [w] to [w'] the counters and the clock only went up, and the
    counter of the day stayed within the quota if it was. *)
Definition counted (w w' : World) : Prop :=
  (within_quota w -> within_quota w')
  /\ requestCount (svc w) <= requestCount (svc w')
  /\ now w <= now w'.

(** A run that logged [added], with at most [n] requests of which at
    most [p] uploads. *)
Definition spent (n p : nat) (added : list Call) : Prop :=
  (requests added <= n)%nat /\ (posts added <= p)%nat.

Definition day_limit_message : string :=
  "Límite diario de escaneo alcanzado. Intenta mañana.".

(** The prefix [getScanReport] puts before an error. *)
Definition report_error : string := "Error al obtener reporte de escaneo: ".

Definition too_large_message : string :=
  "Error al subir archivo para escaneo: Archivo demasiado grande para escaneo. Máximo: 32MB".

(** The first pending reply to a lookup holds no completed report. *)
Definition unknown_to_service (w : World) : Prop :=
  match reportReplies w with
  | reply :: _ => found reply = None
  | [] => True
  end.

(** Time passes. *)
Definition elapse (t : Z) (w : World) : World :=
  {| svc := svc w; now := now w + t; reportReplies := reportReplies w;
     scanReplies := scanReplies w; calls := calls w |}.

(** A day of requests: before each scan some time passes. *)
Fixpoint scans_over_time `{Platform} (l : list (Z * AntivirusBatch.ScanInput))
  : Eff World (list VirusTotalScanResult) :=
  match l with
  | [] => ret []
  | (t, file) :: rest =>
      modify (elapse t) ;;
      let* v := scanWithVirusTotal (AntivirusBatch.in_buffer file)
                  (AntivirusBatch.in_filename file) in
      let* vs := scans_over_time rest in
      ret (v :: vs)
  end.

End QuotaSpec.

Module TextSpec.

(** Every character of [s] satisfies [ok]. *)
Fixpoint every (ok : ascii -> bool) (s : string) : bool :=
  match s with
  | EmptyString => true
  | String c rest => ok c && every ok rest
  end.

Definition starts_with (d : ascii) (s : string) : bool :=
  match s with
  | String c _ => Ascii.eqb c d
  | EmptyString => false
  end.

Fixpoint ends_with (d : ascii) (s : string) : bool :=
  match s with
  | EmptyString => false
  | String c EmptyString => Ascii.eqb c d
  | String _ rest => ends_with d rest
  end.

(** Two adjacent characters of [s] are both [d]. *)
Fixpoint doubled (d : ascii) (s : string) : bool :=
  match s with
  | EmptyString => false
  | String c rest => (Ascii.eqb c d && starts_with d rest) || doubled d rest
  end.

(** [a-z], [0-9] and the hyphen. *)
Definition slug_char (c : ascii) : bool := Ids.is_lower_alnum c || Ascii.eqb c "-".

(** [a-z], [0-9], the hyphen and the underscore. *)
Definition title_char (c : ascii) : bool :=
  Ids.is_lower_alnum c || Ascii.eqb c "-" || Ascii.eqb c "_".

(** [a-z], [0-9], the hyphen, the dot and the underscore. *)
Definition file_name_char (c : ascii) : bool :=
  UploadController.is_file_char c || Ascii.eqb c "_".

(** Separated words: no [d] at either end, no two in a row. *)
Definition separated (d : ascii) (s : string) : Prop :=
  starts_with d s = false /\ ends_with d s = false /\ doubled d s = false.

End TextSpec.

Module DraftSpec.
Import Model.



End DraftSpec.

(** ** Words for the moderation handlers *)

Module ModerationSpec.
Import Model Backend Upload Admin Projects Moderation.

Definition is_failure (r : Response) : Prop :=
  match r with Failure _ _ => True | _ => False end.

(** The answer of a handler whose last step is the notification of the
    author: the error of the notification, or the success message. *)
Definition answer_after_notifying (w : World) (message : string) (p : Project) : Response :=
  match notifyReplies w with
  | Some e :: _ => Failure 400 e
  | _ => Sent 200 message p None None
  end.

(** May [userId] act for the company: its owner, or a member with the
    role Publisher. *)
Definition may_act (w : World) (p : Project) (userId : string) : bool :=
  let company := match companyId p with Some c => companies w !! c | None => None end in
  is_owner company userId || some_publisher company userId.

(** At most one notification more, of the given type and for the given
    project. *)
Definition at_most_one_more (type_ projectId : string) (w w' : World) : Prop :=
  notifications w' = notifications w
  \/ exists n, notifications w' = notifications w ++ [n]
               /\ n_type n = type_ /\ n_projectId n = projectId.

(** The users that are members of a company. *)
Definition member_ids (ms : list Member) : list string :=
  flat_map (fun m => match Model.userId m with Some x => [x] | None => [] end) ms.

End ModerationSpec.

(** ** Words for the upload handlers *)

Module UploadSpec.
Import Model Backend Upload Projects UploadController.

(** Every document is stored under its own id. *)
Definition keyed (w : World) : Prop :=
  forall k p, projects w !! k = Some p -> _id p = k.

Definition is_stored (r : UploadResponse) : Prop :=
  match r with Stored _ _ _ _ _ _ _ => True | _ => False end.

(** Nothing of the storage service or of the projects has changed. *)
Definition untouched (w w' : World) : Prop :=
  assets w' = assets w /\ projects w' = projects w /\ storageCalls w' = storageCalls w.

End UploadSpec.

(** ** Words for the likes and the overrides *)

Module LikesSpec.
Import Likes.

(** The counter is the number of users that like the project, each
    listed once. *)
Definition consistent (p : Liked) : Prop :=
  likes p = Z.of_nat (List.length (likedBy p)) /\ List.NoDup (likedBy p).

Definition all_consistent (st : Store) : Prop :=
  forall k p, st !! k = Some p -> consistent p.

End LikesSpec.

Module OverrideSpec.
Import Model AntivirusAdmin.

Definition other (t : ScannedFile) : ScannedFile :=
  match t with scanned_code => scanned_docPdf | scanned_docPdf => scanned_code end.

End OverrideSpec.

(** ** More worlds for the examples *)

Module Samples.
Import Model Backend Upload Projects.

(** The texts of mongoose and Zod, in short. *)
Definition libraries : Libraries :=
  {| castError := fun id => "Cast to ObjectId failed for value " +:+ id;
     zodError := fun _ _ => "Invalid input" |}.

Definition quiet : Antivirus.World := Examples.vt_world "key" 0 [] [].
Definition exhausted : Antivirus.World := Examples.vt_world "key" 500 [] [].

(** 32 MB and one byte. *)
Definition oversized : list Byte.byte := repeat Byte.x00 (Z.to_nat (32 * 1024 * 1024 + 1)).

Definition two_scans : list (Z * AntivirusBatch.ScanInput) :=
  [(1000, {| AntivirusBatch.in_buffer := Examples.abc;
             AntivirusBatch.in_filename := "a.zip" |});
   (86400000, {| AntivirusBatch.in_buffer := Examples.abc;
                 AntivirusBatch.in_filename := "b.zip" |})].

Definition complaint : Moderation.Feedback :=
  {| Moderation.reasons := ["Contenido incompleto"]; Moderation.customMessage := None;
     Moderation.expiresInDays := None |}.



Definition upload_request : UploadController.UploadBody :=
  {| UploadController.projectId := Some Demo.pid;
     UploadController.projectTitle := "Demo" |}.

Definition nobody_likes : Likes.Store :=
  {[ Demo.pid := {| Likes.likes := 0; Likes.likedBy := [] |} ]}.

(** A code archive the scanner has flagged. *)
Definition flagged_code : ProjectFile :=
  {| ftype := cloudinary; url := "https://res.cloudinary.com/demo/" +:+ Demo.live_code;
     publicId := Some Demo.live_code; fileName := Some "demo.zip";
     virusScan := Some {| vs_isSafe := false; vs_scanId := "616263-1700000000";
                          vs_scannedAt := Some 0;
                          vs_threats := Some ["Alpha: Trojan.Generic"] |} |}.

Definition flagged_project : Project :=
  set_files (Some {| app := None; code := Some flagged_code; docPdf := None |})
    (Demo.project pending Demo.live_icon Demo.live_code).

Definition flagged_world : World := Demo.world flagged_project [Demo.live_code] [].

Definition admin : option User := Some {| u_id := Demo.owner; role := "admin" |}.

Definition override : AntivirusAdmin.OverrideBody :=
  {| AntivirusAdmin.o_projectId := Demo.pid;
     AntivirusAdmin.o_fileType := AntivirusAdmin.scanned_code;
     AntivirusAdmin.o_reason := "Falso positivo" |}.

End Samples.

(** * Proof tactics *)

Ltac run := unfold bind, gets, modify, ret, throw, try_catch in *; simpl in *.

Ltac break_if :=
  match goal with
  | |- context [if ?c then _ else _] => destruct c eqn:?; simpl
  end.

Ltac promoted :=
  repeat first
    [ apply List.Forall_nil
    | eassumption
    | apply List.Forall_cons; [first [exact I | eassumption]|] ].

(** * The scan orchestrator *)

Module AntivirusFacts.
Import Antivirus AntivirusSpec.

Lemma waited_refl w : waited w w.
Proof.
  repeat split; auto. exists []. rewrite app_nil_r. auto.
Qed.

Lemma waited_later w w' : waited w w' -> later w w'.
Proof.
  intros (K & R & S & sl & C & _). repeat split; auto.
  - exists []. rewrite R. reflexivity.
  - eauto.
Qed.

Lemma later_refl w : later w w.
Proof. apply waited_later, waited_refl. Qed.

Lemma later_trans w1 w2 w3 : later w1 w2 -> later w2 w3 -> later w1 w3.
Proof.
  intros (K1 & (u1 & R1) & (a1 & C1)) (K2 & (u2 & R2) & (a2 & C2)).
  repeat split.
  - congruence.
  - exists (u1 ++ u2). rewrite R1, R2, app_assoc. reflexivity.
  - exists (a1 ++ a2). rewrite C2, C1, app_assoc. reflexivity.
Qed.

Lemma sleep_waited ms w : exists w', sleep ms w = (Ok tt, w') /\ waited w w'.
Proof.
  eexists. split; [reflexivity|]. repeat split; simpl; auto.
  exists [Sleep ms]. auto.
Qed.

Lemma rateLimitCheck_waited w :
  exists r w', rateLimitCheck w = (r, w') /\ waited w w'.
Proof.
  unfold rateLimitCheck. run.
  repeat break_if;
    do 2 eexists; (split; [reflexivity|]); repeat split; simpl; auto;
    first [ exists []; rewrite app_nil_r; auto; fail
          | eexists; split; reflexivity ].
Qed.

(** The check passes whenever the counter it meets is below the ceiling;
    a counter of another day is reset first. *)
Lemma rateLimitCheck_passes w :
  dailyRequestCount (svc w) < DAILY_LIMIT ->
  exists w', rateLimitCheck w = (Ok tt, w') /\ waited w w'.
Proof.
  intros Hlt.
  destruct (rateLimitCheck_waited w) as (r & w' & E & Hw).
  exists w'. split; auto. rewrite E. f_equal.
  revert E. unfold rateLimitCheck. run. unfold DAILY_LIMIT in *.
  repeat break_if; intros [= <- _]; try reflexivity; exfalso;
    match goal with H : (500 <=? _) = true |- _ => apply Z.leb_le in H end;
    simpl in *; lia.
Qed.

Lemma later_In w w' x : later w w' -> In x (reportReplies w') -> In x (reportReplies w).
Proof.
  intros (_ & (used & R) & _) Hin. rewrite R. apply in_or_app. auto.
Qed.

Lemma fetch_report_spec res w :
  exists reply w', fetch_report res w = (Ok reply, w')
    /\ API_KEY (svc w') = API_KEY (svc w)
    /\ scanReplies w' = scanReplies w
    /\ calls w' = calls w ++ [GetReport res]
    /\ (reportReplies w = reply :: reportReplies w'
        \/ (reportReplies w = [] /\ reportReplies w' = [] /\ exists m, reply = NetError m)).
Proof.
  unfold fetch_report. simpl. destruct (reportReplies w) eqn:E.
  - do 2 eexists. split; [reflexivity|]. simpl. repeat split; auto.
    right. repeat split; auto. eauto.
  - do 2 eexists. split; [reflexivity|]. simpl. repeat split; auto.
Qed.

Lemma fetch_report_later res w reply w' :
  fetch_report res w = (Ok reply, w') -> later w w'.
Proof.
  intros E. destruct (fetch_report_spec res w) as (reply' & w'' & E' & K & _ & C & R).
  rewrite E in E'. injection E' as <- <-.
  repeat split; auto.
  - destruct R as [R | (R1 & R2 & _)].
    + exists [reply]. rewrite R. reflexivity.
    + exists []. rewrite R1, R2. reflexivity.
  - eauto.
Qed.

Lemma fetch_report_In res w r w' :
  fetch_report res w = (Ok (Json r), w') -> In (Json r) (reportReplies w).
Proof.
  intros E. destruct (fetch_report_spec res w) as (reply' & w'' & E' & _ & _ & _ & R).
  rewrite E in E'. injection E' as <- <-.
  destruct R as [R | (_ & _ & m & R)]; [rewrite R; left; reflexivity | discriminate].
Qed.

Lemma fetch_scan_spec buffer filename w :
  exists reply w', fetch_scan buffer filename w = (Ok reply, w')
    /\ API_KEY (svc w') = API_KEY (svc w)
    /\ reportReplies w' = reportReplies w
    /\ calls w' = calls w ++ [PostScan filename (List.length buffer)].
Proof.
  unfold fetch_scan. simpl. destruct (scanReplies w) eqn:E;
    do 2 eexists; (split; [reflexivity|]); simpl; repeat split; auto.
Qed.

Lemma uploadFileForScan_later buffer filename w :
  exists r w', uploadFileForScan buffer filename w = (r, w')
    /\ later w w' /\ reportReplies w' = reportReplies w.
Proof.
  unfold uploadFileForScan. run.
  destruct (rateLimitCheck_waited w) as (r & w1 & E & Hw). rewrite E.
  pose proof (waited_later _ _ Hw) as L1.
  assert (R1 : reportReplies w1 = reportReplies w) by apply Hw.
  destruct r as [[]|e]; simpl.
  2: { do 2 eexists. split; [reflexivity|]. auto. }
  break_if.
  { do 2 eexists. split; [reflexivity|]. auto. }
  destruct (fetch_scan_spec buffer filename w1) as (reply & w2 & E2 & K & R & C).
  rewrite E2.
  assert (L2 : later w w2).
  { apply later_trans with w1; auto. repeat split; auto.
    - exists []. rewrite R. reflexivity.
    - eauto. }
  assert (R2 : reportReplies w2 = reportReplies w) by congruence.
  destruct reply as [m|st tx|body]; simpl; try break_if;
    do 2 eexists; (split; [reflexivity|]); auto.
Qed.

Lemma getScanReport_from_spec resource maxRetries remaining w :
  exists r w', getScanReport_from resource maxRetries remaining w = (r, w')
    /\ later w w'
    /\ forall report, r = Ok report ->
         In (Json report) (reportReplies w) /\ response_code report = 1.
Proof.
  revert w. induction remaining as [|remaining IH]; intros w; simpl.
  { do 2 eexists. split; [reflexivity|]. split; [apply later_refl|]. discriminate. }
  assert (Herr : forall w1 (b : bool) m, later w w1 ->
            exists r w', (if b then throw m
                          else (sleep 5000 ;; getScanReport_from resource maxRetries remaining)) w1
                         = (r, w')
              /\ later w w'
              /\ forall report, r = Ok report ->
                   In (Json report) (reportReplies w) /\ response_code report = 1).
  { intros w1 b m L1. destruct b.
    - do 2 eexists. split; [reflexivity|]. split; auto. discriminate.
    - run. destruct (IH (log (Sleep 5000)
                 {| svc := svc w1; now := now w1 + 5000; reportReplies := reportReplies w1;
                    scanReplies := scanReplies w1; calls := calls w1 |})) as (r & w' & E & L & P).
      exists r, w'. split; [exact E|].
      assert (L2 : later w1 (log (Sleep 5000)
                 {| svc := svc w1; now := now w1 + 5000; reportReplies := reportReplies w1;
                    scanReplies := scanReplies w1; calls := calls w1 |})).
      { apply waited_later. destruct (sleep_waited 5000 w1) as (w2 & E2 & W2).
        injection E2 as <-. exact W2. }
      split.
      + eapply later_trans; [exact L1|]. eapply later_trans; eauto.
      + intros report ->. destruct (P report eq_refl) as (Hin & Hc). split; auto.
        eapply later_In; [|exact Hin]. eapply later_trans; eauto. }
  destruct (rateLimitCheck_waited w) as (r & w1 & E & Hw). rewrite E.
  pose proof (waited_later _ _ Hw) as L1.
  destruct r as [[]|e].
  2: { apply Herr; auto. }
  destruct (fetch_report_spec resource w1) as (reply & w2 & E2 & _).
  rewrite E2.
  pose proof (fetch_report_later _ _ _ _ E2) as L2.
  assert (L12 : later w w2) by (eapply later_trans; eauto).
  destruct reply as [m|st tx|body]; try (apply Herr; auto).
  destruct (bool_decide (response_code body = 1)) eqn:C1.
  { do 2 eexists. split; [reflexivity|]. split; auto.
    intros report [= <-]. split.
    - eapply later_In; [exact L1|]. eapply fetch_report_In; eauto.
    - apply bool_decide_eq_true in C1. exact C1. }
  destruct (bool_decide (response_code body = -2)) eqn:C2; [|apply Herr; auto].
  destruct (maxRetries <=? S (maxRetries - S remaining))%nat eqn:C3; [apply Herr; auto|].
  run.
  match goal with |- context [getScanReport_from _ _ _ ?w3] =>
    destruct (IH w3) as (r & w' & E3 & L3 & P3);
    assert (L23 : later w2 w3)
  end.
  { apply waited_later.
    match goal with |- waited _ (log (Sleep ?ms) _) =>
      destruct (sleep_waited ms w2) as (w4 & E4 & W4); injection E4 as <-; exact W4 end. }
  exists r, w'. split; [exact E3|]. split.
  - eapply later_trans; [exact L12|]. eapply later_trans; eauto.
  - intros report ->. destruct (P3 report eq_refl) as (Hin & Hc). split; auto.
    eapply later_In; [|exact Hin]. eapply later_trans; eauto.
Qed.

Lemma checkHashReport_lookup hash w :
  dailyRequestCount (svc w) < DAILY_LIMIT ->
  exists w1 reply w',
    waited w w1 /\ fetch_report hash w1 = (Ok reply, w')
    /\ checkHashReport hash w = (Ok (found reply), w').
Proof.
  intros Hlt. destruct (rateLimitCheck_passes w Hlt) as (w1 & E & Hw).
  destruct (fetch_report_spec hash w1) as (reply & w' & E2 & _).
  exists w1, reply, w'. split; auto. split; auto.
  unfold checkHashReport. run. rewrite E, E2.
  destruct reply as [m|st tx|body]; simpl; auto. break_if; reflexivity.
Qed.


Section Scan.
Context `{Platform}.

Lemma scan_without_key w buffer filename :
  Js.truthy (API_KEY (svc w)) = false ->
  scanWithVirusTotal buffer filename w = (Ok no_api_key, w).
Proof.
  intros K. unfold scanWithVirusTotal. run. rewrite K. reflexivity.
Qed.

Lemma scan_at_ceiling w buffer filename :
  Js.truthy (API_KEY (svc w)) = true ->
  DAILY_LIMIT <= dailyRequestCount (svc w) ->
  scanWithVirusTotal buffer filename w = (Ok daily_limit_reached, w).
Proof.
  intros K D. unfold scanWithVirusTotal. run. rewrite K. simpl.
  apply Z.leb_le in D. rewrite D. reflexivity.
Qed.

Lemma scan_never_throws w buffer filename :
  exists v w', scanWithVirusTotal buffer filename w = (Ok v, w').
Proof.
  unfold scanWithVirusTotal, try_catch.
  match goal with |- context [match ?x with _ => _ end] => destruct x as [[v|m] w'] end;
    do 2 eexists; reflexivity.
Qed.

(** Below the ceiling and with a key, the scan is the outcome of
    [obtain_report], a failure turned into the fail-open verdict. *)
Lemma scan_runs w buffer filename :
  Js.truthy (API_KEY (svc w)) = true ->
  dailyRequestCount (svc w) < DAILY_LIMIT ->
  scanWithVirusTotal buffer filename w =
    match obtain_report buffer filename w with
    | (Ok report, w') => (Ok (verdict_of_report report), w')
    | (Throw m, w') => (Ok (scan_failed m), w')
    end.
Proof.
  intros K D. unfold scanWithVirusTotal. run. rewrite K. simpl.
  apply Z.leb_gt in D. rewrite D.
  destruct (obtain_report buffer filename w) as [[r|m] w']; reflexivity.
Qed.

(** The report comes from the service: one of its pending replies, with
    [response_code] 1; the lookup by hash is the first request made. *)
Lemma obtain_report_spec w buffer filename :
  dailyRequestCount (svc w) < DAILY_LIMIT ->
  exists r w' sleeps more,
    obtain_report buffer filename w = (r, w')
    /\ calls w' = calls w ++ sleeps ++ GetReport (sha256 buffer) :: more
    /\ forallb is_sleep sleeps = true
    /\ forall report, r = Ok report ->
         In (Json report) (reportReplies w) /\ response_code report = 1.
Proof.
  intros D. unfold obtain_report, calculateFileHash. run.
  destruct (checkHashReport_lookup (sha256 buffer) w D) as (w1 & reply & w2 & Hw & E2 & E).
  rewrite E.
  destruct Hw as (K1 & R1 & S1 & sleeps & C1 & Hs).
  destruct (fetch_report_spec (sha256 buffer) w1) as (reply' & w2' & E2' & _ & _ & C2 & R2).
  rewrite E2 in E2'. injection E2' as <- <-.
  assert (C12 : calls w2 = calls w ++ sleeps ++ [GetReport (sha256 buffer)]).
  { rewrite C2, C1, <- app_assoc. reflexivity. }
  destruct (found reply) as [report|] eqn:F.
  - exists (Ok report), w2, sleeps, []. repeat split; auto.
    + injection H0 as <-. rewrite <- R1.
      destruct reply as [m|st tx|body]; simpl in F; try discriminate.
      destruct (bool_decide _); [|discriminate]. injection F as ->.
      eapply fetch_report_In; eauto.
    + injection H0 as <-.
      destruct reply as [m|st tx|body]; simpl in F; try discriminate.
      destruct (bool_decide _) eqn:B; [|discriminate]. injection F as ->.
      apply bool_decide_eq_true in B. exact B.
  - destruct (uploadFileForScan_later buffer filename w2) as (r & w3 & E3 & L3 & R3).
    rewrite E3. destruct r as [scanId|m].
    + destruct (getScanReport_from_spec scanId 10 10 w3) as (r4 & w4 & E4 & L4 & P4).
      unfold getScanReport. rewrite E4.
      destruct L3 as (_ & _ & (a3 & C3)). destruct L4 as (_ & _ & (a4 & C4)).
      exists r4, w4, sleeps, (a3 ++ a4). split; [reflexivity|]. split.
      { rewrite C4, C3, C12. rewrite <- !app_assoc. reflexivity. }
      split; auto.
      intros report ->. destruct (P4 report eq_refl) as (Hin & Hc). split; auto.
      rewrite R3 in Hin.
      assert (L : later w w2).
      { apply later_trans with w1.
        - apply waited_later. unfold waited. eauto 10.
        - eapply fetch_report_later; eauto. }
      eapply later_In; eauto.
    + destruct L3 as (_ & _ & (a3 & C3)).
      exists (Throw m), w3, sleeps, a3. split; [reflexivity|]. split.
      { rewrite C3, C12. rewrite <- !app_assoc. reflexivity. }
      split; auto. discriminate.
Qed.


(** C4: once the daily counter has reached 500, a scan request comes back
    with a safe verdict and the world untouched: no request is sent,
    nothing is thrown, and with a configured key the verdict is the
    'daily-limit-reached' marker. *)
Theorem scan_fails_open_at_daily_ceiling w buffer filename :
  500 <= dailyRequestCount (svc w) ->
  exists v, scanWithVirusTotal buffer filename w = (Ok v, w)
    /\ isSafe v = true
    /\ v = (if Js.truthy (API_KEY (svc w)) then daily_limit_reached else no_api_key).
Proof.
  intros D. destruct (Js.truthy (API_KEY (svc w))) eqn:K.
  - exists daily_limit_reached. split; [apply scan_at_ceiling; auto|]. auto.
  - exists no_api_key. split; [apply scan_without_key; auto|]. auto.
Qed.


(** C9, as amended: the verdict built from a completed report is safe
    exactly when the report counts no positive, and its threats are the
    'engine: result' lines of exactly the engines that flagged the content
    with a result text that is not empty. *)
Theorem verdict_normalizes_report report :
  (isSafe (verdict_of_report report) = true <-> positives report = 0)
  /\ (forall line, In line (threats (verdict_of_report report)) <->
        exists engine r text,
          In (engine, r) (scans report) /\ detected r = true
          /\ result r = Some text /\ text <> "" /\ line = engine +:+ ": " +:+ text).
Proof.
  split.
  - simpl. split; intros E.
    + apply bool_decide_eq_true in E. exact E.
    + apply bool_decide_eq_true_2. exact E.
  - intros line. simpl. unfold processEngineResults. rewrite in_flat_map. split.
    + intros ([engine r] & Hin & Hl).
      destruct (result r) as [text|] eqn:R; [|destruct Hl].
      destruct (detected r) eqn:Dt; simpl in Hl; [|destruct Hl].
      destruct text as [|c text]; simpl in Hl; [destruct Hl|].
      destruct Hl as [<-|[]]. exists engine, r, (String c text).
      repeat split; auto; discriminate.
    + intros (engine & r & text & Hin & Dt & R & Hne & ->).
      exists (engine, r). split; auto. rewrite R, Dt.
      destruct text; [congruence|]. simpl. left. reflexivity.
Qed.

(** C10: the scan never throws, and an unsafe verdict is always the one
    built from a completed report of the service (response_code 1) whose
    positive count is not zero.  Every other outcome is a safe verdict:
    without an API key the 'no-api-key' marker with no request made, and
    for a failed upload or a failed polling the 'error' marker carrying
    the failure. *)
Theorem scan_total_and_fail_open w buffer filename :
  exists v w',
    scanWithVirusTotal buffer filename w = (Ok v, w')
    /\ (isSafe v = false ->
          exists report, In (Json report) (reportReplies w) /\ response_code report = 1
                         /\ positives report <> 0 /\ v = verdict_of_report report)
    /\ (API_KEY (svc w) = "" -> v = no_api_key /\ w' = w)
    /\ (forall w1 m w2,
          Js.truthy (API_KEY (svc w)) = true -> dailyRequestCount (svc w) < 500 ->
          checkHashReport (sha256 buffer) w = (Ok None, w1) ->
          uploadFileForScan buffer filename w1 = (Throw m, w2) ->
          v = scan_failed m /\ w' = w2)
    /\ (forall w1 scanId w2 m w3,
          Js.truthy (API_KEY (svc w)) = true -> dailyRequestCount (svc w) < 500 ->
          checkHashReport (sha256 buffer) w = (Ok None, w1) ->
          uploadFileForScan buffer filename w1 = (Ok scanId, w2) ->
          getScanReport scanId 10 w2 = (Throw m, w3) ->
          v = scan_failed m /\ w' = w3).
Proof.
  destruct (Js.truthy (API_KEY (svc w))) eqn:K.
  2: { exists no_api_key, w. split; [apply scan_without_key; auto|].
       repeat split; auto; try discriminate. }
  assert (Kne : API_KEY (svc w) <> "").
  { intros E. rewrite E in K. discriminate. }
  destruct (Z.le_gt_cases 500 (dailyRequestCount (svc w))) as [D|D].
  { exists daily_limit_reached, w. split; [apply scan_at_ceiling; auto|].
    split; [discriminate|]. split; [intros E; contradiction|].
    split; intros; unfold DAILY_LIMIT in *; lia. }
  rewrite (scan_runs w buffer filename K D).
  destruct (obtain_report_spec w buffer filename D) as (r & w' & sleeps & more & E & C & Hs & P).
  exists (match r with Ok report => verdict_of_report report | Throw m => scan_failed m end), w'.
  split; [rewrite E; destruct r; reflexivity|]. split; [|split; [|split]].
  - destruct r as [report|m]; [|discriminate]. simpl. intros Hu.
    destruct (P report eq_refl) as (Hin & Hc).
    exists report. repeat split; auto.
    intros Z0. rewrite bool_decide_eq_true_2 in Hu by exact Z0. discriminate.
  - intros E0. contradiction.
  - intros w1 m w2 _ _ Ec Eu. revert E. unfold obtain_report, calculateFileHash. run.
    rewrite Ec, Eu. intros [= <- <-]. auto.
  - intros w1 scanId w2 m w3 _ _ Ec Eu Eg. revert E.
    unfold obtain_report, calculateFileHash. run.
    rewrite Ec, Eu, Eg. intros [= <- <-]. auto.
Qed.

End Scan.
End AntivirusFacts.

Module AntivirusExamples.
Import Antivirus AntivirusSpec AntivirusFacts Examples.

Lemma scan_fails_open_at_daily_ceiling_witness :
  500 <= dailyRequestCount (svc (vt_world "key" 500 [] []))
  /\ exists v,
       scanWithVirusTotal (H := Node.platform) abc "a.zip" (vt_world "key" 500 [] [])
       = (Ok v, vt_world "key" 500 [] [])
       /\ isSafe v = true
       /\ v = (if Js.truthy (API_KEY (svc (vt_world "key" 500 [] [])))
               then daily_limit_reached else no_api_key).
Proof.
  split; [discriminate|].
  apply (scan_fails_open_at_daily_ceiling (H := Node.platform)). discriminate.
Defined.



(** C9, as stated, fails: an engine that flags the content without a
    result text leaves no line among the threats. *)
Lemma flagging_engine_without_text_is_not_listed :
  ~ (forall report engine r,
       In (engine, r) (scans report) -> detected r = true ->
       exists text, In (engine +:+ ": " +:+ text) (threats (verdict_of_report report))).
Proof.
  intros C.
  destruct (C mute_report "Alpha" mute_engine) as (text & Hin).
  - left. reflexivity.
  - reflexivity.
  - exact Hin.
Qed.

Lemma scan_total_and_fail_open_witness :
  exists v w',
    scanWithVirusTotal (H := Node.platform) abc "a.zip"
      (vt_world "key" 0 [Json infected_report] []) = (Ok v, w')
    /\ isSafe v = false
    /\ exists report,
         In (Json report) [Json infected_report] /\ response_code report = 1
         /\ positives report <> 0 /\ v = verdict_of_report report.
Proof.
  destruct (scan_total_and_fail_open (H := Node.platform)
              (vt_world "key" 0 [Json infected_report] []) abc "a.zip")
    as (v & w' & E & P & _).
  assert (U : isSafe v = false).
  { vm_compute in E. injection E as <- _. reflexivity. }
  exists v, w'. split; [exact E|]. split; [exact U|]. exact (P U).
Defined.

End AntivirusExamples.

(** * The storage service *)

Module StorageFacts.
Import Model Backend Upload StorageSpec.

Lemma same_db_refl w : same_db w w.
Proof. repeat split. Qed.

Lemma same_db_trans w1 w2 w3 : same_db w1 w2 -> same_db w2 w3 -> same_db w1 w3.
Proof.
  unfold same_db. intros (? & ? & ? & ? & ? & ? & ?) (? & ? & ? & ? & ? & ? & ?).
  repeat split; congruence.
Qed.

Lemma sdk_step_refl w : sdk_step w w.
Proof. split; [apply same_db_refl | reflexivity]. Qed.

Lemma sdk_step_trans w1 w2 w3 : sdk_step w1 w2 -> sdk_step w2 w3 -> sdk_step w1 w3.
Proof.
  intros (D1 & C1) (D2 & C2). split; [eapply same_db_trans; eauto | congruence].
Qed.

Lemma next_reply_step w : exists r w', next_reply w = (Ok r, w') /\ sdk_step w w'
  /\ assets w' = assets w.
Proof.
  unfold next_reply. destruct (cloudReplies w); do 2 eexists;
    (split; [reflexivity|]); repeat split.
Qed.

Lemma api_resource_step id rt w r w' :
  api_resource id rt w = (r, w') -> sdk_step w w' /\ assets w' = assets w.
Proof.
  unfold api_resource. run.
  destruct (next_reply_step w) as (rep & w1 & E & S & A). rewrite E.
  destruct rep as [m|p u]; simpl.
  - intros [= <- <-]. auto.
  - destruct (assets w1 !! id); intros [= <- <-]; auto.
Qed.

Lemma uploader_upload_step folder pid rt w r w' :
  uploader_upload folder pid rt w = (r, w') -> sdk_step w w'.
Proof.
  unfold uploader_upload. run.
  destruct (next_reply_step w) as (rep & w1 & E & S & A). rewrite E.
  destruct rep as [m|p u]; simpl.
  - intros [= <- <-]. auto.
  - destruct (assets w1 !! p); intros [= <- <-]; auto.
Qed.

(** Destroying [id] leaves every other asset alone; when the call is
    answered, [id] is not stored afterwards. *)
Lemma uploader_destroy_step id rt w r w' :
  uploader_destroy id rt w = (r, w') ->
  sdk_step w w'
  /\ (forall y, y <> id -> assets w' !! y = assets w !! y)
  /\ (assets w' !! id = None \/ assets w' = assets w)
  /\ (forall res, r = Ok res -> assets w' !! id = None /\ (res = "ok" \/ res = "not found")).
Proof.
  unfold uploader_destroy. run.
  destruct (next_reply_step w) as (rep & w1 & E & S & A). rewrite E.
  destruct rep as [m|p u]; simpl.
  - intros [= <- <-]. split; [exact S|]. split; [intros; rewrite A; auto|].
    split; [right; exact A|]. discriminate.
  - destruct (assets w1 !! id) eqn:F; intros [= <- <-]; simpl.
    + split; [exact S|].
      split; [intros y Hy; rewrite lookup_delete_ne by congruence; rewrite A; auto|].
      split; [left; apply lookup_delete_eq|].
      intros res [= <-]. split; [apply lookup_delete_eq | auto].
    + split; auto. split; [intros; rewrite A; auto|].
      split; [right; auto|]. intros res [= <-]. split; [rewrite A in *; auto | auto].
Qed.

Lemma logged_step {A} (m : Eff World A) entry w r w' :
  (forall r1 w1, m w = (r1, w1) -> sdk_step w w1) ->
  logged m entry w = (r, w') ->
  same_db w w' /\ storageCalls w' = storageCalls w ++ [entry r] /\
  exists w1, m w = (r, w1) /\ assets w' = assets w1.
Proof.
  unfold logged. intros Hm. destruct (m w) as [r1 w1] eqn:E.
  intros [= <- <-]. destruct (Hm _ _ eq_refl) as (D & C).
  split; [exact D|]. split; [simpl; rewrite C; reflexivity|]. eauto.
Qed.


Lemma moveCloudinaryFiles_spec id folder w r w' :
  moveCloudinaryFiles id folder w = (r, w') ->
  same_db w w' /\ storageCalls w' = storageCalls w ++ [Moved id folder (outcome_id r)].
Proof.
  unfold moveCloudinaryFiles. intros E.
  apply logged_step in E; [destruct E as (D & C & _); auto|].
  clear. intros r1 w1. run.
  destruct (api_resource id _ w) as [[[i u]|m] wa] eqn:Ea;
    apply api_resource_step in Ea as (Sa & _).
  2: { intros [= <- <-]. exact Sa. }
  break_if. { intros [= <- <-]. exact Sa. }
  destruct (uploader_upload folder _ _ wa) as [[[n u']|m] wb] eqn:Eb;
    apply uploader_upload_step in Eb.
  2: { intros [= <- <-]. eapply sdk_step_trans; eauto. }
  destruct (uploader_destroy id _ wb) as [[res|m] wc] eqn:Ec;
    apply uploader_destroy_step in Ec as (Sc & _);
    intros [= <- <-]; eapply sdk_step_trans; eauto; eapply sdk_step_trans; eauto.
Qed.

Lemma getFileInfo_spec id w :
  exists o w', getFileInfo id w = (Ok o, w')
    /\ same_db w w' /\ assets w' = assets w
    /\ storageCalls w' = storageCalls w
                         ++ [Inspected id (match o with Some _ => true | None => false end)].
Proof.
  unfold getFileInfo, logged. run.
  destruct (api_resource id image w) as [[[i u]|m] wa] eqn:Ea;
    apply api_resource_step in Ea as ((D & C) & A);
    do 2 eexists; (split; [reflexivity|]); simpl; rewrite C; auto.
Qed.




Lemma phase_throw allowed on_ok {A} m : phase allowed on_ok (@throw World A m).
Proof.
  intros w r w' [= <- <-]. exists []. rewrite app_nil_r.
  repeat split; auto; discriminate.
Qed.


(** A [catch] that goes on: the calls are those of the body, then those
    of the handler. *)
Lemma phase_try_catch allowed {A} (m : Eff World A) (h : string -> Eff World A) :
  phase allowed allowed m -> (forall e, phase allowed allowed (h e)) ->
  phase allowed allowed (try_catch m h).
Proof.
  intros Hm Hh w r w'. unfold try_catch. destruct (m w) as [[a|e] w1] eqn:E1.
  - intros [= <- <-]. destruct (Hm _ _ _ E1) as (a1 & D1 & C1 & F1 & G1).
    exists a1. split; [exact D1|]. split; [exact C1|]. split; [exact F1|]. intros; exact F1.
  - intros E2. destruct (Hm _ _ _ E1) as (a1 & D1 & C1 & F1 & G1).
    destruct (Hh e _ _ _ E2) as (a2 & D2 & C2 & F2 & G2).
    exists (a1 ++ a2). split; [eapply same_db_trans; eauto|].
    split; [rewrite C2, C1, app_assoc; reflexivity|].
    split; [apply Forall_app; auto|]. intros _ _. apply Forall_app; auto.
Qed.













End StorageFacts.

(** * Draft approval and rejection *)

Module ApproveFacts.
Import Model Backend Upload Admin StorageSpec StorageFacts AdminSpec.













Section Approve.
Context `{Platform}.


End Approve.
End ApproveFacts.

Module RejectFacts.
Import Model Backend Upload Admin StorageSpec StorageFacts AdminSpec.

Lemma truthy_iff s : Js.truthy s = true <-> s <> "".
Proof. destruct s; simpl; split; congruence. Qed.





Section Reject.
Context `{Platform}.


End Reject.
End RejectFacts.

(** * Publication *)

Module PublishFacts.
Import Model Backend Upload Admin StorageSpec StorageFacts AdminSpec PublishSpec.

Lemma refs_from_refl p : refs_from p p [].
Proof. intros x Hx. left. exact Hx. Qed.

Lemma refs_from_trans p1 p2 p3 a1 a2 :
  refs_from p1 p2 a1 -> refs_from p2 p3 a2 -> refs_from p1 p3 (a1 ++ a2).
Proof.
  intros R1 R2 x Hx. destruct (R2 x Hx) as [Hl|(s & f & Hin)].
  - destruct (R1 x Hl) as [Hl1|(s & f & Hin)]; [left; exact Hl1|].
    right. exists s, f. apply in_or_app. left. exact Hin.
  - right. exists s, f. apply in_or_app. right. exact Hin.
Qed.

Lemma same_identity_refl p : same_identity p p.
Proof. repeat split. Qed.

Lemma same_identity_trans p1 p2 p3 :
  same_identity p1 p2 -> same_identity p2 p3 -> same_identity p1 p3.
Proof. intros (? & ? & ?) (? & ? & ?). repeat split; congruence. Qed.

Lemma publish_step_skip pid p moved : publish_step pid p (ret (p, moved)).
Proof.
  intros w. exists p, moved, w, []. rewrite app_nil_r.
  split; [reflexivity|]. split; [apply same_db_refl|]. split; [reflexivity|].
  split; [constructor|]. split; [apply same_identity_refl | apply refs_from_refl].
Qed.

(** One promotion: the move and, when it succeeded, the look-up of the
    new URL. *)
Lemma promotion pid src folder w :
  Js.includes src "/temp/" = true ->
  (exists kind, folder = project_folder pid kind) ->
  exists r w1, moveCloudinaryFiles src folder w = (r, w1)
    /\ same_db w w1
    /\ storageCalls w1 = storageCalls w ++ [Moved src folder (outcome_id r)]
    /\ is_promotion pid (Moved src folder (outcome_id r)).
Proof.
  intros T K. destruct (moveCloudinaryFiles src folder w) as [r w1] eqn:E.
  destruct (moveCloudinaryFiles_spec _ _ _ _ _ E) as (D & C).
  exists r, w1. split; [reflexivity|]. split; [exact D|]. split; [exact C|].
  simpl. split; [exact T | exact K].
Qed.

Lemma publish_icon_step pid p moved : publish_step pid p (publish_icon pid p moved).
Proof.
  unfold publish_icon. destruct (iconPublicId p) as [icon|] eqn:Ei;
    [|apply publish_step_skip].
  destruct (Js.includes icon "/temp/") eqn:T; [|apply publish_step_skip].
  intros w. unfold try_catch. run.
  destruct (promotion pid icon (project_folder pid "icons") w T ltac:(eauto))
    as (r & w1 & E & D & C & Pr).
  rewrite E. destruct r as [newId|e]; simpl.
  - destruct (getFileInfo_spec newId w1) as (o & w2 & E2 & D2 & _ & C2). rewrite E2.
    do 3 eexists.
    eexists ([Moved icon (project_folder pid "icons") (Some newId)] ++ [Inspected newId _]).
    split; [reflexivity|]. split; [eapply same_db_trans; eauto|].
    split; [rewrite C2, C, <- app_assoc; reflexivity|].
    split; [simpl in Pr; promoted|]. split; [repeat split|].
    intros x [Hx|[Hx|[Hx|Hx]]]; simpl in *.
    + injection Hx as <-. right. exists icon, (project_folder pid "icons"). left. reflexivity.
    + left. right; left. exact Hx.
    + left. right; right; left. exact Hx.
    + left. right; right; right. exact Hx.
  - exists p, moved, w1, [Moved icon (project_folder pid "icons") None].
    split; [reflexivity|]. split; [exact D|]. split; [exact C|].
    split; [simpl in Pr; promoted|].
    split; [apply same_identity_refl|]. intros x Hx. left. exact Hx.
Qed.

Lemma publish_images_loop_spec pid p todo imgs urls moved w :
  exists imgs' urls' moved' w' added,
    publish_images_loop pid p todo imgs urls moved w = (Ok (imgs', urls', moved'), w')
    /\ same_db w w' /\ storageCalls w' = storageCalls w ++ added
    /\ Forall (is_promotion pid) added
    /\ forall x, In x imgs' ->
         In x imgs \/ In x todo \/ exists src folder, In (Moved src folder (Some x)) added.
Proof.
  revert imgs urls moved w. induction todo as [|i todo IH]; intros imgs urls moved w; simpl.
  { exists imgs, urls, moved, w, []. rewrite app_nil_r.
    split; [reflexivity|]. split; [apply same_db_refl|]. split; [reflexivity|].
    split; [constructor|]. auto. }
  run. destruct (Js.includes i "/temp/") eqn:T.
  - unfold try_catch.
    destruct (promotion pid i (project_folder pid "images") w T ltac:(eauto))
      as (r & w1 & E & D & C & Pr).
    rewrite E. destruct r as [newId|e]; simpl.
    + destruct (getFileInfo_spec newId w1) as (o & w2 & E2 & D2 & _ & C2). rewrite E2.
      simpl.
      destruct (IH (imgs ++ [newId]) (urls ++ [or_empty o]) true w2)
        as (imgs' & urls' & moved' & w' & added & E3 & D3 & C3 & F3 & R3).
      exists imgs', urls', moved', w'.
      eexists ([Moved i (project_folder pid "images") (Some newId)]
               ++ [Inspected newId _] ++ added).
      split; [exact E3|].
      split; [eapply same_db_trans; [eapply same_db_trans; eauto|]; eauto|].
      split; [rewrite C3, C2, C, <- !app_assoc; reflexivity|].
      split; [simpl in Pr; simpl; promoted|].
      intros x Hx. destruct (R3 x Hx) as [Hi|[Hi|(s & f & Hi)]].
      * apply in_app_iff in Hi as [Hi|[<-|[]]]; [left; exact Hi|].
        right; right. exists i, (project_folder pid "images"). left. reflexivity.
      * right; left. right. exact Hi.
      * right; right. exists s, f. right. right. exact Hi.
    + destruct (IH (imgs ++ [i])
                   (urls ++ [url_at (imageUrls p) (or_nil (imagePublicIds p)) i]) moved w1)
        as (imgs' & urls' & moved' & w' & added & E3 & D3 & C3 & F3 & R3).
      exists imgs', urls', moved', w',
        ([Moved i (project_folder pid "images") None] ++ added).
      split; [exact E3|]. split; [eapply same_db_trans; eauto|].
      split; [rewrite C3, C, <- !app_assoc; reflexivity|].
      split; [simpl in Pr; simpl; promoted|].
      intros x Hx. destruct (R3 x Hx) as [Hi|[Hi|(s & f & Hi)]].
      * apply in_app_iff in Hi as [Hi|[<-|[]]]; [left; exact Hi|].
        right; left. left. reflexivity.
      * right; left. right. exact Hi.
      * right; right. exists s, f. right. exact Hi.
  - destruct (IH (imgs ++ [i])
                 (urls ++ [url_at (imageUrls p) (or_nil (imagePublicIds p)) i]) moved w)
      as (imgs' & urls' & moved' & w' & added & E3 & D3 & C3 & F3 & R3).
    exists imgs', urls', moved', w', added.
    split; [exact E3|]. split; [exact D3|]. split; [exact C3|]. split; [exact F3|].
    intros x Hx. destruct (R3 x Hx) as [Hi|[Hi|(s & f & Hi)]].
    + apply in_app_iff in Hi as [Hi|[<-|[]]]; [left; exact Hi|].
      right; left. left. reflexivity.
    + right; left. right. exact Hi.
    + right; right. exists s, f. exact Hi.
Qed.

Lemma publish_images_step pid p moved : publish_step pid p (publish_images pid p moved).
Proof.
  unfold publish_images.
  destruct (imagePublicIds p) as [[|first others]|] eqn:Ei; try apply publish_step_skip.
  intros w. unfold bind.
  destruct (publish_images_loop_spec pid p (first :: others) [] [] moved w)
    as (imgs' & urls' & moved' & w' & added & E & D & C & F & R).
  rewrite E. destruct moved'; unfold ret.
  - do 4 eexists. split; [reflexivity|]. split; [exact D|]. split; [exact C|].
    split; [exact F|]. split; [repeat split|].
    intros x [Hx|[Hx|[Hx|Hx]]]; simpl in *.
    + left. left. exact Hx.
    + destruct (R x Hx) as [[]|[Hi|Hm]]; [|right; exact Hm].
      left. right; left. rewrite Ei. exact Hi.
    + left. right; right; left. exact Hx.
    + left. right; right; right. exact Hx.
  - exists p, false, w', added. split; [reflexivity|]. split; [exact D|]. split; [exact C|].
    split; [exact F|]. split; [apply same_identity_refl|]. intros x Hx. left. exact Hx.
Qed.

Lemma publish_file_spec pid kind entry moved w :
  exists entry' moved' w' added,
    publish_file pid kind entry moved w = (Ok (entry', moved'), w')
    /\ same_db w w' /\ storageCalls w' = storageCalls w ++ added
    /\ Forall (is_promotion pid) added
    /\ forall x, entry_id entry' = Some x ->
         entry_id entry = Some x \/ exists src folder, In (Moved src folder (Some x)) added.
Proof.
  assert (Skip : exists entry' moved' w' added,
            (Ok (entry, moved), w) = (Ok (entry', moved'), w')
            /\ same_db w w' /\ storageCalls w' = storageCalls w ++ added
            /\ Forall (is_promotion pid) added
            /\ forall x, entry_id entry' = Some x ->
                 entry_id entry = Some x
                 \/ exists src folder, In (Moved src folder (Some x)) added).
  { exists entry, moved, w, []. rewrite app_nil_r.
    split; [reflexivity|]. split; [apply same_db_refl|]. split; [reflexivity|].
    split; [constructor|]. auto. }
  unfold publish_file. destruct entry as [f|]; [|exact Skip].
  destruct (publicId f) as [id|] eqn:Ef; [|exact Skip].
  destruct (Js.includes id "/temp/") eqn:T; [|exact Skip].
  unfold try_catch. run.
  destruct (promotion pid id (project_folder pid kind) w T ltac:(eauto))
    as (r & w1 & E & D & C & Pr).
  rewrite E. destruct r as [newId|e]; simpl.
  - destruct (getFileInfo_spec newId w1) as (o & w2 & E2 & D2 & _ & C2). rewrite E2.
    do 3 eexists.
    eexists ([Moved id (project_folder pid kind) (Some newId)] ++ [Inspected newId _]).
    split; [reflexivity|]. split; [eapply same_db_trans; eauto|].
    split; [rewrite C2, C, <- app_assoc; reflexivity|].
    split; [simpl in Pr; promoted|].
    intros x Hx. right. exists id, (project_folder pid kind). left.
    destruct o; simpl in Hx; injection Hx as <-; reflexivity.
  - exists (Some f), moved, w1, [Moved id (project_folder pid kind) None].
    split; [reflexivity|]. split; [exact D|]. split; [exact C|].
    split; [simpl in Pr; promoted|]. intros x Hx. left. exact Hx.
Qed.

Lemma publish_files_step pid p moved : publish_step pid p (publish_files pid p moved).
Proof.
  unfold publish_files. destruct (files p) as [fs|] eqn:Ef; [|apply publish_step_skip].
  intros w. run.
  destruct (publish_file_spec pid "code" (code fs) moved w)
    as (c & m1 & w1 & a1 & E1 & D1 & C1 & F1 & R1).
  rewrite E1. simpl.
  destruct (publish_file_spec pid "docs" (docPdf fs) m1 w1)
    as (d & m2 & w2 & a2 & E2 & D2 & C2 & F2 & R2).
  rewrite E2. simpl.
  do 3 eexists. exists (a1 ++ a2). split; [reflexivity|].
  split; [eapply same_db_trans; eauto|].
  split; [rewrite C2, C1, <- app_assoc; reflexivity|].
  split; [apply Forall_app; auto|]. split; [repeat split|].
  intros x [Hx|[Hx|[Hx|Hx]]]; simpl in *.
  - left. left. exact Hx.
  - left. right; left. exact Hx.
  - destruct (R1 x Hx) as [Hk|(s & f & Hm)].
    + left. right; right; left. unfold code_id. rewrite Ef. exact Hk.
    + right. exists s, f. apply in_or_app. left. exact Hm.
  - destruct (R2 x Hx) as [Hk|(s & f & Hm)].
    + left. right; right; right. unfold doc_id. rewrite Ef. exact Hk.
    + right. exists s, f. apply in_or_app. right. exact Hm.
Qed.

Section Publish.
Context `{Platform}.

(** What [publishProject] does to a project it finds. *)
Lemma publishProject_commits id w p :
  objectIdIsValid id = true -> projects w !! id = Some p -> _id p = id ->
  exists r w' p' added,
    publishProject id w = (Ok r, w')
    /\ storageCalls w' = storageCalls w ++ added
    /\ Forall (is_promotion id) added
    /\ projects w' !! id = Some p'
    /\ status p' = published
    /\ publishedAt p' = Some (Antivirus.now (vt w))
    /\ refs_from p p' added
    /\ r = match notifyReplies w with
           | Some e :: _ => Failure 400 e
           | _ => Sent 200 "Proyecto publicado exitosamente" p' None None
           end.
Proof.
  intros V Found Key.
  unfold publishProject, handler, try_catch. run.
  rewrite V. simpl. rewrite Found. simpl.
  set (p0 := set_status published (Some (Antivirus.now (vt w))) p).
  rewrite Key.
  destruct (publish_icon_step id p0 false w)
    as (p1 & m1 & w1 & a1 & E1 & D1 & C1 & F1 & I1 & R1).
  rewrite E1. simpl.
  destruct (publish_images_step id p1 m1 w1)
    as (p2 & m2 & w2 & a2 & E2 & D2 & C2 & F2 & I2 & R2).
  rewrite E2. simpl.
  destruct (publish_files_step id p2 m2 w2)
    as (p3 & m3 & w3 & a3 & E3 & D3 & C3 & F3 & I3 & R3).
  rewrite E3. simpl.
  pose proof (same_identity_trans _ _ _ (same_identity_trans _ _ _ I1 I2) I3)
    as (Id & St & Pa). simpl in Id, St, Pa.
  pose proof (same_db_trans _ _ _ (same_db_trans _ _ _ D1 D2) D3)
    as (P3 & Co3 & V3 & NR3 & N3 & O3 & Ve3).
  rewrite Id, Key. unfold notifyProject, findById. run. rewrite lookup_insert_eq. simpl.
  set (p' := set_updatedAt (Antivirus.now (vt w3)) p3).
  assert (Rf : refs_from p p' (a1 ++ a2 ++ a3)).
  { intros x Hx.
    assert (R : refs_from p0 p3 (a1 ++ a2 ++ a3)).
    { eapply refs_from_trans; [exact R1|]. eapply refs_from_trans; eauto. }
    apply (R x Hx). }
  assert (Rest : forall w',
            storageCalls w' = storageCalls w3 ->
            projects w' = <[id := p']> (projects w3) ->
            storageCalls w' = storageCalls w ++ a1 ++ a2 ++ a3
            /\ Forall (is_promotion id) (a1 ++ a2 ++ a3)
            /\ projects w' !! id = Some p'
            /\ status p' = published
            /\ publishedAt p' = Some (Antivirus.now (vt w))
            /\ refs_from p p' (a1 ++ a2 ++ a3)).
  { intros w' C P. split; [rewrite C, C3, C2, C1, <- !app_assoc; reflexivity|].
    split; [repeat (apply Forall_app; split); auto|].
    split; [rewrite P; apply lookup_insert_eq|].
    split; [exact St|]. split; [exact Pa|]. exact Rf. }
  unfold createNotification. simpl. rewrite NR3.
  destruct (notifyReplies w) as [|[e|] rest]; simpl;
    do 2 eexists; exists p', (a1 ++ a2 ++ a3); (split; [reflexivity|]);
    (edestruct Rest as (Q1 & Q2 & Q3 & Q4 & Q5 & Q6); [| |repeat split; eauto]);
    reflexivity.
Qed.

(** C1, as amended: a failed asset move does not stop the publication.
    Whatever the storage service answers, [publishProject] saves the
    project it found with status 'published'; the only storage calls it
    makes are moves out of /temp/ into the project's folders and look-ups
    of the new URLs, so no completed move is reversed, and every asset the
    saved project refers to is one it referred to before or the result of
    a successful move. *)
Theorem publishProject_commits_despite_failed_moves id w p :
  objectIdIsValid id = true -> projects w !! id = Some p -> _id p = id ->
  exists r w' p' added,
    publishProject id w = (Ok r, w')
    /\ storageCalls w' = storageCalls w ++ added
    /\ Forall (is_promotion id) added
    /\ projects w' !! id = Some p'
    /\ status p' = published
    /\ refs_from p p' added.
Proof.
  intros V Found Key.
  destruct (publishProject_commits id w p V Found Key)
    as (r & w' & p' & added & E & C & F & L & St & _ & R & _).
  exists r, w', p', added. auto 10.
Qed.

(** C6, as amended: [publishProject] does not look at the status the
    project has.  Every project it finds, pending or not, is saved with
    status 'published' and the time of the call as publication time, and
    the response is the success message unless the notification of the
    author fails. *)
Theorem publishProject_ignores_prior_status id w p :
  objectIdIsValid id = true -> projects w !! id = Some p -> _id p = id ->
  exists r w' p',
    publishProject id w = (Ok r, w')
    /\ projects w' !! id = Some p'
    /\ status p' = published
    /\ publishedAt p' = Some (Antivirus.now (vt w))
    /\ (notifyReplies w = [] ->
        r = Sent 200 "Proyecto publicado exitosamente" p' None None).
Proof.
  intros V Found Key.
  destruct (publishProject_commits id w p V Found Key)
    as (r & w' & p' & added & E & _ & _ & L & St & Pa & _ & Hr).
  exists r, w', p'. repeat split; auto. intros N. rewrite N in Hr. exact Hr.
Qed.

End Publish.
End PublishFacts.

(** * Edits of published projects *)

Module EditFacts.
Import Model Backend Upload Projects AdminSpec RejectFacts EditSpec.

Lemma changed_text_spec submitted current t :
  changed_text submitted current = Some t <-> text_differs submitted current t.
Proof.
  unfold changed_text, text_differs. destruct submitted as [s|]; [|split; [discriminate|tauto]].
  destruct (Js.truthy s) eqn:T; simpl.
  - destruct (String.eqb s current) eqn:E; simpl.
    + apply String.eqb_eq in E. split; [discriminate|]. intros ([= ->] & _ & N). congruence.
    + apply String.eqb_neq in E. split.
      * intros [= ->]. repeat split; auto. apply truthy_iff. exact T.
      * intros ([= ->] & _). reflexivity.
  - split; [discriminate|]. intros ([= ->] & N & _). apply truthy_iff in N. congruence.
Qed.

Lemma is_some_changed_text submitted current :
  is_some (changed_text submitted current) = true
  <-> exists t, text_differs submitted current t.
Proof.
  split.
  - destruct (changed_text submitted current) as [t|] eqn:E; [|discriminate].
    intros _. exists t. apply changed_text_spec. exact E.
  - intros (t & Ht). apply changed_text_spec in Ht. rewrite Ht. reflexivity.
Qed.

Lemma differs_opt {A} `{EqDecision A} (submitted : option A) (current : option A) :
  match submitted with
  | Some i => negb (bool_decide (Some i = current))
  | None => false
  end = true
  <-> exists i, submitted = Some i /\ current <> Some i.
Proof.
  destruct submitted as [i|]; [|split; [discriminate | intros (? & [=] & _)]].
  rewrite negb_true_iff, bool_decide_eq_false. split.
  - intros N. exists i. split; auto.
  - intros (j & [= <-] & N). auto.
Qed.

Lemma files_changed_spec (submitted : option Files) :
  match submitted with
  | Some bf => is_some (app bf) || is_some (code bf) || is_some (docPdf bf)
  | None => false
  end = true
  <-> exists bf, submitted = Some bf
                 /\ (app bf <> None \/ code bf <> None \/ docPdf bf <> None).
Proof.
  destruct submitted as [bf|]; [|split; [discriminate | intros (? & [=] & _)]].
  rewrite !orb_true_iff. split.
  - intros Hc. exists bf. split; auto.
    destruct (app bf), (code bf), (docPdf bf); simpl in *;
      intuition (try discriminate; try congruence).
  - intros (bf' & [= <-] & Hc).
    destruct (app bf), (code bf), (docPdf bf); simpl in *; intuition congruence.
Qed.

(** [hasChanges] is raised exactly for the changes the handler detects. *)
Lemma hasChanges_spec p body :
  snd (draftChanges p body) = true <-> change_detected p body.
Proof.
  unfold draftChanges, change_detected. simpl.
  rewrite !orb_true_iff, !is_some_changed_text, files_changed_spec.
  rewrite (differs_opt (b_iconPublicId body) (iconPublicId p)).
  rewrite (differs_opt (b_imagePublicIds body) (imagePublicIds p)).
  tauto.
Qed.

Section Edit.

(** C8, as amended: a non-admin edit of a published project compares the
    texts, the icon and the image list with the live values and takes any
    file entry of the request for a change.  With no change detected the
    request fails with 'No se detectaron cambios para guardar' and
    nothing is changed.  Otherwise the draft is stored with draftStatus
    'pending'; it holds the texts, icon and image list that differ and,
    when the request carries files, the live files with the submitted
    entries laid over them; no live field is changed. *)
Theorem author_edit_of_published_project user userId id body w p :
  user_id user = Some userId -> is_admin user = false ->
  projects w !! id = Some p -> _id p = id -> status p = published ->
  (let company := match companyId p with Some c => companies w !! c | None => None end in
   is_owner company userId = true \/ is_publisher company userId = true) ->
  let changes := fst (draftChanges p body) in
  let hasChanges := snd (draftChanges p body) in
  (hasChanges = true <-> change_detected p body)
  /\ (hasChanges = false ->
        updateProject user id body w
        = (Ok (Failure 400 "No se detectaron cambios para guardar"), w))
  /\ (hasChanges = true ->
        exists message p' w',
          updateProject user id body w = (Ok (Sent 200 message p' None (Some true)), w')
          /\ projects w' !! id = Some p'
          /\ draft p' = Some changes
          /\ draftStatus p' = draft_pending
          /\ same_live_fields p p')
  /\ (forall t, d_title changes = Some t <-> text_differs (b_title body) (title p) t)
  /\ (forall t, d_shortDesc changes = Some t
                <-> text_differs (b_shortDesc body) (shortDesc p) t)
  /\ (forall t, d_longDesc changes = Some t
                <-> text_differs (b_longDesc body) (longDesc p) t)
  /\ (forall i, d_iconPublicId changes = Some i
                <-> b_iconPublicId body = Some i /\ iconPublicId p <> Some i)
  /\ (forall l, d_imagePublicIds changes = Some l
                <-> b_imagePublicIds body = Some l /\ imagePublicIds p <> Some l)
  /\ d_files changes = option_map (files_shadow p) (b_files body).
Proof.
  intros U A Found Key St Perm changes hasChanges.
  assert (Run : updateProject user id body w =
                if hasChanges
                then (let p' := set_updatedAt (Antivirus.now (vt w))
                                  (set_draft draft_pending (Some changes)
                                     (Some (Antivirus.now (vt w))) None None p) in
                      (Ok (Sent 200 "Los cambios se han guardado como borrador y serán revisados por un administrador. La versión actual permanece publicada."
                                p' None (Some true)),
                       set_projects (<[id := p']> (projects w)) w))
                else (Ok (Failure 400 "No se detectaron cambios para guardar"), w)).
  { unfold hasChanges, changes.
    destruct (draftChanges p body) as [c h] eqn:Edc.
    assert (P : negb (is_owner match companyId p with
                                | Some c => companies w !! c
                                | None => None
                                end userId)
                && negb (is_publisher match companyId p with
                                      | Some c => companies w !! c
                                      | None => None
                                      end userId) = false).
    { simpl in Perm. destruct Perm as [-> | ->]; simpl; auto. apply andb_false_r. }
    unfold updateProject, handler, try_catch, findById, populate, save, clock.
    unfold bind, gets, modify, ret. rewrite U. cbn beta iota. rewrite Found.
    cbn beta iota. rewrite A, St. cbn beta iota.
    change (negb false) with true. rewrite andb_true_l, andb_true_r, P.
    rewrite bool_decide_eq_true_2 by reflexivity. rewrite Edc.
    destruct h; simpl; [rewrite Key|]; reflexivity. }
  split; [apply hasChanges_spec|].
  split. { intros Hf. rewrite Run, Hf. reflexivity. }
  split. { intros Ht. rewrite Run, Ht. do 3 eexists. split; [reflexivity|].
           split; [apply lookup_insert_eq|]. simpl. repeat split. }
  unfold changes, draftChanges. simpl.
  split; [intros t; apply changed_text_spec|].
  split; [intros t; apply changed_text_spec|].
  split; [intros t; apply changed_text_spec|].
  split.
  { intros i. destruct (b_iconPublicId body) as [j|] eqn:Ej; simpl.
    - destruct (bool_decide (Some j = iconPublicId p)) eqn:B; simpl.
      + apply bool_decide_eq_true in B. split; [discriminate|].
        intros ([= <-] & N). congruence.
      + apply bool_decide_eq_false in B. split.
        * intros [= <-]. auto.
        * intros ([= <-] & _). reflexivity.
    - split; [discriminate | intros ([=] & _)]. }
  split.
  { intros l. destruct (b_imagePublicIds body) as [j|] eqn:Ej; simpl.
    - destruct (bool_decide (Some j = imagePublicIds p)) eqn:B; simpl.
      + apply bool_decide_eq_true in B. split; [discriminate|].
        intros ([= <-] & N). congruence.
      + apply bool_decide_eq_false in B. split.
        * intros [= <-]. auto.
        * intros ([= <-] & _). reflexivity.
    - split; [discriminate | intros ([=] & _)]. }
  destruct (b_files body) as [bf|]; simpl; [|reflexivity].
  unfold files_shadow, overlay. destruct (files p) as [f|]; reflexivity.
Qed.

End Edit.
End EditFacts.

(** * Creation with files *)

Module CreateFacts.
Import Model Backend Upload Projects StorageSpec StorageFacts CreateSpec.







Lemma uploadToCloudinary_spec buffer fileName mimeType folder w r w' :
  uploadToCloudinary buffer fileName mimeType folder w = (r, w') ->
  same_db w w'
  /\ storageCalls w' = storageCalls w
       ++ [Uploaded folder fileName (match r with Ok u => Some (fileId u) | Throw _ => None end)].
Proof.
  unfold uploadToCloudinary. intros E.
  apply logged_step in E; [destruct E as (D & C & _); auto|].
  clear. intros r1 w1. unfold try_catch, bind, ret, throw.
  match goal with |- context [uploader_upload ?a ?b ?c w] =>
    destruct (uploader_upload a b c w) as [[[i u]|m] wa] eqn:Ea end;
    apply uploader_upload_step in Ea; intros [= <- <-]; exact Ea.
Qed.



Section Create.
Context `{Platform}.






End Create.
End CreateFacts.

(** * The handlers on concrete requests *)

Module ProjectExamples.
Import Model Backend Upload Admin Projects StorageSpec AdminSpec PublishSpec EditSpec
  CreateSpec PublishFacts ApproveFacts RejectFacts EditFacts CreateFacts Demo.

(** C1, as stated, fails: the second move fails, and the project is
    published all the same, the first move standing. *)
Lemma failed_move_still_publishes :
  ~ (forall (w : World) id p r w',
       objectIdIsValid (Platform := Node.platform) id = true ->
       projects w !! id = Some p -> status p = pending ->
       publishProject (H := Node.platform) id w = (Ok r, w') ->
       (exists src folder, In (Moved src folder None) (storageCalls w')) ->
       (exists p', projects w' !! id = Some p' /\ status p' = pending)
       /\ assets w' = assets w).
Proof.
  intros C.
  eassert (E : publishProject (H := Node.platform) pid second_move_fails = (Ok _, _))
    by (vm_compute; reflexivity).
  assert (F : projects second_move_fails !! pid = Some (project pending temp_icon temp_code))
    by reflexivity.
  edestruct (C second_move_fails pid _ _ _ eq_refl F eq_refl E) as ((p' & L & S) & _).
  - exists temp_code, (project_folder pid "code"). vm_compute. right; right. left. reflexivity.
  - vm_compute in L. injection L as <-. discriminate S.
Qed.

Lemma publishProject_commits_despite_failed_moves_witness :
  objectIdIsValid (Platform := Node.platform) pid = true
  /\ projects second_move_fails !! pid = Some (project pending temp_icon temp_code)
  /\ _id (project pending temp_icon temp_code) = pid
  /\ exists r w' p' added,
       publishProject (H := Node.platform) pid second_move_fails = (Ok r, w')
       /\ storageCalls w' = storageCalls second_move_fails ++ added
       /\ Forall (is_promotion pid) added
       /\ projects w' !! pid = Some p'
       /\ status p' = published
       /\ refs_from (project pending temp_icon temp_code) p' added.
Proof.
  split; [reflexivity|]. split; [reflexivity|]. split; [reflexivity|].
  apply (publishProject_commits_despite_failed_moves (H := Node.platform));
    reflexivity.
Defined.

(** C6, as stated, fails: a rejected project is published. *)
Lemma rejected_project_is_published :
  ~ (forall (w : World) id p r w',
       objectIdIsValid (Platform := Node.platform) id = true ->
       projects w !! id = Some p -> status p <> pending ->
       publishProject (H := Node.platform) id w = (Ok r, w') ->
       (exists e, r = Failure 400 e)
       /\ exists p', projects w' !! id = Some p' /\ status p' = status p).
Proof.
  intros C.
  eassert (E : publishProject (H := Node.platform) pid rejected_project = (Ok _, _))
    by (vm_compute; reflexivity).
  assert (F : projects rejected_project !! pid = Some (project rejected live_icon live_code))
    by reflexivity.
  assert (S : status (project rejected live_icon live_code) <> pending) by discriminate.
  destruct (C rejected_project pid _ _ _ eq_refl F S E) as ((e & R) & _).
  discriminate R.
Qed.

Lemma publishProject_ignores_prior_status_witness :
  objectIdIsValid (Platform := Node.platform) pid = true
  /\ projects rejected_project !! pid = Some (project rejected live_icon live_code)
  /\ _id (project rejected live_icon live_code) = pid
  /\ exists r w' p',
       publishProject (H := Node.platform) pid rejected_project = (Ok r, w')
       /\ projects w' !! pid = Some p'
       /\ status p' = published
       /\ publishedAt p' = Some (Antivirus.now (vt rejected_project))
       /\ (notifyReplies rejected_project = [] ->
           r = Sent 200 "Proyecto publicado exitosamente" p' None None).
Proof.
  split; [reflexivity|]. split; [reflexivity|]. split; [reflexivity|].
  apply (publishProject_ignores_prior_status (H := Node.platform)
           pid rejected_project (project rejected live_icon live_code)); reflexivity.
Defined.

(** C8, as stated, fails: a request whose only field is the live code
    file is stored as a pending draft. *)
Lemma unchanged_file_opens_a_draft :
  ~ (forall (w : World) user userId id body p,
       user_id user = Some userId -> is_admin user = false ->
       projects w !! id = Some p -> status p = published ->
       is_owner (match companyId p with Some c => companies w !! c | None => None end)
                userId = true ->
       nothing_differs p body ->
       updateProject user id body w
       = (Ok (Failure 400 "No se detectaron cambios para guardar"), w)).
Proof.
  intros C.
  assert (N : nothing_differs (project published live_icon live_code) same_code).
  { unfold nothing_differs. do 5 (split; [discriminate|]).
    intros bf f [= <-]. simpl. split; [discriminate|].
    split; [intros [= <-]; reflexivity | discriminate]. }
  specialize (C published_demo author owner pid same_code
                (project published live_icon live_code)
                eq_refl eq_refl eq_refl eq_refl eq_refl N).
  vm_compute in C. discriminate C.
Qed.

Lemma author_edit_of_published_project_witness :
  user_id author = Some owner /\ is_admin author = false
  /\ projects published_demo !! pid = Some (project published live_icon live_code)
  /\ _id (project published live_icon live_code) = pid
  /\ status (project published live_icon live_code) = published
  /\ is_owner (companies published_demo !! cid) owner = true
  /\ exists message p' w',
       updateProject author pid same_code published_demo
       = (Ok (Sent 200 message p' None (Some true)), w')
       /\ projects w' !! pid = Some p'
       /\ draft p' = Some (fst (draftChanges (project published live_icon live_code) same_code))
       /\ draftStatus p' = draft_pending
       /\ same_live_fields (project published live_icon live_code) p'.
Proof.
  split; [reflexivity|]. split; [reflexivity|]. split; [reflexivity|].
  split; [reflexivity|]. split; [reflexivity|]. split; [reflexivity|].
  destruct (author_edit_of_published_project author owner pid same_code published_demo
              (project published live_icon live_code)
              eq_refl eq_refl eq_refl eq_refl eq_refl (or_introl eq_refl))
    as (_ & _ & Hc & _).
  exact (Hc eq_refl).
Defined.




End ProjectExamples.

(** * The rest of the code *)

Module QuotaFacts.
Import Antivirus AntivirusSpec AntivirusBatch QuotaSpec AntivirusFacts.

Lemma counted_refl w : counted w w.
Proof. unfold counted. split; [auto|split; lia]. Qed.

Lemma counted_trans w1 w2 w3 : counted w1 w2 -> counted w2 w3 -> counted w1 w3.
Proof.
  unfold counted. intros (A1 & B1 & C1) (A2 & B2 & C2). split; [auto|split; lia].
Qed.

Lemma spent_nil n p : spent n p [].
Proof. unfold spent, requests, posts. simpl. lia. Qed.

Lemma requests_app l1 l2 : requests (l1 ++ l2) = (requests l1 + requests l2)%nat.
Proof. unfold requests. rewrite List.filter_app, List.length_app. reflexivity. Qed.

Lemma posts_app l1 l2 : posts (l1 ++ l2) = (posts l1 + posts l2)%nat.
Proof. unfold posts. rewrite List.filter_app, List.length_app. reflexivity. Qed.

Lemma spent_app n1 p1 n2 p2 l1 l2 :
  spent n1 p1 l1 -> spent n2 p2 l2 -> spent (n1 + n2) (p1 + p2) (l1 ++ l2).
Proof.
  unfold spent. rewrite requests_app, posts_app. lia.
Qed.

Lemma spent_weaken n p n' p' l :
  spent n p l -> (n <= n')%nat -> (p <= p')%nat -> spent n' p' l.
Proof. unfold spent. lia. Qed.

Lemma sleeps_spent sleeps : forallb is_sleep sleeps = true -> spent 0 0 sleeps.
Proof.
  induction sleeps as [|c l IH]; simpl; intros Hs; [apply spent_nil|].
  apply andb_true_iff in Hs as [Hc Hl]. specialize (IH Hl).
  destruct c; try discriminate. unfold spent, requests, posts in *. simpl. exact IH.
Qed.

(** What [rateLimitCheck] does, case by case. *)
Lemma rateLimitCheck_cases w :
  let today := toDateString (now w) in
  let daily := if bool_decide (lastResetDate (svc w) = today)
               then dailyRequestCount (svc w) else 0 in
  if DAILY_LIMIT <=? daily
  then rateLimitCheck w = (Throw day_limit_message, w)
       /\ lastResetDate (svc w) = today
  else exists w',
         rateLimitCheck w = (Ok tt, w')
         /\ now w' = Z.max (now w) (lastRequestTime (svc w) + RATE_LIMIT_DELAY)
         /\ lastRequestTime (svc w') = now w'
         /\ requestCount (svc w') = requestCount (svc w) + 1
         /\ dailyRequestCount (svc w') = daily + 1
         /\ lastResetDate (svc w') = today
         /\ API_KEY (svc w') = API_KEY (svc w)
         /\ reportReplies w' = reportReplies w /\ scanReplies w' = scanReplies w
         /\ exists sleeps, calls w' = calls w ++ sleeps /\ forallb is_sleep sleeps = true.
Proof.
  unfold rateLimitCheck, day_limit_message, DAILY_LIMIT, RATE_LIMIT_DELAY. run.
  destruct (bool_decide (lastResetDate (svc w) = toDateString (now w))) eqn:B; simpl.
  - apply bool_decide_eq_true in B.
    destruct (500 <=? dailyRequestCount (svc w)) eqn:D; simpl.
    + split; auto.
    + destruct (now w - lastRequestTime (svc w) <? 15000) eqn:T; simpl.
      * apply Z.ltb_lt in T. eexists. split; [reflexivity|]. simpl.
        repeat split; auto; try lia. exists [Sleep (15000 - (now w - lastRequestTime (svc w)))].
        auto.
      * apply Z.ltb_ge in T. eexists. split; [reflexivity|]. simpl.
        repeat split; auto; try lia. exists []. rewrite app_nil_r. auto.
  - destruct (now w - lastRequestTime (svc w) <? 15000) eqn:T; simpl.
    + apply Z.ltb_lt in T. eexists. split; [reflexivity|]. simpl.
      repeat split; auto; try lia. exists [Sleep (15000 - (now w - lastRequestTime (svc w)))].
      auto.
    + apply Z.ltb_ge in T. eexists. split; [reflexivity|]. simpl.
      repeat split; auto; try lia. exists []. rewrite app_nil_r. auto.
Qed.

Lemma rateLimitCheck_counted w r w' :
  rateLimitCheck w = (r, w') ->
  counted w w' /\ exists sleeps, calls w' = calls w ++ sleeps /\ forallb is_sleep sleeps = true.
Proof.
  intros E. pose proof (rateLimitCheck_cases w) as C. cbv zeta in C.
  destruct (DAILY_LIMIT <=? _) eqn:D in C.
  - destruct C as (E' & _). rewrite E in E'. injection E' as _ <-.
    split; [apply counted_refl|]. exists []. rewrite app_nil_r. auto.
  - destruct C as (w1 & E' & N & L & R & Dy & _ & _ & _ & _ & S).
    rewrite E in E'. injection E' as _ ->. split; [|exact S].
    apply Z.leb_gt in D. unfold counted, within_quota, DAILY_LIMIT in *.
    split; [|split; lia]. intros Q. rewrite Dy. destruct (bool_decide _); lia.
Qed.

Lemma sleep_counted ms w : 0 <= ms ->
  exists w', sleep ms w = (Ok tt, w') /\ counted w w' /\ calls w' = calls w ++ [Sleep ms].
Proof.
  intros Hms. eexists. split; [reflexivity|]. unfold counted, within_quota. simpl.
  split; [|reflexivity]. split; [auto|split; lia].
Qed.

Lemma fetch_report_counted res w :
  exists reply w', fetch_report res w = (Ok reply, w')
    /\ counted w w' /\ calls w' = calls w ++ [GetReport res]
    /\ match reportReplies w with
       | first :: _ => reply = first
       | [] => True
       end.
Proof.
  unfold fetch_report. simpl. destruct (reportReplies w) eqn:E;
    do 2 eexists; (split; [reflexivity|]); unfold counted, within_quota; simpl;
    (split; [split; [auto|split; lia]|]); auto.
Qed.

Lemma fetch_scan_counted buffer filename w :
  exists reply w', fetch_scan buffer filename w = (Ok reply, w')
    /\ counted w w' /\ calls w' = calls w ++ [PostScan filename (List.length buffer)].
Proof.
  unfold fetch_scan. simpl. destruct (scanReplies w) eqn:E;
    do 2 eexists; (split; [reflexivity|]); unfold counted, within_quota; simpl;
    (split; [split; [auto|split; lia]|]); auto.
Qed.

Lemma checkHashReport_counted hash w :
  exists o w' added, checkHashReport hash w = (Ok o, w')
    /\ counted w w' /\ calls w' = calls w ++ added /\ spent 1 0 added.
Proof.
  unfold checkHashReport. run.
  destruct (rateLimitCheck w) as [r w1] eqn:E.
  destruct (rateLimitCheck_counted _ _ _ E) as (C1 & sl & S1 & Hs).
  destruct r as [[]|e]; simpl.
  2: { exists None, w1, sl. split; [reflexivity|]. split; [exact C1|]. split; [exact S1|].
       apply (spent_weaken 0 0); auto using sleeps_spent; lia. }
  destruct (fetch_report_counted hash w1) as (reply & w2 & E2 & C2 & S2 & _).
  rewrite E2.
  assert (C : counted w w2) by (eapply counted_trans; eauto).
  assert (S : calls w2 = calls w ++ (sl ++ [GetReport hash])).
  { rewrite S2, S1, app_assoc. reflexivity. }
  assert (P : spent 1 0 (sl ++ [GetReport hash])).
  { apply (spent_app 0 0 1 0); [apply sleeps_spent; auto|].
    unfold spent, requests, posts. simpl. lia. }
  destruct reply as [m|st tx|body]; simpl; try break_if;
    do 3 eexists; (split; [reflexivity|]); (split; [exact C|]); (split; [exact S|exact P]).
Qed.

Lemma uploadFileForScan_counted buffer filename w :
  exists r w' added, uploadFileForScan buffer filename w = (r, w')
    /\ counted w w' /\ calls w' = calls w ++ added /\ spent 1 1 added
    /\ (MAX_FILE_SIZE < Z.of_nat (List.length buffer) -> posts added = 0%nat).
Proof.
  unfold uploadFileForScan. run.
  destruct (rateLimitCheck w) as [r w1] eqn:E.
  destruct (rateLimitCheck_counted _ _ _ E) as (C1 & sl & S1 & Hs).
  pose proof (sleeps_spent _ Hs) as P0.
  assert (Z0 : posts sl = 0%nat) by (destruct P0; lia).
  destruct r as [[]|e]; simpl.
  2: { do 3 eexists. split; [reflexivity|]. split; [exact C1|]. split; [exact S1|].
       split; [apply (spent_weaken 0 0); auto; lia|auto]. }
  destruct (MAX_FILE_SIZE <? Z.of_nat (List.length buffer)) eqn:Sz; simpl.
  { do 3 eexists. split; [reflexivity|]. split; [exact C1|]. split; [exact S1|].
    split; [apply (spent_weaken 0 0); auto; lia|auto]. }
  apply Z.ltb_ge in Sz.
  destruct (fetch_scan_counted buffer filename w1) as (reply & w2 & E2 & C2 & S2).
  rewrite E2.
  assert (C : counted w w2) by (eapply counted_trans; eauto).
  assert (S : calls w2 = calls w ++ (sl ++ [PostScan filename (List.length buffer)])).
  { rewrite S2, S1, app_assoc. reflexivity. }
  assert (P : spent 1 1 (sl ++ [PostScan filename (List.length buffer)])).
  { apply (spent_app 0 0 1 1); auto. unfold spent, requests, posts. simpl. lia. }
  destruct reply as [m|st tx|body]; simpl; try break_if;
    do 3 eexists; (split; [reflexivity|]); (split; [exact C|]); (split; [exact S|]);
    (split; [exact P|]); lia.
Qed.

(** The polling loop: what it logs, spends and throws. *)
Lemma getScanReport_from_budget resource maxRetries remaining w :
  (remaining <= maxRetries)%nat ->
  exists r w' added,
    getScanReport_from resource maxRetries remaining w = (r, w')
    /\ counted w w' /\ calls w' = calls w ++ added
    /\ spent remaining 0 added
    /\ Forall (fun c => is_sleep c = true \/ c = GetReport resource) added
    /\ (forall m, r = Throw m -> (1 <= remaining)%nat -> exists m', m = report_error +:+ m').
Proof.
  revert w. induction remaining as [|remaining IH]; intros w Hle; simpl.
  { exists (Throw "Máximo número de intentos alcanzado"), w, [].
    split; [reflexivity|]. rewrite app_nil_r.
    split; [apply counted_refl|]. split; [reflexivity|]. split; [apply spent_nil|].
    split; [constructor|]. intros; lia. }
  assert (Herr : forall w1 (b : bool) m added1,
            b = (maxRetries - 1 <=? maxRetries - S remaining)%nat
            \/ (b = true) ->
            counted w w1 -> calls w1 = calls w ++ added1 -> spent 1 0 added1 ->
            Forall (fun c => is_sleep c = true \/ c = GetReport resource) added1 ->
            exists r w' added,
              (if b then throw (report_error +:+ m)
               else (sleep 5000 ;; getScanReport_from resource maxRetries remaining)) w1
              = (r, w')
              /\ counted w w' /\ calls w' = calls w ++ added
              /\ spent (S remaining) 0 added
              /\ Forall (fun c => is_sleep c = true \/ c = GetReport resource) added
              /\ (forall m0, r = Throw m0 -> (1 <= S remaining)%nat ->
                    exists m', m0 = report_error +:+ m')).
  { intros w1 b m added1 Hb C1 S1 P1 F1. destruct b.
    - do 3 eexists. split; [reflexivity|]. split; [exact C1|]. split; [exact S1|].
      split; [apply (spent_weaken 1 0); auto; lia|]. split; [exact F1|].
      intros m0 [= <-] _. eauto.
    - destruct Hb as [Hb|Hb]; [|discriminate].
      symmetry in Hb. apply Nat.leb_gt in Hb.
      unfold bind.
      destruct (sleep_counted 5000 w1 ltac:(lia)) as (w2 & E2 & C2 & S2).
      rewrite E2.
      destruct (IH w2 ltac:(lia)) as (r & w' & added & E & C & Sc & P & F & T).
      exists r, w', (added1 ++ [Sleep 5000] ++ added). split; [exact E|].
      split; [eapply counted_trans; [exact C1|]; eapply counted_trans; eauto|].
      split; [rewrite Sc, S2, S1, <- !app_assoc; reflexivity|].
      split.
      { apply (spent_weaken (1 + (0 + remaining)) (0 + (0 + 0))); [|lia|lia].
        apply spent_app; [exact P1|]. apply spent_app; [|exact P].
        unfold spent, requests, posts. simpl. lia. }
      split.
      { apply Forall_app. split; auto. constructor; auto. }
      intros m0 -> _. apply T; auto. lia. }
  destruct (rateLimitCheck w) as [r w1] eqn:E.
  destruct (rateLimitCheck_counted _ _ _ E) as (C1 & sl & S1 & Hs).
  pose proof (sleeps_spent _ Hs) as P0.
  assert (F0 : Forall (fun c => is_sleep c = true \/ c = GetReport resource) sl).
  { apply List.Forall_forall. intros c Hc. left.
    rewrite forallb_forall in Hs. apply Hs. exact Hc. }
  destruct r as [[]|e].
  2: { eapply (Herr w1); [left; reflexivity|exact C1|exact S1| |exact F0].
       apply (spent_weaken 0 0); auto. }
  destruct (fetch_report_counted resource w1) as (reply & w2 & E2 & C2 & S2 & _).
  rewrite E2.
  assert (C : counted w w2) by (eapply counted_trans; eauto).
  assert (Sc : calls w2 = calls w ++ (sl ++ [GetReport resource])).
  { rewrite S2, S1, app_assoc. reflexivity. }
  assert (P : spent 1 0 (sl ++ [GetReport resource])).
  { apply (spent_app 0 0 1 0); auto. unfold spent, requests, posts. simpl. lia. }
  assert (F : Forall (fun c => is_sleep c = true \/ c = GetReport resource)
                (sl ++ [GetReport resource])).
  { apply Forall_app. split; auto. }
  destruct reply as [m|st tx|body].
  - eapply (Herr w2); [left; reflexivity|exact C|exact Sc|exact P|exact F].
  - eapply (Herr w2); [left; reflexivity|exact C|exact Sc|exact P|exact F].
  - destruct (bool_decide (response_code body = 1)) eqn:B1.
    { do 3 eexists. split; [reflexivity|]. split; [exact C|]. split; [exact Sc|].
      split; [apply (spent_weaken 1 0); auto; lia|]. split; [exact F|]. discriminate. }
    destruct (bool_decide (response_code body = -2)) eqn:B2.
    2: { eapply (Herr w2); [left; reflexivity|exact C|exact Sc|exact P|exact F]. }
    destruct (maxRetries <=? S (maxRetries - S remaining))%nat eqn:B3.
    { assert (B4 : (maxRetries - 1 <=? S (maxRetries - S remaining))%nat = true).
      { apply Nat.leb_le. apply Nat.leb_le in B3. lia. }
      rewrite B4.
      do 3 eexists. split; [reflexivity|]. split; [exact C|]. split; [exact Sc|].
      split; [apply (spent_weaken 1 0); auto; lia|]. split; [exact F|].
      intros m0 [= <-] _. eauto. }
    apply Nat.leb_gt in B3. run.
    match goal with |- context [getScanReport_from _ _ _ ?w3] =>
      set (w3' := w3) end.
    assert (C3 : counted w2 w3').
    { unfold counted, within_quota. simpl. split; [auto|split; lia]. }
    destruct (IH w3' ltac:(lia)) as (r & w' & added & E3 & C4 & S4 & P4 & F4 & T4).
    exists r, w'. eexists ((sl ++ [GetReport resource]) ++ [_] ++ added).
    split; [exact E3|].
    split; [eapply counted_trans; [exact C|]; eapply counted_trans; eauto|].
    split; [rewrite S4; subst w3'; simpl; rewrite Sc, <- !app_assoc; reflexivity|].
    split.
    { apply (spent_weaken (1 + (0 + remaining)) (0 + (0 + 0))); [|lia|lia].
      apply spent_app; [exact P|]. apply spent_app; [|exact P4].
      unfold spent, requests, posts. simpl. lia. }
    split.
    { apply Forall_app. split; auto. constructor; auto. }
    intros m0 -> _. apply T4; auto. lia.
Qed.

Section Quota.
Context `{Platform}.

Lemma obtain_report_counted buffer filename w :
  exists r w' added, obtain_report buffer filename w = (r, w')
    /\ counted w w' /\ calls w' = calls w ++ added /\ spent 12 1 added.
Proof.
  unfold obtain_report, calculateFileHash. run.
  destruct (checkHashReport_counted (sha256 buffer) w) as (o & w1 & a1 & E1 & C1 & S1 & P1).
  rewrite E1. destruct o as [report|].
  { do 3 eexists. split; [reflexivity|]. split; [exact C1|]. split; [exact S1|].
    apply (spent_weaken 1 0); auto; lia. }
  destruct (uploadFileForScan_counted buffer filename w1)
    as (r2 & w2 & a2 & E2 & C2 & S2 & P2 & _).
  rewrite E2. destruct r2 as [scanId|m].
  2: { exists (Throw m), w2, (a1 ++ a2). split; [reflexivity|].
       split; [eapply counted_trans; eauto|].
       split; [rewrite S2, S1, app_assoc; reflexivity|].
       apply (spent_weaken (1 + 1) (0 + 1)); try lia. apply spent_app; auto. }
  destruct (getScanReport_from_budget scanId 10 10 w2 ltac:(lia))
    as (r3 & w3 & a3 & E3 & C3 & S3 & P3 & _).
  unfold getScanReport. rewrite E3.
  exists r3, w3, (a1 ++ a2 ++ a3). split; [reflexivity|].
  split; [eapply counted_trans; [exact C1|]; eapply counted_trans; eauto|].
  split; [rewrite S3, S2, S1, <- !app_assoc; reflexivity|].
  apply (spent_weaken (1 + (1 + 10)) (0 + (1 + 0))); try lia.
  apply spent_app; auto. apply spent_app; auto.
Qed.

Lemma scan_counted buffer filename w :
  exists v w' added, scanWithVirusTotal buffer filename w = (Ok v, w')
    /\ counted w w' /\ calls w' = calls w ++ added /\ spent 12 1 added.
Proof.
  unfold scanWithVirusTotal. run.
  destruct (negb (Js.truthy (API_KEY (svc w)))); simpl.
  { exists no_api_key, w, []. rewrite app_nil_r.
    split; [reflexivity|]. split; [apply counted_refl|]. split; [reflexivity|apply spent_nil]. }
  destruct (DAILY_LIMIT <=? dailyRequestCount (svc w)); simpl.
  { exists daily_limit_reached, w, []. rewrite app_nil_r.
    split; [reflexivity|]. split; [apply counted_refl|]. split; [reflexivity|apply spent_nil]. }
  destruct (obtain_report_counted buffer filename w) as (r & w' & added & E & C & S & P).
  rewrite E. destruct r as [report|m]; do 3 eexists; (split; [reflexivity|]);
    (split; [exact C|]); (split; [exact S|exact P]).
Qed.


(** X2. [rateLimitCheck] refuses exactly when the counter belongs to the
    current calendar day and has reached 500; it then throws the
    daily-limit error and leaves the service as it was, without waiting.
    On a later day it always passes. *)
Theorem rateLimitCheck_refuses_only_at_daily_limit w :
  (lastResetDate (svc w) = toDateString (now w) /\ 500 <= dailyRequestCount (svc w) ->
   rateLimitCheck w = (Throw day_limit_message, w))
  /\ (lastResetDate (svc w) <> toDateString (now w) \/ dailyRequestCount (svc w) < 500 ->
      exists w', rateLimitCheck w = (Ok tt, w')).
Proof.
  pose proof (rateLimitCheck_cases w) as C. cbv zeta in C. unfold DAILY_LIMIT in C.
  split.
  - intros (Hd & Hl). rewrite bool_decide_eq_true_2 in C by exact Hd.
    apply Z.leb_le in Hl. rewrite Hl in C. apply C.
  - intros Hc. destruct (bool_decide (lastResetDate (svc w) = toDateString (now w))) eqn:B.
    + apply bool_decide_eq_true in B. destruct Hc as [Hc|Hc]; [contradiction|].
      apply Z.leb_gt in Hc. rewrite Hc in C. destruct C as (w' & E & _). eauto.
    + simpl in C. destruct C as (w' & E & _). eauto.
Qed.


(** X4. [getScanReport] sends at most [maxRetries] requests, all of them
    look-ups of the resource it was given; a report it returns is a
    completed one; with at least one attempt allowed every failure
    carries the report-error prefix, and with none it fails at once. *)
Theorem getScanReport_polls_within_its_budget resource maxRetries w :
  exists r w' added,
    getScanReport resource maxRetries w = (r, w')
    /\ calls w' = calls w ++ added
    /\ (requests added <= maxRetries)%nat
    /\ Forall (fun c => is_sleep c = true \/ c = GetReport resource) added
    /\ (forall report, r = Ok report -> response_code report = 1)
    /\ (forall m, r = Throw m -> (1 <= maxRetries)%nat ->
          exists m', m = "Error al obtener reporte de escaneo: " +:+ m')
    /\ (maxRetries = 0%nat -> r = Throw "Máximo número de intentos alcanzado" /\ w' = w).
Proof.
  unfold getScanReport.
  destruct (getScanReport_from_budget resource maxRetries maxRetries w ltac:(lia))
    as (r & w' & added & E & C & S & P & F & T).
  exists r, w', added. split; [exact E|]. split; [exact S|].
  split; [apply P|]. split; [exact F|]. split.
  { intros report ->.
    destruct (getScanReport_from_spec resource maxRetries maxRetries w)
      as (r' & w'' & E' & _ & Q).
    rewrite E in E'. injection E' as <- <-. apply (Q report eq_refl). }
  split; [exact T|].
  intros ->. simpl in E. injection E as <- <-. auto.
Qed.

(** X5. One scan sends at most twelve requests to VirusTotal (the
    look-up by hash, the upload and ten polls), at most one of them an
    upload. *)
Theorem scan_sends_at_most_twelve_requests w buffer filename :
  exists v w' added,
    scanWithVirusTotal buffer filename w = (Ok v, w')
    /\ calls w' = calls w ++ added
    /\ (requests added <= 12)%nat
    /\ (posts added <= 1)%nat.
Proof.
  destruct (scan_counted buffer filename w) as (v & w' & added & E & _ & S & P1 & P2).
  exists v, w', added. auto.
Qed.

Lemma checkHashReport_miss hash w :
  0 <= dailyRequestCount (svc w) < 499 ->
  unknown_to_service w ->
  exists w' added,
    checkHashReport hash w = (Ok None, w')
    /\ 0 <= dailyRequestCount (svc w') < 500
    /\ API_KEY (svc w') = API_KEY (svc w)
    /\ calls w' = calls w ++ added /\ posts added = 0%nat
    /\ requestCount (svc w') = requestCount (svc w) + 1.
Proof.
  intros Q U. unfold checkHashReport. run.
  pose proof (rateLimitCheck_cases w) as C. cbv zeta in C. unfold DAILY_LIMIT in C.
  destruct (500 <=? _) eqn:D in C.
  { apply Z.leb_le in D. destruct (bool_decide _) in D; lia. }
  destruct C as (w1 & E & _ & _ & Rc & Dy & _ & K & R & _ & sl & S1 & Hs).
  rewrite E. simpl.
  destruct (fetch_report_spec hash w1) as (reply & w2 & E2 & K2 & _ & S2 & R2).
  rewrite E2.
  assert (D2 : svc w2 = svc w1).
  { revert E2. unfold fetch_report. simpl. destruct (reportReplies w1); intros [= _ <-]; auto. }
  assert (F : found reply = None).
  { unfold unknown_to_service in U. rewrite <- R in U.
    destruct R2 as [R2|(R2 & _ & m & ->)]; [rewrite R2 in U; exact U|reflexivity]. }
  assert (P : posts (sl ++ [GetReport hash]) = 0%nat).
  { rewrite posts_app. pose proof (sleeps_spent _ Hs) as [_ P0]. unfold posts in *. simpl. lia. }
  assert (Q2 : 0 <= dailyRequestCount (svc w2) < 500).
  { rewrite D2, Dy. destruct (bool_decide _); lia. }
  assert (S : calls w2 = calls w ++ (sl ++ [GetReport hash])).
  { rewrite S2, S1, app_assoc. reflexivity. }
  assert (K3 : API_KEY (svc w2) = API_KEY (svc w)) by congruence.
  assert (Rc2 : requestCount (svc w2) = requestCount (svc w) + 1) by (rewrite D2; exact Rc).
  exists w2, (sl ++ [GetReport hash]).
  destruct reply as [m|st tx|body]; simpl in *.
  - split; [reflexivity|]. auto 10.
  - split; [reflexivity|]. auto 10.
  - destruct (bool_decide (response_code body = 1)); [discriminate|].
    split; [reflexivity|]. auto 10.
Qed.

Lemma uploadFileForScan_too_large buffer filename w :
  0 <= dailyRequestCount (svc w) < 500 ->
  MAX_FILE_SIZE < Z.of_nat (List.length buffer) ->
  exists w' sleeps,
    uploadFileForScan buffer filename w = (Throw too_large_message, w')
    /\ calls w' = calls w ++ sleeps /\ forallb is_sleep sleeps = true
    /\ requestCount (svc w') = requestCount (svc w) + 1.
Proof.
  intros Q Sz. unfold uploadFileForScan. run.
  pose proof (rateLimitCheck_cases w) as C. cbv zeta in C. unfold DAILY_LIMIT in C.
  destruct (500 <=? _) eqn:D in C.
  { apply Z.leb_le in D. destruct (bool_decide _) in D; lia. }
  destruct C as (w1 & E & _ & _ & Rc & _ & _ & _ & _ & _ & sl & S1 & Hs).
  rewrite E. simpl. apply Z.ltb_lt in Sz. rewrite Sz. simpl.
  exists w1, sl. split; [reflexivity|]. auto.
Qed.

(** X6. A file of more than 32 MB whose hash VirusTotal does not know is
    never uploaded for a scan: the upload step refuses it after it has
    counted a request, and the scan answers with the fail-open verdict,
    safe, that carries the size error. *)
Theorem oversized_file_passes_unscanned w buffer filename :
  Js.truthy (API_KEY (svc w)) = true ->
  0 <= dailyRequestCount (svc w) < 499 ->
  unknown_to_service w ->
  32 * 1024 * 1024 < Z.of_nat (List.length buffer) ->
  exists v w' added,
    scanWithVirusTotal buffer filename w = (Ok v, w')
    /\ v = scan_failed too_large_message
    /\ isSafe v = true
    /\ calls w' = calls w ++ added
    /\ posts added = 0%nat
    /\ requestCount (svc w') = requestCount (svc w) + 2.
Proof.
  intros K Q U Sz.
  rewrite scan_runs by (auto; unfold DAILY_LIMIT; lia).
  unfold obtain_report, calculateFileHash. run.
  destruct (checkHashReport_miss (sha256 buffer) w Q U)
    as (w1 & a1 & E1 & Q1 & K1 & S1 & P1 & R1).
  rewrite E1.
  destruct (uploadFileForScan_too_large buffer filename w1 Q1 Sz)
    as (w2 & sl & E2 & S2 & Hs & R2).
  rewrite E2.
  exists (scan_failed too_large_message), w2, (a1 ++ sl).
  split; [reflexivity|]. split; [reflexivity|]. split; [reflexivity|].
  split; [rewrite S2, S1, app_assoc; reflexivity|].
  split; [|lia].
  rewrite posts_app, P1. pose proof (sleeps_spent _ Hs) as [_ P0]. lia.
Qed.

(** The four verdicts a scan can answer with. *)
Lemma scan_verdict_shapes w buffer filename :
  exists v w',
    scanWithVirusTotal buffer filename w = (Ok v, w')
    /\ (v = no_api_key \/ v = daily_limit_reached
        \/ (exists report, v = verdict_of_report report)
        \/ exists m, v = scan_failed m).
Proof.
  unfold scanWithVirusTotal. run.
  destruct (negb (Js.truthy (API_KEY (svc w)))); simpl; [eauto 6|].
  destruct (DAILY_LIMIT <=? dailyRequestCount (svc w)); simpl; [eauto 6|].
  destruct (obtain_report buffer filename w) as [[report|m] w']; eauto 8.
Qed.

Lemma scanMultipleFiles_loop_spec files acc w :
  exists new w',
    scanMultipleFiles_loop files acc w = (Ok (acc ++ new), w')
    /\ (List.length new <= List.length files)%nat
    /\ (forall pre v post, new = pre ++ v :: post -> post <> [] -> isSafe v = true)
    /\ (Forall (fun v => isSafe v = true) new -> List.length new = List.length files)
    /\ (forall v, In v new -> isSafe v = false -> exists report, v = verdict_of_report report).
Proof.
  revert acc w. induction files as [|file rest IH]; intros acc w; simpl.
  { exists [], w. rewrite app_nil_r. split; [reflexivity|]. split; [simpl; lia|].
    split; [intros [|? ?] ? ? ?; discriminate|]. split; [auto|]. intros v []. }
  run.
  destruct (scan_verdict_shapes w (in_buffer file) (in_filename file)) as (v & w1 & E & Sh).
  rewrite E. simpl.
  destruct (isSafe v) eqn:Sv; simpl.
  - destruct (IH (acc ++ [v]) w1) as (new & w' & E' & L & A & F & T).
    exists (v :: new), w'. split.
    { rewrite E', <- app_assoc. reflexivity. }
    split; [simpl; lia|]. split.
    { intros [|x pre] y post Eq Hp; simpl in Eq; injection Eq as <- Eq; auto.
      eapply A; eauto. }
    split.
    { intros Hf. inversion Hf; subst. simpl. f_equal. auto. }
    intros y [<-|Hy] Hu; [congruence|]. auto.
  - exists [v], w1. split; [reflexivity|]. split; [simpl; lia|]. split.
    { intros [|x [|? ?]] y post Eq Hp; simpl in Eq; try discriminate.
      injection Eq as <- <-. contradiction. }
    split.
    { intros Hf. inversion Hf; subst. congruence. }
    intros y [<-|[]] _.
    destruct Sh as [->|[->|[(report & ->)|(m & ->)]]]; try discriminate. eauto.
Qed.

(** X7. [scanMultipleFiles] scans the files in order and stops after the
    first unsafe verdict: it never throws, returns at most one verdict
    per file, every verdict but the last is safe, and an unsafe verdict
    is always one built from a report of the service (never the
    'Scan error' record of its catch block). *)
Theorem scanMultipleFiles_stops_at_first_threat files w :
  exists results w',
    scanMultipleFiles files w = (Ok results, w')
    /\ (List.length results <= List.length files)%nat
    /\ (forall pre v post, results = pre ++ v :: post -> post <> [] -> isSafe v = true)
    /\ (Forall (fun v => isSafe v = true) results ->
          List.length results = List.length files)
    /\ (forall v, In v results -> isSafe v = false ->
          (exists report, v = verdict_of_report report) /\ error v = None).
Proof.
  unfold scanMultipleFiles.
  destruct (scanMultipleFiles_loop_spec files [] w) as (new & w' & E & L & A & F & T).
  exists new, w'. split; [exact E|]. split; [exact L|]. split; [exact A|].
  split; [exact F|]. intros v Hin Hu. destruct (T v Hin Hu) as (report & ->). eauto.
Qed.

(** X8. With a key configured, the figure [getStats] reports decides
    what the next scan does: at zero remaining requests the scan answers
    'daily-limit-reached' and sends nothing; above zero it sends at
    least the look-up by hash. *)
Theorem remaining_requests_decide_the_next_scan w buffer filename :
  Js.truthy (API_KEY (svc w)) = true ->
  0 <= remainingDailyRequests (getStats (svc w))
  /\ (remainingDailyRequests (getStats (svc w)) = 0 ->
        scanWithVirusTotal buffer filename w = (Ok daily_limit_reached, w))
  /\ (0 < remainingDailyRequests (getStats (svc w)) ->
        exists v w' sleeps more,
          scanWithVirusTotal buffer filename w = (Ok v, w')
          /\ calls w' = calls w ++ sleeps ++ GetReport (sha256 buffer) :: more
          /\ forallb is_sleep sleeps = true).
Proof.
  intros K. unfold getStats. simpl. split; [lia|]. split.
  - intros R. apply scan_at_ceiling; auto. unfold DAILY_LIMIT. lia.
  - intros R. assert (D : dailyRequestCount (svc w) < DAILY_LIMIT) by (unfold DAILY_LIMIT; lia).
    rewrite (scan_runs w buffer filename K D).
    destruct (obtain_report_spec w buffer filename D) as (r & w' & sleeps & more & E & C & Hs & _).
    rewrite E. destruct r as [report|m]; do 4 eexists; (split; [reflexivity|]);
      (split; [exact C|exact Hs]).
Qed.

(** X9. Once the counter of the day has reached 500 with a key
    configured, it stays there: however much time passes between them,
    all later scans answer 'daily-limit-reached', send nothing and leave
    the service's counters as they are (the reset sits in
    [rateLimitCheck], which is no longer reached). *)
Theorem daily_ceiling_is_never_lifted w l :
  Js.truthy (API_KEY (svc w)) = true ->
  500 <= dailyRequestCount (svc w) ->
  exists w',
    scans_over_time l w = (Ok (map (fun _ => daily_limit_reached) l), w')
    /\ svc w' = svc w /\ calls w' = calls w
    /\ reportReplies w' = reportReplies w /\ scanReplies w' = scanReplies w.
Proof.
  revert w. induction l as [|[t file] rest IH]; intros w K D; simpl.
  { exists w. auto. }
  run.
  rewrite scan_at_ceiling by (simpl; auto).
  destruct (IH (elapse t w) K D) as (w' & E & Sv & C & R & Sr).
  rewrite E. exists w'. auto.
Qed.

End Quota.
End QuotaFacts.

Module TextFacts.
Import TextSpec.

Lemma every_weaken (ok ok' : ascii -> bool) s :
  (forall c, ok c = true -> ok' c = true) -> every ok s = true -> every ok' s = true.
Proof.
  intros Hw. induction s as [|c s IH]; simpl; auto.
  intros Hc. apply andb_true_iff in Hc as [H1 H2]. rewrite (Hw _ H1), IH; auto.
Qed.

Lemma alnum_not c d : Ids.is_lower_alnum c = true -> Ids.is_lower_alnum d = false ->
  Ascii.eqb c d = false.
Proof.
  intros Hc Hd. destruct (Ascii.eqb c d) eqn:E; auto.
  apply Ascii.eqb_eq in E. subst. congruence.
Qed.

Lemma lower_fixes c : Ids.is_lower_alnum c = true \/ c = "-"%char \/ c = "_"%char
  \/ c = "."%char -> Ids.lower c = c.
Proof.
  unfold Ids.lower, Ids.is_lower_alnum.
  intros [Hc | [ -> | [ -> | -> ] ] ]; try reflexivity.
  destruct ((65 <=? nat_of_ascii c)%nat && (nat_of_ascii c <=? 90)%nat) eqn:U; auto.
  exfalso. apply andb_true_iff in U as [U1 U2].
  apply Nat.leb_le in U1, U2.
  apply orb_true_iff in Hc as [Hc|Hc]; apply andb_true_iff in Hc as [H1 H2];
    apply Nat.leb_le in H1, H2; lia.
Qed.

(** ** Stripping one separator at each end *)

Lemma strip_leading_every ok d s :
  every ok s = true -> every ok (Ids.strip_leading d s) = true.
Proof.
  destruct s as [|c s]; simpl; auto. intros Hc.
  apply andb_true_iff in Hc as [H1 H2]. destruct (Ascii.eqb c d); simpl; auto.
  rewrite H1, H2. reflexivity.
Qed.

Lemma strip_leading_doubled d s :
  doubled d s = false -> doubled d (Ids.strip_leading d s) = false
                         /\ starts_with d (Ids.strip_leading d s) = false.
Proof.
  destruct s as [|c s]; simpl; auto. intros Hd.
  apply orb_false_iff in Hd as [H1 H2].
  destruct (Ascii.eqb c d) eqn:E; simpl in *.
  - auto.
  - rewrite E, H2. auto.
Qed.

Lemma strip_trailing_empty d s :
  Ids.strip_trailing d s = "" -> s = "" \/ s = String d "".
Proof.
  destruct s as [|c [|b r]]; simpl; auto.
  - destruct (Ascii.eqb c d) eqn:E; [|discriminate].
    apply Ascii.eqb_eq in E. subst. auto.
  - discriminate.
Qed.

Lemma strip_trailing_cons d c b r :
  Ids.strip_trailing d (String c (String b r))
  = String c (Ids.strip_trailing d (String b r)).
Proof. reflexivity. Qed.

Lemma strip_trailing_every ok d s :
  every ok s = true -> every ok (Ids.strip_trailing d s) = true.
Proof.
  induction s as [|c s IH]; [auto|].
  intros Hc. cbn [every] in Hc. apply andb_true_iff in Hc as [H1 H2].
  destruct s as [|b r].
  - simpl. destruct (Ascii.eqb c d); simpl; auto. rewrite H1. reflexivity.
  - rewrite strip_trailing_cons. cbn [every]. rewrite H1. apply IH. exact H2.
Qed.

Lemma strip_trailing_starts d s :
  starts_with d s = false -> starts_with d (Ids.strip_trailing d s) = false.
Proof.
  destruct s as [|c [|b r]]; simpl; auto.
  intros E. rewrite E. simpl. exact E.
Qed.

Lemma strip_trailing_doubled d s :
  doubled d s = false ->
  doubled d (Ids.strip_trailing d s) = false /\ ends_with d (Ids.strip_trailing d s) = false.
Proof.
  induction s as [|c s IH]; [auto|].
  intros Hd. cbn [doubled] in Hd. apply orb_false_iff in Hd as [H1 H2].
  destruct s as [|b r].
  - simpl. destruct (Ascii.eqb c d) eqn:E; simpl; auto. rewrite E. auto.
  - rewrite strip_trailing_cons.
    destruct (IH H2) as (D & En).
    cbn [starts_with] in H1.
    destruct (Ids.strip_trailing d (String b r)) as [|y x'] eqn:X.
    + apply strip_trailing_empty in X as [X|X]; [discriminate|].
      injection X as -> ->. rewrite Ascii.eqb_refl, andb_true_r in H1.
      simpl. rewrite H1. auto.
    + assert (Y : y = b).
      { destruct r as [|b' r'].
        - simpl in X. destruct (Ascii.eqb b d); [discriminate|]. injection X as <- _. auto.
        - rewrite strip_trailing_cons in X. injection X as <- _. auto. }
      subst y. split.
      * cbn [doubled starts_with]. rewrite H1. simpl. exact D.
      * cbn [ends_with]. exact En.
Qed.

Lemma strip_leading_fixed d s : starts_with d s = false -> Ids.strip_leading d s = s.
Proof. destruct s as [|c s]; simpl; auto. intros ->. reflexivity. Qed.

Lemma strip_trailing_fixed d s : ends_with d s = false -> Ids.strip_trailing d s = s.
Proof.
  induction s as [|c s IH]; simpl; auto.
  destruct s as [|b r]; [intros ->; reflexivity|].
  intros E. f_equal. apply IH. exact E.
Qed.

Lemma strip_both d ok s :
  every ok s = true -> doubled d s = false ->
  every ok (Ids.strip_trailing d (Ids.strip_leading d s)) = true
  /\ separated d (Ids.strip_trailing d (Ids.strip_leading d s)).
Proof.
  intros He Hd.
  destruct (strip_leading_doubled d s Hd) as (D1 & S1).
  destruct (strip_trailing_doubled d _ D1) as (D2 & E2).
  split.
  - apply strip_trailing_every, strip_leading_every, He.
  - repeat split; auto. apply strip_trailing_starts, S1.
Qed.

(** ** generateSlug *)

Lemma dash_runs_every s b : every slug_char (Ids.dash_runs s b) = true.
Proof.
  revert b. induction s as [|c s IH]; intros b; simpl; auto.
  destruct (Ids.is_lower_alnum c) eqn:A; simpl.
  - unfold slug_char at 1. rewrite A. simpl. apply IH.
  - destruct b; simpl; auto.
Qed.

Lemma dash_is_not_alnum : Ids.is_lower_alnum "-" = false.
Proof. reflexivity. Qed.

Lemma dash_runs_doubled s b :
  doubled "-" (Ids.dash_runs s b) = false
  /\ (b = true -> starts_with "-" (Ids.dash_runs s b) = false).
Proof.
  revert b. induction s as [|c s IH]; intros b; simpl; auto.
  destruct (Ids.is_lower_alnum c) eqn:A; simpl.
  - rewrite (alnum_not c "-" A dash_is_not_alnum). simpl.
    split; [apply IH|auto].
  - destruct b; simpl.
    + apply IH.
    + destruct (IH true) as (D & S). rewrite D, (S eq_refl). auto.
Qed.

Lemma toLowerCase_fixed s :
  every (fun c => Ids.is_lower_alnum c || Ascii.eqb c "-" || Ascii.eqb c "_"
                  || Ascii.eqb c ".") s = true ->
  Ids.toLowerCase s = s.
Proof.
  induction s as [|c s IH]; simpl; auto. intros Hc.
  apply andb_true_iff in Hc as [H1 H2]. rewrite IH by exact H2. f_equal.
  apply lower_fixes.
  apply orb_true_iff in H1 as [H1|H1]; [|apply Ascii.eqb_eq in H1; auto].
  apply orb_true_iff in H1 as [H1|H1]; [|apply Ascii.eqb_eq in H1; auto].
  apply orb_true_iff in H1 as [H1|H1]; [|apply Ascii.eqb_eq in H1; auto].
  auto.
Qed.

Lemma dash_runs_fixed s b :
  every slug_char s = true -> doubled "-" s = false ->
  (b = true -> starts_with "-" s = false) ->
  Ids.dash_runs s b = s.
Proof.
  revert b. induction s as [|c s IH]; intros b He Hd Hs; simpl; auto.
  simpl in He, Hd. apply andb_true_iff in He as [H1 H2].
  apply orb_false_iff in Hd as [D1 D2].
  destruct (Ids.is_lower_alnum c) eqn:A.
  - f_equal. apply IH; auto; discriminate.
  - unfold slug_char in H1. rewrite A in H1. simpl in H1.
    pose proof H1 as H1'. apply Ascii.eqb_eq in H1'. subst c.
    destruct b.
    + specialize (Hs eq_refl). simpl in Hs. discriminate.
    + f_equal. apply IH; auto; intros _;
        rewrite ?Ascii.eqb_refl in D1; simpl in D1; exact D1.
Qed.

(** X10. A slug consists of lower-case letters, digits and hyphens,
    with no hyphen at either end and no two hyphens in a row. *)
Theorem generateSlug_is_well_formed title :
  every slug_char (Ids.generateSlug title) = true
  /\ starts_with "-" (Ids.generateSlug title) = false
  /\ ends_with "-" (Ids.generateSlug title) = false
  /\ doubled "-" (Ids.generateSlug title) = false.
Proof.
  unfold Ids.generateSlug.
  destruct (strip_both "-" slug_char (Ids.dash_runs (Ids.toLowerCase title) false))
    as (E & S1 & S2 & S3).
  - apply dash_runs_every.
  - apply dash_runs_doubled.
  - auto.
Qed.

(** X11. The slug of a slug is the slug itself: [generateSlug] is
    idempotent. *)
Theorem generateSlug_is_idempotent title :
  Ids.generateSlug (Ids.generateSlug title) = Ids.generateSlug title.
Proof.
  destruct (strip_both "-" slug_char (Ids.dash_runs (Ids.toLowerCase title) false)
              (dash_runs_every _ _) (proj1 (dash_runs_doubled _ _)))
    as (E & S1 & S2 & S3).
  fold (Ids.generateSlug title) in E, S1, S2, S3.
  set (s := Ids.generateSlug title) in *.
  unfold Ids.generateSlug at 1.
  rewrite toLowerCase_fixed.
  2: { eapply every_weaken; [|exact E]. intros c Hc. unfold slug_char in Hc.
       rewrite Hc. reflexivity. }
  rewrite dash_runs_fixed; auto; try discriminate.
  rewrite strip_leading_fixed by exact S1.
  apply strip_trailing_fixed, S2.
Qed.

(** ** The two [sanitizeFileName] *)

Lemma keep_name_chars_every s :
  every Projects.is_name_char (Projects.keep_name_chars s) = true.
Proof.
  induction s as [|c s IH]; simpl; auto.
  destruct (Projects.is_name_char c) eqn:A; simpl; auto. rewrite A. exact IH.
Qed.

Lemma trim_start_every ok s : every ok s = true -> every ok (Js.trim_start s) = true.
Proof.
  induction s as [|c s IH]; simpl; auto. intros Hc.
  apply andb_true_iff in Hc as [H1 H2].
  destruct (Js.is_space c); auto. simpl. rewrite H1, H2. reflexivity.
Qed.

Lemma trim_end_every ok s : every ok s = true -> every ok (Js.trim_end s) = true.
Proof.
  induction s as [|c s IH]; simpl; auto. intros Hc.
  apply andb_true_iff in Hc as [H1 H2]. specialize (IH H2).
  destruct (Js.trim_end s) as [|b r].
  - destruct (Js.is_space c); simpl; auto. rewrite H1. reflexivity.
  - simpl in *. rewrite H1. exact IH.
Qed.

(** What [underscore_runs] makes of name characters. *)
Lemma underscore_runs_every s b :
  every Projects.is_name_char s = true ->
  every (fun c => Projects.is_name_char c && negb (Js.is_space c) || Ascii.eqb c "_")
        (Projects.underscore_runs s b) = true.
Proof.
  revert b. induction s as [|c s IH]; intros b; simpl; auto. intros Hc.
  apply andb_true_iff in Hc as [H1 H2].
  destruct (Js.is_space c) eqn:Sp.
  - destruct b; simpl; auto.
  - simpl. rewrite H1, Sp. simpl. auto.
Qed.

Lemma lower_title_char c :
  Projects.is_name_char c && negb (Js.is_space c) || Ascii.eqb c "_" = true ->
  title_char (Ids.lower c) = true.
Proof.
  intros Hc. unfold title_char.
  apply orb_true_iff in Hc as [Hc|Hc].
  2: { apply Ascii.eqb_eq in Hc. subst. reflexivity. }
  apply andb_true_iff in Hc as [Hn Hs]. apply negb_true_iff in Hs.
  unfold Projects.is_name_char in Hn. rewrite Hs, orb_false_r in Hn.
  apply orb_true_iff in Hn as [Hn|Hn].
  2: { apply Ascii.eqb_eq in Hn. subst. reflexivity. }
  assert (A : Ids.is_lower_alnum (Ids.lower c) = true); [|rewrite A; reflexivity].
  unfold Ids.is_lower_alnum, Ids.lower.
  destruct ((65 <=? nat_of_ascii c)%nat && (nat_of_ascii c <=? 90)%nat) eqn:U.
  - apply andb_true_iff in U as [U1 U2]. apply Nat.leb_le in U1, U2.
    rewrite nat_ascii_embedding by lia.
    apply orb_true_iff. left. apply andb_true_iff. split; apply Nat.leb_le; lia.
  - repeat (apply orb_true_iff in Hn as [Hn|Hn]).
    + rewrite Hn. reflexivity.
    + rewrite Hn in U. discriminate.
    + rewrite Hn, orb_true_r. reflexivity.
Qed.

Lemma toLowerCase_every (ok ok' : ascii -> bool) s :
  (forall c, ok c = true -> ok' (Ids.lower c) = true) ->
  every ok s = true -> every ok' (Ids.toLowerCase s) = true.
Proof.
  intros Hw. induction s as [|c s IH]; simpl; auto. intros Hc.
  apply andb_true_iff in Hc as [H1 H2]. rewrite (Hw _ H1), IH; auto.
Qed.

(** X12. The name [sanitizeFileName] of the projects controller makes of
    a title holds only lower-case letters, digits, hyphens and
    underscores: no dot, no slash, no space. *)
Theorem sanitized_title_is_plain filename :
  every title_char (Projects.sanitizeFileName filename) = true.
Proof.
  unfold Projects.sanitizeFileName.
  apply (toLowerCase_every _ _ _ lower_title_char).
  apply underscore_runs_every. unfold Js.trim.
  apply trim_end_every, trim_start_every, keep_name_chars_every.
Qed.

Lemma underscore_others_every s :
  every file_name_char (UploadController.underscore_others s) = true.
Proof.
  induction s as [|c s IH]; simpl; auto. rewrite IH, andb_true_r.
  unfold file_name_char. destruct (UploadController.is_file_char c) eqn:A.
  - rewrite A. reflexivity.
  - reflexivity.
Qed.

Lemma collapse_every ok s b :
  every ok s = true -> every ok (UploadController.collapse_underscores s b) = true.
Proof.
  revert b. induction s as [|c s IH]; intros b; simpl; auto. intros Hc.
  apply andb_true_iff in Hc as [H1 H2].
  destruct (Ascii.eqb c "_") eqn:E.
  - apply Ascii.eqb_eq in E. subst. destruct b; simpl; auto. rewrite H1. simpl. auto.
  - simpl. rewrite H1. simpl. auto.
Qed.

Lemma collapse_doubled s b :
  doubled "_" (UploadController.collapse_underscores s b) = false
  /\ (b = true -> starts_with "_" (UploadController.collapse_underscores s b) = false).
Proof.
  revert b. induction s as [|c s IH]; intros b; simpl; auto.
  destruct (Ascii.eqb c "_") eqn:E.
  - destruct b; simpl.
    + apply IH.
    + destruct (IH true) as (D & S). rewrite D, (S eq_refl). auto.
  - simpl. rewrite E. simpl. split; [apply IH|auto].
Qed.

Lemma underscore_others_fixed s :
  every file_name_char s = true -> UploadController.underscore_others s = s.
Proof.
  induction s as [|c s IH]; simpl; auto. intros Hc.
  apply andb_true_iff in Hc as [H1 H2]. rewrite IH by exact H2. f_equal.
  destruct (UploadController.is_file_char c) eqn:A; auto.
  unfold file_name_char in H1. rewrite A in H1. simpl in H1.
  apply Ascii.eqb_eq in H1. auto.
Qed.

Lemma collapse_fixed s b :
  doubled "_" s = false -> (b = true -> starts_with "_" s = false) ->
  UploadController.collapse_underscores s b = s.
Proof.
  revert b. induction s as [|c s IH]; intros b Hd Hs; simpl; auto.
  simpl in Hd. apply orb_false_iff in Hd as [D1 D2].
  destruct (Ascii.eqb c "_") eqn:E.
  - apply Ascii.eqb_eq in E. subst c. destruct b.
    + specialize (Hs eq_refl). simpl in Hs. discriminate.
    + f_equal. apply IH; auto.
  - f_equal. apply IH; auto; discriminate.
Qed.

(** X13. The [sanitizeFileName] of the upload controller yields
    lower-case letters, digits, dots, hyphens and underscores, with no
    underscore at either end and no two in a row; a name of that form is
    left as it is, so the function is idempotent. *)
Theorem upload_sanitizeFileName_normalizes fileName :
  every file_name_char (UploadController.sanitizeFileName fileName) = true
  /\ separated "_" (UploadController.sanitizeFileName fileName)
  /\ UploadController.sanitizeFileName (UploadController.sanitizeFileName fileName)
     = UploadController.sanitizeFileName fileName.
Proof.
  destruct (strip_both "_" file_name_char
              (UploadController.collapse_underscores
                 (UploadController.underscore_others (Ids.toLowerCase fileName)) false))
    as (E & S).
  { apply collapse_every, underscore_others_every. }
  { apply collapse_doubled. }
  fold (UploadController.sanitizeFileName fileName) in E, S.
  split; [exact E|]. split; [exact S|].
  destruct S as (S1 & S2 & S3).
  set (s := UploadController.sanitizeFileName fileName) in *.
  unfold UploadController.sanitizeFileName at 1.
  rewrite toLowerCase_fixed.
  2: { eapply every_weaken; [|exact E]. intros c Hc.
       unfold file_name_char, UploadController.is_file_char in Hc.
       destruct (Ids.is_lower_alnum c); [reflexivity|].
       destruct (Ascii.eqb c "."), (Ascii.eqb c "-"), (Ascii.eqb c "_");
         simpl in *; auto; discriminate. }
  rewrite underscore_others_fixed by exact E.
  rewrite collapse_fixed; auto; try discriminate.
  rewrite strip_leading_fixed by exact S1.
  apply strip_trailing_fixed, S2.
Qed.

End TextFacts.

Module ModelFacts.
Import Model ProjectMethods DraftSpec Projects.

(** X14. [areFilesSafe] and [getUnsafeFiles] agree: the files are safe
    exactly when no unsafe file is listed; only the code archive and the
    document are ever listed, whatever the app entry holds. *)
Theorem areFilesSafe_iff_no_unsafe_file p :
  (areFilesSafe p = true <-> getUnsafeFiles p = [])
  /\ (forall u, In u (getUnsafeFiles p) -> uf_type u = "code" \/ uf_type u = "docPdf")
  /\ (forall a, areFilesSafe (set_files (option_map (set_app a) (files p)) p) = areFilesSafe p).
Proof.
  unfold areFilesSafe, getUnsafeFiles. repeat split.
  - destruct (files p) as [fs|]; auto.
    destruct (flagged (code fs)); [discriminate|].
    destruct (flagged (docPdf fs)); [discriminate|]. reflexivity.
  - destruct (files p) as [fs|]; auto.
    destruct (flagged (code fs)); [discriminate|].
    destruct (flagged (docPdf fs)); [discriminate|]. reflexivity.
  - intros u. destruct (files p) as [fs|]; [|intros []].
    destruct (flagged (code fs)), (flagged (docPdf fs)); simpl;
      intros Hu; intuition (subst; simpl; auto).
  - intros a. destruct p as [? ? ? ? ? ? ? ? ? ? ? ? ? ? [fs|] ? ? ? ? ? ? ? ?]; reflexivity.
Qed.

(** X15. Applying a draft twice is applying it once: [applyDraft] is
    idempotent (it leaves the draft itself in place). *)
Theorem applyDraft_is_idempotent p : applyDraft (applyDraft p) = applyDraft p.
Proof.
  destruct p as [? ? ? ? ? ? ? ? ? ? ? ? ? ? fs ? ? ? ? d ? ? ?].
  destruct d as [[t s l i u im iu df]|]; [|reflexivity].
  destruct df as [[a c dc]|]; cbv; f_equal;
    repeat match goal with
           | |- context [match ?x with _ => _ end] => is_var x; destruct x
           end;
    reflexivity.
Qed.



End ModelFacts.

Module AssetFacts.
Import Model Backend Upload StorageSpec StorageFacts Projects UploadController.






End AssetFacts.

Module ModerationFacts.
Import Model Backend Upload Admin Projects ProjectMethods Moderation Authoring.
Import AdminSpec ModerationSpec.

Section Handlers.
Context `{Platform} `{Libraries}.


(** X21. [clearRejectedDraft] removes a draft only when it is a rejected
    one and the caller is the owner of the company or one of its
    Publishers.  Every call returns; either nothing at all has changed and
    the answer is an error, or the project was found with draftStatus
    'rejected', the caller may act for the company, and the only change is
    that the project is stored without its draft, its feedback and its
    dates of submission and rejection, every live field as it was. *)
Theorem clearRejectedDraft_removes_only_a_rejected_draft user id w :
  exists r w',
    clearRejectedDraft user id w = (Ok r, w')
    /\ ((w' = w /\ is_failure r)
        \/ exists userId p,
             user_id user = Some userId
             /\ projects w !! id = Some p
             /\ draftStatus p = draft_rejected
             /\ may_act w p userId = true
             /\ w' = set_projects
                       (<[_id p := set_updatedAt (Antivirus.now (vt w)) (clearDraft p)]>
                          (projects w)) w
             /\ r = Sent 200 "Borrador rechazado eliminado. Puedes crear uno nuevo."
                      (set_updatedAt (Antivirus.now (vt w)) (clearDraft p)) None None
             /\ hasPendingDraft (clearDraft p) = false
             /\ same_live_fields p (clearDraft p)).
Proof.
  unfold clearRejectedDraft, handler, try_catch. run.
  destruct (user_id user) as [userId|]; [|do 2 eexists; split; [reflexivity|left; simpl; auto]].
  destruct (objectIdIsValid id); simpl;
    [|do 2 eexists; split; [reflexivity|left; simpl; auto]].
  destruct (projects w !! id) as [p|] eqn:Found; simpl;
    [|do 2 eexists; split; [reflexivity|left; simpl; auto]].
  destruct (negb (is_owner _ userId) && negb (some_publisher _ userId)) eqn:Perm; simpl;
    [do 2 eexists; split; [reflexivity|left; simpl; auto]|].
  destruct (bool_decide (draftStatus p = draft_rejected)) eqn:Ds; simpl;
    [|do 2 eexists; split; [reflexivity|left; simpl; auto]].
  apply bool_decide_eq_true in Ds.
  do 2 eexists. split; [reflexivity|]. right. exists userId, p.
  split; [reflexivity|]. split; [reflexivity|]. split; [exact Ds|].
  split. { unfold may_act. destruct (is_owner _ userId), (some_publisher _ userId);
             simpl in *; congruence. }
  split; [reflexivity|]. split; [reflexivity|]. split; [reflexivity|].
  repeat split.
Qed.

Lemma feedback_transition_commits s title_ message id body w p :
  objectIdIsValid id = true -> feedbackSchema_ok body = true ->
  projects w !! id = Some p -> _id p = id ->
  exists w' p',
    feedback_transition s title_ message id body w
    = (Ok (answer_after_notifying w message p'), w')
    /\ projects w' = <[id := p']> (projects w)
    /\ p' = set_updatedAt (Antivirus.now (vt w)) (with_status s p).
Proof.
  intros V Sc Found Key.
  unfold feedback_transition, handler, try_catch. run.
  rewrite V, Sc. simpl. rewrite Found. simpl. rewrite Key.
  unfold notifyProject, findById. run. rewrite lookup_insert_eq. simpl.
  unfold createNotification, answer_after_notifying. simpl.
  destruct (notifyReplies w) as [|[e|] rest]; simpl;
    do 2 eexists; (split; [reflexivity|]); split; reflexivity.
Qed.

(** X22. [sendToAuthor] and [rejectProject] store the new status before
    they notify the author and do not look at the status the project
    has: every project found, published ones included, is saved as
    'needs_author_review' (or 'rejected') with its publication date and
    every other field as they were, and when the notification fails the
    answer is 400 with the status already changed. *)
Theorem feedback_status_is_stored_before_notifying id body w p :
  objectIdIsValid id = true -> feedbackSchema_ok body = true ->
  projects w !! id = Some p -> _id p = id ->
  (exists w' p',
     sendToAuthor id body w
     = (Ok (answer_after_notifying w "Proyecto enviado al autor para revisión" p'), w')
     /\ projects w' = <[id := p']> (projects w)
     /\ p' = set_updatedAt (Antivirus.now (vt w)) (with_status needs_author_review p)
     /\ status p' = needs_author_review /\ publishedAt p' = publishedAt p)
  /\ (exists w' p',
        rejectProject id body w
        = (Ok (answer_after_notifying w "Proyecto rechazado" p'), w')
        /\ projects w' = <[id := p']> (projects w)
        /\ p' = set_updatedAt (Antivirus.now (vt w)) (with_status rejected p)
        /\ status p' = rejected /\ publishedAt p' = publishedAt p).
Proof.
  intros V Sc Found Key. split.
  - destruct (feedback_transition_commits needs_author_review "Proyecto requiere edición"
                "Proyecto enviado al autor para revisión" id body w p V Sc Found Key)
      as (w' & p' & E & P & Hp).
    exists w', p'. split; [exact E|]. split; [exact P|]. split; [exact Hp|].
    rewrite Hp. split; reflexivity.
  - destruct (feedback_transition_commits rejected "Proyecto rechazado"
                "Proyecto rechazado" id body w p V Sc Found Key)
      as (w' & p' & E & P & Hp).
    exists w', p'. split; [exact E|]. split; [exact P|]. split; [exact Hp|].
    rewrite Hp. split; reflexivity.
Qed.

(** X23. A warning changes no project.  Whatever the request,
    [warnProject] returns, leaves the projects, the assets and the log of
    storage calls as they were, and sends at most one notification, of
    type 'project_warning'; for a project without company or owner it
    answers 400 and sends none. *)
Theorem warnProject_changes_no_project id body w :
  exists r w',
    warnProject id body w = (Ok r, w')
    /\ projects w' = projects w /\ assets w' = assets w
    /\ storageCalls w' = storageCalls w
    /\ at_most_one_more "project_warning" id w w'
    /\ (forall p, objectIdIsValid id = true -> feedbackSchema_ok body = true ->
                  projects w !! id = Some p ->
                  owner_of (match companyId p with
                            | Some c => companies w !! c
                            | None => None
                            end) = None ->
                  w' = w
                  /\ r = Failure 400 "No se puede enviar advertencia a un proyecto huérfano").
Proof.
  unfold warnProject, handler, try_catch. run.
  destruct (objectIdIsValid id); simpl.
  2: { do 2 eexists. split; [reflexivity|]. unfold at_most_one_more.
       repeat split; auto; discriminate. }
  destruct (feedbackSchema_ok body); simpl.
  2: { do 2 eexists. split; [reflexivity|]. unfold at_most_one_more.
       repeat split; auto; discriminate. }
  destruct (projects w !! id) as [p|] eqn:Found; simpl.
  2: { do 2 eexists. split; [reflexivity|]. unfold at_most_one_more.
       repeat split; auto; discriminate. }
  destruct (owner_of _) as [authorId|] eqn:Ow; simpl.
  2: { do 2 eexists. split; [reflexivity|]. unfold at_most_one_more.
       repeat split; auto; intros q _ _ [= <-]; auto. }
  unfold notifyProject, findById. run. rewrite Found. simpl.
  unfold createNotification, at_most_one_more.
  destruct (notifyReplies w) as [|[e|] rest]; simpl;
    do 2 eexists; (split; [reflexivity|]); simpl;
    (split; [reflexivity|]); (split; [reflexivity|]); (split; [reflexivity|]);
    (split; [eauto|]); intros q _ _ [= <-] Hq; congruence.
Qed.

(** X24. [resubmitProject] only takes a project back to 'pending' from
    'rejected' or 'needs_author_review': for the owner or a Publisher of
    the company such a project is saved as 'pending' and the answer is
    the success message even when the notification fails; a project in
    any other status is refused with 400 and nothing changes. *)
Theorem resubmitProject_only_from_rejection user userId id w p :
  user_id user = Some userId -> objectIdIsValid id = true ->
  projects w !! id = Some p -> _id p = id -> may_act w p userId = true ->
  exists r w',
    resubmitProject user id w = (Ok r, w')
    /\ if resubmittable (status p)
       then projects w' = <[id := set_updatedAt (Antivirus.now (vt w)) (with_status pending p)]>
                            (projects w)
            /\ r = Sent 200 "Proyecto reenviado para revisión exitosamente"
                     (set_updatedAt (Antivirus.now (vt w)) (with_status pending p)) None None
       else w' = w
            /\ r = Failure 400 "El proyecto debe estar rechazado o necesitar revisión para poder reenviarlo".
Proof.
  intros U V Found Key May.
  unfold resubmitProject, handler, try_catch, findById_cast. run.
  rewrite U, V. simpl. rewrite Found. simpl.
  unfold may_act in May.
  destruct (is_owner _ userId) eqn:Ow, (some_publisher _ userId) eqn:Pu;
    simpl in May; try discriminate; simpl;
    (destruct (resubmittable (status p)); simpl; [|eauto]);
    rewrite Key; unfold notifyProject, findById; run; rewrite lookup_insert_eq; simpl;
    unfold createNotification; simpl;
    (destruct (notifyReplies w) as [|[e|] rest]; simpl; eauto).
Qed.

End Handlers.

Lemma is_member_ids x ms :
  existsb (is_member x) ms = true <-> In x (member_ids ms).
Proof.
  induction ms as [|m ms IH]; simpl; [split; [discriminate|tauto]|].
  rewrite orb_true_iff, IH, in_app_iff. unfold is_member.
  destruct (Model.userId m) as [u|]; simpl.
  - rewrite String.eqb_eq. tauto.
  - split; [intros [D|I]; [discriminate|auto]|tauto].
Qed.

Lemma existsb_eqb_In x l : existsb (String.eqb x) l = true <-> In x l.
Proof.
  rewrite existsb_exists. split.
  - intros (y & Hy & E). apply String.eqb_eq in E. subst. exact Hy.
  - intros Hx. exists x. split; [exact Hx|apply String.eqb_refl].
Qed.

Lemma inactive_members_spec ms part x :
  In x (flat_map (fun m => match Model.userId m with
                           | Some u => if existsb (String.eqb u) part then [] else [u]
                           | None => []
                           end) ms)
  <-> In x (member_ids ms) /\ ~ In x part.
Proof.
  induction ms as [|m ms IH]; simpl; [tauto|].
  rewrite !in_app_iff, IH.
  destruct (Model.userId m) as [u|]; simpl; [|tauto].
  destruct (existsb (String.eqb u) part) eqn:E; simpl.
  - apply existsb_eqb_In in E. split; [tauto|].
    intros [[[<-|[]]|Hm] Hn]; tauto.
  - assert (N : ~ In u part).
    { intros Hu. apply existsb_eqb_In in Hu. congruence. }
    split.
    + intros [[<-|[]]|Hx]; tauto.
    + tauto.
Qed.

(** X25. [createProject] files every member of the company once: the
    participants it stores are the requested users that are members of
    the company, the inactive members it stores are the members that were
    not requested, so each member is on exactly one of the two lists and
    nobody else is on either; without a company both lists are empty. *)
Theorem createProject_files_every_member_once requested :
  (forall c,
     let participants := create_participants (Some c) requested in
     let inactive := create_inactiveMembers (Some c) participants in
     (forall x, In x participants <-> In x requested /\ In x (member_ids (members c)))
     /\ (forall x, In x inactive <-> In x (member_ids (members c)) /\ ~ In x requested))
  /\ create_participants None requested = []
  /\ create_inactiveMembers None (create_participants None requested) = [].
Proof.
  split.
  - intros c participants inactive.
    assert (P : forall x, In x participants
                          <-> In x requested /\ In x (member_ids (members c))).
    { intros x. unfold participants, create_participants.
      rewrite filter_In, is_member_ids. tauto. }
    split; [exact P|].
    intros x. unfold inactive, create_inactiveMembers.
    rewrite inactive_members_spec, P. tauto.
  - split; [|reflexivity].
    unfold create_participants. induction requested; simpl; auto.
Qed.

End ModerationFacts.

Module UploadFacts.
Import Model Backend Upload Projects UploadController Authoring.
Import StorageSpec StorageFacts UploadSpec.

Section Uploads.
Context `{Platform} `{Libraries}.

Lemma scan_step file w :
  exists v w1,
    scan file w = (Ok v, w1)
    /\ assets w1 = assets w /\ projects w1 = projects w
    /\ storageCalls w1 = storageCalls w /\ cloudReplies w1 = cloudReplies w
    /\ verdicts w1 = verdicts w ++ [(originalname file, v)].
Proof.
  unfold scan, lift. run.
  destruct (AntivirusFacts.scan_never_throws (vt w) (buffer file) (originalname file))
    as (v & vw & E).
  rewrite E. simpl. do 2 eexists. split; [reflexivity|]. simpl. auto 10.
Qed.

Lemma find_project_step pid w r w' :
  find_project pid w = (r, w') ->
  w' = w
  /\ forall q, r = Ok (Some q) -> exists id, pid = Some id /\ projects w !! id = Some q.
Proof.
  unfold find_project, findById_cast, findById. run.
  destruct pid as [id|]; [|intros [= <- <-]; split; [auto|discriminate]].
  destruct (Js.truthy id); [|intros [= <- <-]; split; [auto|discriminate]].
  destruct (objectIdIsValid id); intros [= <- <-]; (split; [reflexivity|]).
  - intros q [= E]. eauto.
  - discriminate.
Qed.

Lemma upload_step buffer fileName mimeType folder w r w' :
  uploadToCloudinary buffer fileName mimeType folder w = (r, w') ->
  projects w' = projects w /\ verdicts w' = verdicts w /\ vt w' = vt w.
Proof.
  intros E. apply CreateFacts.uploadToCloudinary_spec in E as (D & _).
  destruct D as (P & _ & V & _ & _ & _ & Ve). auto.
Qed.

(** What a run of the handler does to the projects: nothing, unless the
    scan passed, in which case at most the project named in the request
    is saved, and only if it is not published. *)
Lemma uploadProjectFile_run k user file body w :
  exists r w',
    uploadProjectFile k user file body w = (Ok r, w')
    /\ ((untouched w w' /\ ~ is_stored r)
        \/ exists f v,
             file = Some f
             /\ verdicts w' = verdicts w ++ [(originalname f, v)]
             /\ Antivirus.isSafe v = true
             /\ (projects w' = projects w
                 \/ exists id q q',
                      projectId body = Some id /\ projects w !! id = Some q
                      /\ status q <> published
                      /\ projects w' = <[_id q := q']> (projects w))).
Proof.
  unfold uploadProjectFile.
  assert (Quiet : forall code error,
            exists r w', (Ok (Refused code error), w) = (Ok r, w')
              /\ ((untouched w w' /\ ~ is_stored r)
                  \/ exists f v,
                       file = Some f
                       /\ verdicts w' = verdicts w ++ [(originalname f, v)]
                       /\ Antivirus.isSafe v = true
                       /\ (projects w' = projects w
                           \/ exists id q q',
                                projectId body = Some id /\ projects w !! id = Some q
                                /\ status q <> published
                                /\ projects w' = <[_id q := q']> (projects w)))).
  { intros code error. do 2 eexists. split; [reflexivity|]. left.
    unfold untouched. simpl. auto. }
  unfold try_catch at 1.
  destruct (user_id user) as [userId|]; [|apply Quiet].
  destruct file as [f|]; [|apply Quiet].
  destruct (negb (projectFileUploadSchema_ok body)); [apply Quiet|].
  destruct (negb (validateFileType f (config k))); [apply Quiet|].
  destruct (maxSize (config k) <? Z.of_nat (List.length (buffer f))); [apply Quiet|].
  unfold bind at 1.
  destruct (scan_step f w) as (v & w1 & Es & A1 & P1 & C1 & R1 & V1). rewrite Es.
  destruct (Antivirus.isSafe v) eqn:Safe; cbn [negb].
  2: { do 2 eexists. split; [reflexivity|]. left. unfold untouched. simpl. auto. }
  assert (Loud : forall (rw : Res UploadResponse * World),
            verdicts (snd rw) = verdicts w1 ->
            (projects (snd rw) = projects w
             \/ exists id q q',
                  projectId body = Some id /\ projects w !! id = Some q
                  /\ status q <> published
                  /\ projects (snd rw) = <[_id q := q']> (projects w)) ->
            exists r w',
              match rw with
              | (Ok a, w') => (Ok a, w')
              | (Throw m, w') => (Ok (Refused 500 m), w')
              end = (Ok r, w')
              /\ ((untouched w w' /\ ~ is_stored r)
                  \/ exists f0 v0,
                       Some f = Some f0
                       /\ verdicts w' = verdicts w ++ [(originalname f0, v0)]
                       /\ Antivirus.isSafe v0 = true
                       /\ (projects w' = projects w
                           \/ exists id q q',
                                projectId body = Some id /\ projects w !! id = Some q
                                /\ status q <> published
                                /\ projects w' = <[_id q := q']> (projects w)))).
  { intros [[a|m] w'] Ve Pr; simpl in *; do 2 eexists; (split; [reflexivity|]);
      right; exists f, v; rewrite Ve, V1; auto. }
  match goal with
  | |- exists r w', (let '(_, _) := ?m in _) = _ /\ _ => apply (Loud m)
  end.
  - (* the verdicts *)
    unfold bind, clock, gets, ret. cbn [fst snd].
    destruct (find_project (projectId body) w1) as [[pr|m] w2] eqn:Ef;
      apply find_project_step in Ef as (-> & _); [|reflexivity].
    match goal with
    | |- context [uploadToCloudinary ?b ?n ?mt ?fo w1] =>
        destruct (uploadToCloudinary b n mt fo w1) as [[res|m] w3] eqn:Eu;
          apply upload_step in Eu as (P3 & V3 & T3)
    end; [|exact V3].
    destruct (attach k) as [attach_|]; [|exact V3].
    destruct (find_project (projectId body) w3) as [[pr2|m] w4] eqn:Ef2;
      apply find_project_step in Ef2 as (-> & _); [|exact V3].
    destruct pr2 as [q|]; [|exact V3].
    destruct (bool_decide (status q = published)); [exact V3|].
    unfold save, bind, clock, gets, modify, ret. simpl. exact V3.
  - (* the projects *)
    unfold bind, clock, gets, ret. cbn [fst snd].
    destruct (find_project (projectId body) w1) as [[pr|m] w2] eqn:Ef;
      apply find_project_step in Ef as (-> & _); [|left; exact P1].
    match goal with
    | |- context [uploadToCloudinary ?b ?n ?mt ?fo w1] =>
        destruct (uploadToCloudinary b n mt fo w1) as [[res|m] w3] eqn:Eu;
          apply upload_step in Eu as (P3 & V3 & T3)
    end; [|left; simpl; congruence].
    destruct (attach k) as [attach_|]; [|left; simpl; congruence].
    destruct (find_project (projectId body) w3) as [[pr2|m] w4] eqn:Ef2;
      apply find_project_step in Ef2 as (-> & F2); [|left; simpl; congruence].
    destruct pr2 as [q|]; [|left; simpl; congruence].
    destruct (F2 q eq_refl) as (id & Hid & Hq).
    destruct (bool_decide (status q = published)) eqn:St; [left; simpl; congruence|].
    apply bool_decide_eq_false in St.
    right. unfold save, bind, clock, gets, modify, ret. simpl.
    exists id, q. eexists. split; [exact Hid|]. split; [congruence|].
    split; [exact St|]. rewrite P3, P1. reflexivity.
Qed.

(** X26. Nothing is stored without a passing verdict.  Every call of an
    upload handler returns; unless the file was scanned and the verdict
    was 'safe', no asset is uploaded, no project is changed and the
    answer is not the success. *)
Theorem upload_stores_nothing_without_a_passing_verdict k user file body w :
  exists r w',
    uploadProjectFile k user file body w = (Ok r, w')
    /\ ((untouched w w' /\ ~ is_stored r)
        \/ exists f v,
             file = Some f
             /\ verdicts w' = verdicts w ++ [(originalname f, v)]
             /\ Antivirus.isSafe v = true).
Proof.
  destruct (uploadProjectFile_run k user file body w) as (r & w' & E & [Q|L]).
  - exists r, w'. auto.
  - destruct L as (f & v & Hf & Hv & Hs & _). exists r, w'. split; [exact E|].
    right. exists f, v. auto.
Qed.

(** X27. An upload never writes to a published project: whatever the
    request and whatever the scanner and the storage service answer, a
    project that is published is stored after the call exactly as it was
    before. *)
Theorem upload_never_writes_to_a_published_project k user file body w id p :
  keyed w -> projects w !! id = Some p -> status p = published ->
  exists r w',
    uploadProjectFile k user file body w = (Ok r, w')
    /\ projects w' !! id = Some p.
Proof.
  intros K Found St.
  destruct (uploadProjectFile_run k user file body w) as (r & w' & E & [Q|L]).
  - exists r, w'. split; [exact E|]. destruct Q as ((_ & P & _) & _). rewrite P. exact Found.
  - destruct L as (f & v & _ & _ & _ & [P|(i & q & q' & Hi & Hq & Hs & P)]);
      exists r, w'; (split; [exact E|]); rewrite P; [exact Found|].
    rewrite (K _ _ Hq).
    destruct (decide (i = id)) as [->|Hne].
    + rewrite Found in Hq. injection Hq as <-. contradiction.
    + rewrite lookup_insert_ne by exact Hne. exact Found.
Qed.

End Uploads.
End UploadFacts.

Module LikesFacts.
Import Likes LikesSpec.

Lemma filter_absent (u : string) l :
  ~ In u l -> List.filter (fun id => negb (String.eqb id u)) l = l.
Proof.
  induction l as [|x l IH]; simpl; [reflexivity|]. intros N.
  destruct (String.eqb_spec x u) as [->|Hne]; simpl.
  - exfalso. apply N. left. reflexivity.
  - f_equal. apply IH. tauto.
Qed.

Lemma filter_appended (u : string) l :
  ~ In u l -> List.filter (fun id => negb (String.eqb id u)) (l ++ [u]) = l.
Proof.
  intros N. rewrite List.filter_app, filter_absent by exact N. simpl.
  rewrite String.eqb_refl. simpl. apply app_nil_r.
Qed.

Lemma existsb_liked (u : string) l :
  existsb (fun id => String.eqb id u) l = true <-> In u l.
Proof.
  rewrite existsb_exists. split.
  - intros (y & Hy & E). apply String.eqb_eq in E. subst. exact Hy.
  - intros Hu. exists u. split; [exact Hu|apply String.eqb_refl].
Qed.

Lemma filter_one_less (u : string) l :
  List.NoDup l -> In u l ->
  S (List.length (List.filter (fun id => negb (String.eqb id u)) l)) = List.length l.
Proof.
  induction 1 as [|x l Hx Hl IH]; simpl; [tauto|]. intros [->|Hu].
  - rewrite String.eqb_refl. simpl. rewrite filter_absent by exact Hx. reflexivity.
  - destruct (String.eqb_spec x u) as [->|Hne]; [contradiction|]. simpl.
    rewrite IH by exact Hu. reflexivity.
Qed.

Lemma filter_NoDup (u : string) l :
  List.NoDup l -> List.NoDup (List.filter (fun id => negb (String.eqb id u)) l).
Proof.
  induction 1 as [|x l Hx Hl IH]; simpl; [constructor|].
  destruct (negb (String.eqb x u)); [|exact IH].
  constructor; [|exact IH]. rewrite filter_In. tauto.
Qed.

Section Likes.
Context `{Platform}.

(** X28. A like and its withdrawal cancel out: when a signed-in user
    that does not yet like the project calls [likeProject] twice, the
    first call adds the like and answers with the counter raised by one,
    the second removes it and answers with the old counter, and the
    project is stored as it was before the two calls. *)
Theorem like_then_unlike_restores_the_project userId projectId st p :
  userId <> "" -> objectIdIsValid projectId = true ->
  st !! projectId = Some p -> ~ In userId (likedBy p) -> 0 <= likes p ->
  exists st1 st2,
    likeProject (Some userId) projectId st
    = (Ok (LikeSent true (likes p + 1) "Like agregado"), st1)
    /\ likeProject (Some userId) projectId st1
       = (Ok (LikeSent false (likes p) "Like removido"), st2)
    /\ st2 !! projectId = Some p
    /\ forall k, k <> projectId -> st2 !! k = st !! k.
Proof.
  intros U V Found New Pos.
  assert (Tu : Js.truthy userId = true) by (apply RejectFacts.truthy_iff; exact U).
  assert (Hn : existsb (fun id => String.eqb id userId) (likedBy p) = false).
  { destruct (existsb _ (likedBy p)) eqn:E; [|reflexivity].
    apply existsb_liked in E. contradiction. }
  assert (Hy : existsb (fun id => String.eqb id userId) (likedBy p ++ [userId]) = true).
  { apply existsb_liked, in_app_iff. right. left. reflexivity. }
  unfold likeProject, Store in *. run. rewrite Tu, V. simpl. rewrite Found, Hn. simpl.
  do 2 eexists. split; [reflexivity|].
  rewrite lookup_insert_eq. simpl. rewrite Hy. simpl.
  replace (Z.max 0 (likes p + 1 - 1)) with (likes p) by lia.
  split; [reflexivity|].
  rewrite lookup_insert_eq, filter_appended by exact New.
  split; [destruct p; reflexivity|].
  intros k Hk. rewrite !lookup_insert_ne by congruence. reflexivity.
Qed.

(** X29. [likeProject] keeps the counter honest: when in every project
    the counter is the number of users listed in [likedBy], each listed
    once, the same holds after any call, whatever it answers. *)
Theorem likeProject_keeps_the_counter_honest userId projectId st :
  all_consistent st ->
  exists r st',
    likeProject userId projectId st = (Ok r, st') /\ all_consistent st'.
Proof.
  intros C. unfold likeProject, all_consistent, Store in *. run.
  destruct userId as [u|]; [|eauto].
  destruct (negb (Js.truthy u)); [eauto|].
  destruct (negb (objectIdIsValid projectId)); simpl; [eauto|].
  destruct (st !! projectId) as [p|] eqn:Found; simpl; [|eauto].
  destruct (C _ _ Found) as (Hl & Hd).
  do 2 eexists. split; [reflexivity|].
  intros k q. destruct (decide (k = projectId)) as [->|Hne].
  2: { rewrite lookup_insert_ne by congruence. apply C. }
  rewrite lookup_insert_eq. intros [= <-].
  destruct (existsb (fun id => String.eqb id u) (likedBy p)) eqn:E; split; simpl.
  - apply existsb_liked in E. pose proof (filter_one_less u _ Hd E). lia.
  - apply filter_NoDup, Hd.
  - rewrite length_app. simpl. lia.
  - apply List.NoDup_app; [exact Hd|repeat constructor; simpl; tauto|].
    intros x Hx [<-|[]]. apply existsb_liked in Hx. congruence.
Qed.

End Likes.
End LikesFacts.

Module OverrideFacts.
Import Model Backend Upload Projects ProjectMethods Authoring AntivirusAdmin OverrideSpec.

Section Override.
Context `{Platform} `{Libraries}.

(** X30. An override clears the flag of one file and rescans nothing:
    for an administrator, [markFileAsSafe] on a stored file that has a
    scan saves the project with that file no longer flagged, whatever its
    scan said, the asset, its URL and its name being the same and the
    other file as it was; a caller that is not an administrator gets 403
    and nothing changes. *)
Theorem markFileAsSafe_clears_one_flag user body w p f :
  overrideSchema_ok body = true -> objectIdIsValid (o_projectId body) = true ->
  projects w !! o_projectId body = Some p -> _id p = o_projectId body ->
  file_of (o_fileType body) p = Some f -> virusScan f <> None ->
  exists r w',
    markFileAsSafe user body w = (Ok r, w')
    /\ if is_admin user
       then exists p' f',
              projects w' !! o_projectId body = Some p'
              /\ file_of (o_fileType body) p' = Some f'
              /\ flagged (Some f') = false
              /\ publicId f' = publicId f /\ url f' = url f /\ fileName f' = fileName f
              /\ file_of (other (o_fileType body)) p' = file_of (other (o_fileType body)) p
              /\ assets w' = assets w
       else w' = w
            /\ r = OverrideFailure 403 "Solo administradores pueden marcar archivos como seguros".
Proof.
  intros Sc V Found Key Hf Hs.
  unfold markFileAsSafe, findById_cast, findById, save, clock. run.
  destruct (is_admin user); simpl; [|eauto].
  rewrite Sc, V. simpl. rewrite Found. simpl. rewrite Hf.
  unfold file_of in Hf.
  destruct (files p) as [fs|] eqn:Fs; [|discriminate].
  destruct (virusScan f) as [vs|] eqn:Vs; [|contradiction]. simpl.
  do 2 eexists. split; [reflexivity|]. simpl. rewrite Key.
  do 2 eexists. split; [apply lookup_insert_eq|].
  unfold file_of. simpl. rewrite Fs.
  destruct (o_fileType body); simpl; repeat split; reflexivity.
Qed.

End Override.
End OverrideFacts.

Module MoreExamples.
Import Antivirus AntivirusSpec AntivirusBatch QuotaSpec QuotaFacts.
Import Samples.



Lemma oversized_file_passes_unscanned_witness :
  Js.truthy (API_KEY (svc quiet)) = true
  /\ 0 <= dailyRequestCount (svc quiet) < 499
  /\ unknown_to_service quiet
  /\ 32 * 1024 * 1024 < Z.of_nat (List.length oversized)
  /\ exists v w' added,
       scanWithVirusTotal (H := Node.platform) oversized "big.iso" quiet = (Ok v, w')
       /\ v = scan_failed too_large_message
       /\ isSafe v = true
       /\ calls w' = calls quiet ++ added
       /\ posts added = 0%nat
       /\ requestCount (svc w') = requestCount (svc quiet) + 2.
Proof.
  assert (L : 32 * 1024 * 1024 < Z.of_nat (List.length oversized)).
  { unfold oversized. rewrite repeat_length, Z2Nat.id; lia. }
  split; [reflexivity|]. split; [simpl; lia|]. split; [exact I|]. split; [exact L|].
  apply (oversized_file_passes_unscanned (H := Node.platform) quiet oversized "big.iso");
    [reflexivity|simpl; lia|exact I|exact L].
Defined.

Lemma remaining_requests_decide_the_next_scan_witness :
  Js.truthy (API_KEY (svc exhausted)) = true
  /\ 0 <= remainingDailyRequests (getStats (svc exhausted))
  /\ (remainingDailyRequests (getStats (svc exhausted)) = 0 ->
        scanWithVirusTotal (H := Node.platform) Examples.abc "a.zip" exhausted
        = (Ok daily_limit_reached, exhausted))
  /\ (0 < remainingDailyRequests (getStats (svc exhausted)) ->
        exists v w' sleeps more,
          scanWithVirusTotal (H := Node.platform) Examples.abc "a.zip" exhausted
          = (Ok v, w')
          /\ calls w' = calls exhausted
                        ++ sleeps ++ GetReport (sha256 (Platform := Node.platform) Examples.abc)
                           :: more
          /\ forallb is_sleep sleeps = true).
Proof.
  split; [reflexivity|].
  apply (remaining_requests_decide_the_next_scan (H := Node.platform)
           exhausted Examples.abc "a.zip").
  reflexivity.
Defined.

Lemma daily_ceiling_is_never_lifted_witness :
  Js.truthy (API_KEY (svc exhausted)) = true
  /\ 500 <= dailyRequestCount (svc exhausted)
  /\ exists w',
       scans_over_time (H := Node.platform) two_scans exhausted
       = (Ok (map (fun _ => daily_limit_reached) two_scans), w')
       /\ svc w' = svc exhausted /\ calls w' = calls exhausted
       /\ reportReplies w' = reportReplies exhausted
       /\ scanReplies w' = scanReplies exhausted.
Proof.
  split; [reflexivity|]. split; [discriminate|].
  apply (daily_ceiling_is_never_lifted (H := Node.platform) exhausted two_scans);
    [reflexivity|discriminate].
Defined.

End MoreExamples.

Module HandlerExamples.
Import Model Backend Upload Admin Projects ProjectMethods Moderation Authoring.
Import UploadController AntivirusAdmin Likes.
Import StorageSpec AdminSpec DraftSpec ModerationSpec UploadSpec LikesSpec OverrideSpec.
Import ModelFacts AssetFacts ModerationFacts UploadFacts LikesFacts OverrideFacts.
Import Demo Samples.





Lemma feedback_status_is_stored_before_notifying_witness :
  objectIdIsValid (Platform := Node.platform) pid = true
  /\ feedbackSchema_ok complaint = true
  /\ projects published_demo !! pid = Some (project published live_icon live_code)
  /\ _id (project published live_icon live_code) = pid
  /\ (exists w' p',
        sendToAuthor (H := Node.platform) (H0 := libraries) pid complaint published_demo
        = (Ok (answer_after_notifying published_demo
                 "Proyecto enviado al autor para revisión" p'), w')
        /\ projects w' = <[pid := p']> (projects published_demo)
        /\ p' = set_updatedAt (Antivirus.now (vt published_demo))
                  (with_status needs_author_review (project published live_icon live_code))
        /\ status p' = needs_author_review
        /\ publishedAt p' = publishedAt (project published live_icon live_code))
  /\ (exists w' p',
        rejectProject (H := Node.platform) (H0 := libraries) pid complaint published_demo
        = (Ok (answer_after_notifying published_demo "Proyecto rechazado" p'), w')
        /\ projects w' = <[pid := p']> (projects published_demo)
        /\ p' = set_updatedAt (Antivirus.now (vt published_demo))
                  (with_status rejected (project published live_icon live_code))
        /\ status p' = rejected
        /\ publishedAt p' = publishedAt (project published live_icon live_code)).
Proof.
  split; [reflexivity|]. split; [reflexivity|]. split; [reflexivity|].
  split; [reflexivity|].
  apply (feedback_status_is_stored_before_notifying (H := Node.platform) (H0 := libraries)
           pid complaint published_demo (project published live_icon live_code));
    reflexivity.
Defined.

Lemma resubmitProject_only_from_rejection_witness :
  user_id author = Some owner
  /\ objectIdIsValid (Platform := Node.platform) pid = true
  /\ projects rejected_project !! pid = Some (project rejected live_icon live_code)
  /\ _id (project rejected live_icon live_code) = pid
  /\ may_act rejected_project (project rejected live_icon live_code) owner = true
  /\ exists r w',
       resubmitProject (H := Node.platform) (H0 := libraries) author pid rejected_project
       = (Ok r, w')
       /\ if resubmittable (status (project rejected live_icon live_code))
          then projects w'
               = <[pid := set_updatedAt (Antivirus.now (vt rejected_project))
                            (with_status pending (project rejected live_icon live_code))]>
                   (projects rejected_project)
               /\ r = Sent 200 "Proyecto reenviado para revisión exitosamente"
                        (set_updatedAt (Antivirus.now (vt rejected_project))
                           (with_status pending (project rejected live_icon live_code)))
                        None None
          else w' = rejected_project
               /\ r = Failure 400 "El proyecto debe estar rechazado o necesitar revisión para poder reenviarlo".
Proof.
  split; [reflexivity|]. split; [reflexivity|]. split; [reflexivity|].
  split; [reflexivity|]. split; [reflexivity|].
  apply (resubmitProject_only_from_rejection (H := Node.platform) (H0 := libraries)
           author owner pid rejected_project (project rejected live_icon live_code));
    reflexivity.
Defined.

Lemma upload_never_writes_to_a_published_project_witness :
  keyed published_demo
  /\ projects published_demo !! pid = Some (project published live_icon live_code)
  /\ status (project published live_icon live_code) = published
  /\ exists r w',
       uploadProjectCode (H := Node.platform) (H0 := libraries) author (Some archive)
         upload_request published_demo = (Ok r, w')
       /\ projects w' !! pid = Some (project published live_icon live_code).
Proof.
  assert (K : keyed published_demo).
  { intros k p Hk. unfold published_demo, world in Hk. cbn [projects] in Hk.
    apply lookup_singleton_Some in Hk as [<- <-]. reflexivity. }
  split; [exact K|]. split; [reflexivity|]. split; [reflexivity|].
  apply (upload_never_writes_to_a_published_project (H := Node.platform) (H0 := libraries)
           code_kind author (Some archive) upload_request published_demo pid
           (project published live_icon live_code));
    [exact K|reflexivity|reflexivity].
Defined.

Lemma like_then_unlike_restores_the_project_witness :
  owner <> "" /\ objectIdIsValid (Platform := Node.platform) pid = true
  /\ nobody_likes !! pid = Some {| likes := 0; likedBy := [] |}
  /\ ~ In owner (likedBy {| likes := 0; likedBy := [] |})
  /\ 0 <= likes {| likes := 0; likedBy := [] |}
  /\ exists st1 st2,
       likeProject (H := Node.platform) (Some owner) pid nobody_likes
       = (Ok (LikeSent true (likes {| likes := 0; likedBy := [] |} + 1) "Like agregado"),
          st1)
       /\ likeProject (H := Node.platform) (Some owner) pid st1
          = (Ok (LikeSent false (likes {| likes := 0; likedBy := [] |}) "Like removido"),
             st2)
       /\ st2 !! pid = Some {| likes := 0; likedBy := [] |}
       /\ forall k, k <> pid -> st2 !! k = nobody_likes !! k.
Proof.
  split; [discriminate|]. split; [reflexivity|]. split; [reflexivity|].
  split; [simpl; tauto|]. split; [simpl; lia|].
  apply (like_then_unlike_restores_the_project (H := Node.platform) owner pid nobody_likes
           {| likes := 0; likedBy := [] |});
    [discriminate|reflexivity|reflexivity|simpl; tauto|simpl; lia].
Defined.

Lemma likeProject_keeps_the_counter_honest_witness :
  all_consistent nobody_likes
  /\ exists r st',
       likeProject (H := Node.platform) (Some owner) pid nobody_likes = (Ok r, st')
       /\ all_consistent st'.
Proof.
  assert (C : all_consistent nobody_likes).
  { intros k p Hk. unfold nobody_likes in Hk.
    apply lookup_singleton_Some in Hk as [<- <-].
    split; [reflexivity|constructor]. }
  split; [exact C|].
  apply (likeProject_keeps_the_counter_honest (H := Node.platform) (Some owner) pid
           nobody_likes C).
Defined.

Lemma markFileAsSafe_clears_one_flag_witness :
  overrideSchema_ok override = true
  /\ objectIdIsValid (Platform := Node.platform) (o_projectId override) = true
  /\ projects flagged_world !! o_projectId override = Some flagged_project
  /\ _id flagged_project = o_projectId override
  /\ file_of (o_fileType override) flagged_project = Some flagged_code
  /\ virusScan flagged_code <> None
  /\ flagged (Some flagged_code) = true
  /\ exists r w',
       markFileAsSafe (H := Node.platform) (H0 := libraries) admin override flagged_world
       = (Ok r, w')
       /\ if is_admin admin
          then exists p' f',
                 projects w' !! o_projectId override = Some p'
                 /\ file_of (o_fileType override) p' = Some f'
                 /\ flagged (Some f') = false
                 /\ publicId f' = publicId flagged_code /\ url f' = url flagged_code
                 /\ fileName f' = fileName flagged_code
                 /\ file_of (other (o_fileType override)) p'
                    = file_of (other (o_fileType override)) flagged_project
                 /\ assets w' = assets flagged_world
          else w' = flagged_world
               /\ r = OverrideFailure 403
                        "Solo administradores pueden marcar archivos como seguros".
Proof.
  split; [reflexivity|]. split; [reflexivity|]. split; [reflexivity|].
  split; [reflexivity|]. split; [reflexivity|]. split; [discriminate|].
  split; [reflexivity|].
  apply (markFileAsSafe_clears_one_flag (H := Node.platform) (H0 := libraries)
           admin override flagged_world flagged_project flagged_code);
    [reflexivity|reflexivity|reflexivity|reflexivity|reflexivity|discriminate].
Defined.

End HandlerExamples.
